(** * Opportunity detection and narrative synthesis: a shallow embedding

    The development follows the Python sources [agent.py] and
    [app/services.py].

    - Python exceptions are values of an error monad ([result]); a function
      that can raise returns [result A], [try ... except Exception] is
      [try_except].
    - A nullable column is an [option]; arithmetic on [None] raises
      [TypeError] as in Python.
    - [Float] columns and Python floats are exact rationals ([Q]): rounding
      is outside the model, stored values are finite.
    - [str] is [string]; a Python [set] is a [gset]; a [dict] whose
      iteration order is observable is an association list in insertion
      order.
    - A table is the list of its rows in storage order.  [ORDER BY ... DESC]
      is a stable descending sort of that list (rows with equal keys keep
      their storage order, one of the orders an engine may return),
      [.all()] returns the selected rows in storage order and [.first()] the
      first of them.
    - Library calls outside the repository (the generative service, the JSON
      codec, [dateutil], the clock, [float()]) are parameters of the section
      that uses them.
    - [dateutil] parses a date text to a naive or to an offset-aware
      [datetime]; [datetime.now()] is naive, and subtracting an offset-aware
      datetime from it raises [TypeError]. *)

From Stdlib Require Import ZArith QArith String Ascii List Lia.
From Stdlib Require Import Sorting.Sorted Sorting.Permutation.
From stdpp Require Import base option list strings gmap.

Local Open Scope string_scope.

(** ** Python exceptions

    A raised instance of [Exception]: its class name and [str(e)].
    Interpreter signals that are not instances of [Exception]
    ([KeyboardInterrupt], [SystemExit]) are outside the model. *)

Record PyException := mkExc { exc_class : string; exc_str : string }.

Inductive result (A : Type) : Type :=
| Ok (a : A)
| Raise (e : PyException).
Arguments Ok {A} a.
Arguments Raise {A} e.

#[export] Instance result_ret : MRet result := fun _ a => Ok a.
#[export] Instance result_bind : MBind result := fun _ _ f m =>
  match m with Ok a => f a | Raise e => Raise e end.

(** [try: body except Exception as e: handler e] *)
Definition try_except {A} (body : result A) (handler : PyException -> result A)
  : result A :=
  match body with
  | Ok a => Ok a
  | Raise e => handler e
  end.

Definition returns {A} (m : result A) : Prop := exists a, m = Ok a.

Definition TypeError (msg : string) : PyException := mkExc "TypeError" msg.

(** ** agent.py: the narrative synthesizer *)

Module Agent.

(** What [json.loads] returns. *)
#[local] Set Warnings "-register-all".
Inductive json : Type :=
| JNull
| JBool (b : bool)
| JInt (n : Z)
| JFloat (q : Q)
| JString (s : string)
| JArray (items : list json)
| JObject (fields : list (string * json)).

Fixpoint obj_get (k : string) (fields : list (string * json)) : option json :=
  match fields with
  | [] => None
  | (k', v) :: rest => if String.eqb k k' then Some v else obj_get k rest
  end.

(** The dict literal of the [except] branch. *)
Definition fallback_object (error_details : string) : json :=
  JObject
    [ ("urgency_score", JInt 0);
      ("headline", JString "Manual Review Required");
      ("talking_point",
        JString "Data analysis incomplete. Please review client file manually.");
      ("suggested_action", JString "Open Profile");
      ("error_details", JString error_details) ].

Section Synthesizer.

(** Python objects the caller may pass, and the library calls made inside
    the [try] block.  Each call may raise. *)
Variable pyobj : Type.
Variable model response : Type.
Variable py_format : pyobj -> result string.
Variable json_dumps : pyobj -> result string.
Variable GenerativeModel : string -> string -> result model.
Variable generate_content : model -> string -> result response.
Variable text : response -> result string.
Variable json_loads : string -> result json.
Variable system_instruction : string.

Definition nl : string := String "010"%char EmptyString.

(** The f-string [final_prompt]; its placeholders are evaluated left to
    right. *)
Definition final_prompt (client_name opportunity_type raw_data : pyobj)
  : result string :=
  cn ← py_format client_name;
  ot ← py_format opportunity_type;
  rd ← json_dumps raw_data;
  mret (nl ++ system_instruction ++ nl ++ nl
        ++ "### ANALYZE THIS CLIENT:" ++ nl
        ++ "Client Name: " ++ cn ++ nl
        ++ "Opportunity Type: " ++ ot ++ nl
        ++ "Raw Data Context: " ++ rd ++ nl).

(** The body of the [try] block. *)
Definition attempt (client_name opportunity_type raw_data : pyobj)
  : result json :=
  m ← GenerativeModel "gemini-1.5-flash" "application/json";
  prompt ← final_prompt client_name opportunity_type raw_data;
  resp ← generate_content m prompt;
  txt ← text resp;
  json_loads txt.

Definition analyze_opportunity (client_name opportunity_type raw_data : pyobj)
  : result json :=
  try_except (attempt client_name opportunity_type raw_data)
             (fun e => Ok (fallback_object (exc_str e))).

End Synthesizer.

(** *** The output schema of the specification

    Follows the words of the specification (section 4.4 and 6), not the
    source: an object with exactly the six fields, an integer urgency score
    and a category from the closed set. *)

Definition spec_opportunity_types : list string :=
  ["SIP_RECOVERY"; "PORTFOLIO_OPTIMIZATION"; "PROTECTION_ENHANCEMENT"].

Definition is_jstring (o : option json) : bool :=
  match o with Some (JString _) => true | _ => false end.

Definition is_jint (o : option json) : bool :=
  match o with Some (JInt _) => true | _ => false end.

Definition is_category (o : option json) : bool :=
  match o with
  | Some (JString s) => existsb (String.eqb s) spec_opportunity_types
  | _ => false
  end.

Definition spec_schema_conforms (v : json) : bool :=
  match v with
  | JObject fields =>
      Nat.eqb (length fields) 6
      && is_jstring (obj_get "client_id" fields)
      && is_jint (obj_get "urgency_score" fields)
      && is_category (obj_get "opportunity_type" fields)
      && is_jstring (obj_get "headline" fields)
      && is_jstring (obj_get "talking_point" fields)
      && is_jstring (obj_get "suggested_action" fields)
  | _ => false
  end.

(** *** A concrete environment

    [json_loads_plain] is [json.loads] on documents built from objects,
    arrays, integers, escape-free strings and the three literals; it is used
    to run [analyze_opportunity] on concrete responses. *)

Definition is_ws (c : ascii) : bool :=
  match c with
  | " "%char | "009"%char | "010"%char | "013"%char => true
  | _ => false
  end.

Fixpoint skip_ws (s : list ascii) : list ascii :=
  match s with
  | c :: r => if is_ws c then skip_ws r else s
  | [] => []
  end.

Definition digit_of (c : ascii) : option Z :=
  let n := Z.of_nat (nat_of_ascii c) in
  if ((48 <=? n) && (n <=? 57))%Z then Some (n - 48)%Z else None.

Fixpoint scan_digits (s : list ascii) (acc : Z) : Z * list ascii :=
  match s with
  | c :: r =>
      match digit_of c with
      | Some d => scan_digits r (10 * acc + d)%Z
      | None => (acc, s)
      end
  | [] => (acc, [])
  end.

(** An integer literal: one digit, or a non-zero digit followed by digits;
    a fraction or exponent part is outside the fragment. *)
Definition scan_int (s : list ascii) : option (Z * list ascii) :=
  match s with
  | c :: r =>
      match digit_of c with
      | Some d =>
          let '(n, r') := if (d =? 0)%Z then (0%Z, r) else scan_digits r d in
          match r' with
          | c' :: _ =>
              if bool_decide (is_Some (digit_of c')) || Ascii.eqb c' "."
                 || Ascii.eqb c' "e" || Ascii.eqb c' "E"
              then None else Some (n, r')
          | [] => Some (n, r')
          end
      | None => None
      end
  | [] => None
  end.

Fixpoint scan_string (s : list ascii) (acc : string)
  : option (string * list ascii) :=
  match s with
  | c :: r =>
      if Ascii.eqb c "034" then Some (acc, r)
      else if Ascii.eqb c "\" || (nat_of_ascii c <? 32)%nat then None
      else scan_string r (acc ++ String c EmptyString)
  | [] => None
  end.

(** [d[k] = v] on the association list. *)
Fixpoint obj_set (k : string) (v : json) (fields : list (string * json))
  : list (string * json) :=
  match fields with
  | [] => [(k, v)]
  | (k', v') :: rest =>
      if String.eqb k k' then (k, v) :: rest else (k', v') :: obj_set k v rest
  end.

Fixpoint parse_value (fuel : nat) (s : list ascii)
  : option (json * list ascii) :=
  match fuel with
  | O => None
  | S f =>
      let elems :=
        fix elems (n : nat) (s : list ascii) (acc : list json) :=
          match n with
          | O => None
          | S n' =>
              match parse_value f s with
              | Some (v, r) =>
                  match skip_ws r with
                  | ","%char :: r' => elems n' r' (acc ++ [v])%list
                  | "]"%char :: r' => Some (JArray (acc ++ [v])%list, r')
                  | _ => None
                  end
              | None => None
              end
          end in
      let members :=
        fix members (n : nat) (s : list ascii) (acc : list (string * json)) :=
          match n with
          | O => None
          | S n' =>
              match skip_ws s with
              | "034"%char :: r =>
                  match scan_string r "" with
                  | Some (k, r1) =>
                      match skip_ws r1 with
                      | ":"%char :: r2 =>
                          match parse_value f r2 with
                          | Some (v, r3) =>
                              match skip_ws r3 with
                              | ","%char :: r4 => members n' r4 (obj_set k v acc)
                              | "}"%char :: r4 =>
                                  Some (JObject (obj_set k v acc), r4)
                              | _ => None
                              end
                          | None => None
                          end
                      | _ => None
                      end
                  | None => None
                  end
              | _ => None
              end
          end in
      match skip_ws s with
      | "n"%char :: "u"%char :: "l"%char :: "l"%char :: r => Some (JNull, r)
      | "t"%char :: "r"%char :: "u"%char :: "e"%char :: r =>
          Some (JBool true, r)
      | "f"%char :: "a"%char :: "l"%char :: "s"%char :: "e"%char :: r =>
          Some (JBool false, r)
      | "034"%char :: r =>
          match scan_string r "" with
          | Some (str, r') => Some (JString str, r')
          | None => None
          end
      | "["%char :: r =>
          match skip_ws r with
          | "]"%char :: r' => Some (JArray [], r')
          | _ => elems (List.length r) r []
          end
      | "{"%char :: r =>
          match skip_ws r with
          | "}"%char :: r' => Some (JObject [], r')
          | _ => members (List.length r) r []
          end
      | "-"%char :: r =>
          match scan_int r with
          | Some (n, r') => Some (JInt (- n), r')
          | None => None
          end
      | r =>
          match scan_int r with
          | Some (n, r') => Some (JInt n, r')
          | None => None
          end
      end
  end.

Definition JSONDecodeError : PyException :=
  mkExc "JSONDecodeError" "Expecting value".

Definition json_loads_plain (doc : string) : result json :=
  let s := list_ascii_of_string doc in
  match parse_value (S (List.length s)) s with
  | Some (v, r) =>
      match skip_ws r with
      | [] => Ok v
      | _ => Raise (mkExc "JSONDecodeError" "Extra data")
      end
  | None => Raise JSONDecodeError
  end.

(** A service that answers every prompt with the text [reply], or fails with
    [e] when the call is made. *)
Definition canned_model : Type := unit.

Definition run_with (reply : result string) (client_name : string)
    (opportunity_type : string) (raw_data : string) : result json :=
  analyze_opportunity string canned_model string
    (fun s => Ok s)
    (fun s => Ok s)
    (fun _ _ => Ok tt)
    (fun _ _ => reply)
    (fun r => Ok r)
    json_loads_plain
    "You are a Premier Wealth Strategist."
    client_name opportunity_type raw_data.

End Agent.

(** ** Python and SQL primitives used by app/services.py *)

Local Open Scope list_scope.

Definition Qltb (a b : Q) : bool := negb (Qle_bool b a).

(** [min(a, b)] returns [a] unless [b] is strictly smaller. *)
Definition py_min (a b : Q) : Q := if Qltb b a then b else a.

(** [x or 0] on an optional number. *)
Definition or_zero (x : option Q) : Q := default 0%Q x.

(** [s or d] on an optional string: [None] and the empty string are falsy. *)
Definition or_str (s : option string) (d : string) : string :=
  match s with
  | Some x => if String.eqb x "" then d else x
  | None => d
  end.

(** Truth value of an [Optional[int]]. *)
Definition truthy_int (x : option Z) : bool :=
  match x with
  | Some n => negb (n =? 0)%Z
  | None => false
  end.

(** Truth value of an [Optional[str]]. *)
Definition truthy_str (s : option string) : bool :=
  match s with
  | Some x => negb (String.eqb x "")
  | None => false
  end.

Definition unsupported (op : string) : PyException :=
  TypeError ("unsupported operand type(s) for " ++ op)%string.

Definition py_add (a b : option Q) : result Q :=
  match a, b with
  | Some x, Some y => Ok (x + y)%Q
  | _, _ => Raise (unsupported "+")
  end.

Definition py_mul (a b : option Q) : result Q :=
  match a, b with
  | Some x, Some y => Ok (x * y)%Q
  | _, _ => Raise (unsupported "*")
  end.

Definition py_truediv (a b : option Q) : result Q :=
  match a, b with
  | Some x, Some y =>
      if Qeq_bool y 0 then Raise (mkExc "ZeroDivisionError" "float division by zero")
      else Ok (x / y)%Q
  | _, _ => Raise (unsupported "/")
  end.

(** [a >= b] on an optional number and a number. *)
Definition py_ge (a : option Q) (b : Q) : result bool :=
  match a with
  | Some x => Ok (Qle_bool b x)
  | None => Raise (TypeError "'>=' not supported between instances")
  end.

(** A number interpolated with a numeric format specification
    ([{x:,.0f}], [{x:.1f}]); the result stands for the rendered digits. *)
Definition py_format_float (x : option Q) : result Q :=
  match x with
  | Some q => Ok q
  | None => Raise (TypeError "unsupported format string passed to NoneType.__format__")
  end.

(** SQL comparisons of a nullable column with a value: a NULL never
    satisfies them. *)
Definition sql_eq (col : option string) (v : string) : bool :=
  match col with
  | Some x => String.eqb x v
  | None => false
  end.

Definition sql_ge (col : option Q) (v : Q) : bool :=
  match col with
  | Some x => Qle_bool v x
  | None => false
  end.

Definition sql_gt (col : option Q) (v : Q) : bool :=
  match col with
  | Some x => Qltb v x
  | None => false
  end.

Definition sql_ge_int (col : option Z) (v : Z) : bool :=
  match col with
  | Some x => (v <=? x)%Z
  | None => false
  end.

Definition isnot_None {A} (col : option A) : bool :=
  match col with
  | Some _ => true
  | None => false
  end.

(** [if key: query = query.filter(column == key)] *)
Definition optional_filter (key : option string) (col : option string) : bool :=
  match key with
  | Some k => if String.eqb k "" then true else sql_eq col k
  | None => true
  end.

(** [func.sum]: NULLs are skipped, the sum of no value is NULL. *)
Fixpoint sql_sum (col : list (option Q)) : option Q :=
  match col with
  | [] => None
  | None :: rest => sql_sum rest
  | Some x :: rest => Some (x + or_zero (sql_sum rest))%Q
  end.

(** Stable descending sort by a numeric key: [list.sort(key=..., reverse=True)]
    and [ORDER BY ... DESC]. *)
Fixpoint insert_desc {A} (key : A -> Q) (x : A) (l : list A) : list A :=
  match l with
  | [] => [x]
  | y :: l' =>
      if Qltb (key x) (key y) then y :: insert_desc key x l'
      else x :: y :: l'
  end.

Fixpoint sort_desc {A} (key : A -> Q) (l : list A) : list A :=
  match l with
  | [] => []
  | x :: l' => insert_desc key x (sort_desc key l')
  end.

(** A list is in descending order of [key]. *)
Definition sorted_desc {A} (key : A -> Q) (l : list A) : Prop :=
  StronglySorted (fun a b => (key b <= key a)%Q) l.

(** [for x in xs: body] over a list under construction: the body receives
    the list built so far and returns it, possibly extended. *)
Fixpoint for_each {A S} (body : A -> S -> result S) (xs : list A) (acc : S)
  : result S :=
  match xs with
  | [] => Ok acc
  | x :: rest => acc' ← body x acc; for_each body rest acc'
  end.

(** The four coverage types of [all_types]. *)
Definition all_types : gset string :=
  {[ "Health"; "Term"; "ULIP"; "Traditional" ]}.

(** ** app/models.py: the rows read by the detectors

    Every column but the primary key is nullable.  Only the columns the
    detectors read are kept. *)

Module SIPRecord.
Record t := mk {
  user_id : option string;
  agent_id : option string;
  agent_external_id : option string;
  amount : option Q;
  start_date : option string;
  increment_percentage : option Q;
  increment_period : option string;
  is_active : option string;
  current_sip_status : option string;
  latest_success_order_date : option string;
  success_amount : option Q;
  failed_amount : option Q;
  deleted : option string
}.
End SIPRecord.

Module InsuranceRecord.
Record t := mk {
  user_id : option string;
  name : option string;
  mf_current_value : option Q;
  wealth_band : option string;
  mock_age : option Z;
  insurance_type : option string;
  premium : option Q;
  agent_id : option string;
  agent_external_id : option string;
  baseline_expected_premium : option Q;
  premium_gap : option Q;
  opportunity_score : option Z;
  deleted : option string
}.
End InsuranceRecord.

Module PortfolioHolding.
Record t := mk {
  user_id : option string;
  wpc : option string;
  scheme_name : option string;
  category : option string;
  amc_name : option string;
  current_value : option Q;
  portfolio_weight : option Q;
  xirr_performance : option Q;
  three_year_returns_alpha : option Q;
  five_year_returns_alpha : option Q;
  rolling_12q_beat_percentage : option Q;
  comment : option string;
  w_rating : option string
}.
End PortfolioHolding.

(** The database session: the three tables, rows in storage order. *)
Record Session := mkSession {
  sip_records : list SIPRecord.t;
  insurance_records : list InsuranceRecord.t;
  portfolio_holdings : list PortfolioHolding.t
}.

(** ** app/schemas.py: the objects returned by the detectors *)

(** An f-string description is kept as its template and the values
    interpolated into it. *)
Inductive description : Type :=
| NoIncreaseText (months_since_last expected_increments : Z)
    (increment_period : option string)
| FailedText (failed_amount failure_rate : Q) (status : option string)
| InactiveText (success_amount : Q) (days_since_activity : Z)
| GapText (premium_gap : Q) (insurance_types missing_types : gset string)
| NoCoverageText (total_invested : Q)
| LowRatedText (w_rating : option string) (comment : string).

(** Modelled from the spec: app/schemas.py is absent.  [OpportunityClient]
    is the derived Opportunity entity of the data model (client id, advisor
    id, category tag, description, potential value, risk score, source
    monetary figures, timestamps), with one field per keyword argument the
    detectors pass; construction performs no check. *)
Module OpportunityClient.
Record t := mk {
  user_id : option string;
  agent_id : string;
  agent_external_id : string;
  opportunity_type : string;
  opportunity_description : description;
  current_sip_amount : option Q;
  potential_increase : option Q;
  last_activity_date : option string;
  days_since_activity : option Z;
  total_invested : option Q;
  failed_amount : option Q;
  risk_score : option Q
}.
End OpportunityClient.

(** Modelled from the spec: app/schemas.py is absent.  [InsuranceOpportunity]
    carries one field per keyword argument the detectors pass;
    [missing_coverage_types] is a list built from a set, its order is the
    set's iteration order and is not modelled. *)
Module InsuranceOpportunity.
Record t := mk {
  user_id : option string;
  name : string;
  agent_id : string;
  agent_external_id : string;
  opportunity_type : string;
  opportunity_description : description;
  wealth_band : string;
  age : option Z;
  mf_current_value : Q;
  total_premium : Q;
  baseline_expected_premium : Q;
  premium_gap : Q;
  opportunity_score : Z;
  missing_coverage_types : gset string
}.
End InsuranceOpportunity.

(** Modelled from the spec: app/schemas.py is absent.  [PortfolioOpportunity]
    carries one field per keyword argument the detectors pass. *)
Module PortfolioOpportunity.
Record t := mk {
  user_id : option string;
  scheme_name : option string;
  wpc : option string;
  category : option string;
  amc_name : option string;
  current_value : option Q;
  portfolio_weight : option Q;
  opportunity_type : string;
  opportunity_description : description;
  w_rating : option string;
  xirr_performance : option Q;
  three_year_returns_alpha : option Q;
  five_year_returns_alpha : option Q;
  rolling_12q_beat_percentage : option Q
}.
End PortfolioOpportunity.

(** An entry of the list [issues] of [get_underperforming_funds]: the
    template of its f-string and the value interpolated into it. *)
Inductive issue : Type :=
| ThreeYearAlphaIssue (three_year_returns_alpha : Q)
| FiveYearAlphaIssue (five_year_returns_alpha : Q)
| XirrIssue (xirr_performance : Q).

(** The descriptions written by [get_underperforming_funds] and by
    [get_portfolio_rebalancing_opportunities]. *)
Inductive fund_description : Type :=
| UnderperformingText (issues : list issue) (comment : string)
| ConcentrationText (portfolio_weight : Q).

(** Modelled from the spec: app/schemas.py is absent.  [FundOpportunity] is
    the [PortfolioOpportunity] object as these two detectors build it, with
    the same keyword arguments and a description of their own. *)
Module FundOpportunity.
Record t := mk {
  user_id : option string;
  scheme_name : option string;
  wpc : option string;
  category : option string;
  amc_name : option string;
  current_value : option Q;
  portfolio_weight : option Q;
  opportunity_type : string;
  opportunity_description : fund_description;
  w_rating : option string;
  xirr_performance : option Q;
  three_year_returns_alpha : option Q;
  five_year_returns_alpha : option Q;
  rolling_12q_beat_percentage : option Q
}.
End FundOpportunity.

(** Modelled from the spec: app/schemas.py is absent.  [OpportunityStats]
    carries the three keyword arguments of [get_opportunity_statistics];
    [breakdown_by_type] is a dict written as a literal, kept in the order of
    the literal, and each of its values is a dict with the keys [count] and
    [potential_revenue]. *)
Module OpportunityStats.
Record by_type := mk_by_type {
  count : nat;
  potential_revenue : Q
}.
Record t := mk {
  total_opportunities : nat;
  total_potential_revenue : Q;
  breakdown_by_type : list (string * by_type)
}.
End OpportunityStats.

(** What [float(text)] returns when it does not raise. *)
Inductive pyfloat : Type :=
| Finite (q : Q)
| PosInf
| NegInf
| NaN.

(** [x < y] for a parsed float [x] and a finite [y]. *)
Definition pyfloat_ltb (x : pyfloat) (y : Q) : bool :=
  match x with
  | Finite q => Qltb q y
  | NegInf => true
  | PosInf | NaN => false
  end.

(** What [dateutil.parser.parse] returns: a naive datetime, or a datetime
    that carries a UTC offset (for a text with [Z], a zone name or a numeric
    offset).  Either one is given by its instant in microseconds. *)
Inductive datetime : Type :=
| Naive (instant : Z)
| Aware (instant : Z).

(** ** app/services.py *)

Module Services.

Section Detectors.

(** [datetime.now()] and [dateutil.parser.parse].  Instants are counted in
    microseconds; [datetime.now()] is naive and the clock is read once per
    request; [None] stands for a parser error. *)
Variable now : Z.
Variable date_parser_parse : string -> option datetime.
(** [float(text)] on a string; [None] stands for [ValueError]. *)
Variable float_of_str : string -> option pyfloat.

Definition microseconds_per_day : Z := 86400000000.

Definition parse_date_safe (date_string : option string) : option datetime :=
  match date_string with
  | None => None
  | Some s => if String.eqb s "" then None else date_parser_parse s
  end.

Definition aware_error : PyException :=
  TypeError "can't subtract offset-naive and offset-aware datetimes".

(** [datetime.now() - parsed_date], in microseconds: the naive
    [datetime.now()] less an offset-aware datetime raises [TypeError]. *)
Definition now_minus (parsed_date : datetime) : result Z :=
  match parsed_date with
  | Naive instant => Ok (now - instant)%Z
  | Aware _ => Raise aware_error
  end.

(** [(datetime.now() - parsed_date).days]; the subtraction is outside the
    [try] of [parse_date_safe]. *)
Definition get_days_since_date (date_string : option string)
  : result (option Z) :=
  match parse_date_safe date_string with
  | None => mret None
  | Some parsed_date =>
      elapsed ← now_minus parsed_date;
      mret (Some (elapsed / microseconds_per_day)%Z)
  end.

Definition get_months_since_date (date_string : option string)
  : result (option Z) :=
  days ← get_days_since_date date_string;
  match days with
  | None => mret None
  | Some days => mret (Some (days / 30)%Z)
  end.

(** The date text parses to an offset-aware datetime. *)
Definition offset_aware (date_string : option string) : bool :=
  match parse_date_safe date_string with
  | Some (Aware _) => true
  | _ => false
  end.

(** The value [get_days_since_date] returns, [None] also where it raises. *)
Definition days_elapsed (date_string : option string) : option Z :=
  match get_days_since_date date_string with
  | Ok days => days
  | Raise _ => None
  end.

(** The value [get_months_since_date] returns, [None] also where it
    raises. *)
Definition months_elapsed (date_string : option string) : option Z :=
  match get_months_since_date date_string with
  | Ok months => months
  | Raise _ => None
  end.

(** *** get_no_sip_increase_clients *)

Definition no_sip_increase_query (agent_id : option string) (r : SIPRecord.t)
  : bool :=
  sql_eq (SIPRecord.is_active r) "true"
  && sql_eq (SIPRecord.current_sip_status r) "Success"
  && sql_eq (SIPRecord.deleted r) "false"
  && isnot_None (SIPRecord.latest_success_order_date r)
  && sql_gt (SIPRecord.increment_percentage r) 0
  && optional_filter agent_id (SIPRecord.agent_id r).

Definition expected_increments (increment_period : option string)
    (months_since_start : Z) : Z :=
  if sql_eq increment_period "6M" && (6 <=? months_since_start)%Z
  then (months_since_start / 6)%Z
  else if sql_eq increment_period "1Y" && (12 <=? months_since_start)%Z
  then (months_since_start / 12)%Z
  else 0%Z.

(** The [OpportunityClient(...)] call of the loop body. *)
Definition no_sip_increase_opportunity (record : SIPRecord.t)
    (months_since_last expected : Z) (potential_increase : Q)
    (days_since_activity : option Z) : OpportunityClient.t :=
  {| OpportunityClient.user_id := SIPRecord.user_id record;
     OpportunityClient.agent_id := or_str (SIPRecord.agent_id record) "0";
     OpportunityClient.agent_external_id :=
       or_str (SIPRecord.agent_external_id record) "unassigned";
     OpportunityClient.opportunity_type := "No SIP Increase";
     OpportunityClient.opportunity_description :=
       NoIncreaseText months_since_last expected
         (SIPRecord.increment_period record);
     OpportunityClient.current_sip_amount := SIPRecord.amount record;
     OpportunityClient.potential_increase := Some potential_increase;
     OpportunityClient.last_activity_date :=
       SIPRecord.latest_success_order_date record;
     OpportunityClient.days_since_activity := days_since_activity;
     OpportunityClient.total_invested := SIPRecord.success_amount record;
     OpportunityClient.failed_amount := None;
     OpportunityClient.risk_score :=
       Some (py_min 10 (inject_Z months_since_last / 6)) |}.

Definition no_sip_increase_body (min_months : Z) (record : SIPRecord.t)
    (opportunities : list OpportunityClient.t)
  : result (list OpportunityClient.t) :=
  months_since_last ←
    get_months_since_date (SIPRecord.latest_success_order_date record);
  months_since_start ← get_months_since_date (SIPRecord.start_date record);
  if truthy_int months_since_last && truthy_int months_since_start
     && sql_ge_int months_since_last min_months
  then
    let expected :=
      expected_increments (SIPRecord.increment_period record)
        (default 0%Z months_since_start) in
    if (0 <? expected)%Z then
      pct ← py_truediv (SIPRecord.increment_percentage record) (Some 100%Q);
      potential_increase ← py_mul (SIPRecord.amount record) (Some pct);
      days_since_activity ←
        get_days_since_date (SIPRecord.latest_success_order_date record);
      mret (opportunities ++
        [ no_sip_increase_opportunity record (default 0%Z months_since_last)
            expected potential_increase days_since_activity ])
    else mret opportunities
  else mret opportunities.

(** [lambda x: x.potential_increase or 0] *)
Definition potential_key (x : OpportunityClient.t) : Q :=
  or_zero (OpportunityClient.potential_increase x).

(** [lambda x: x.total_invested or 0] *)
Definition invested_key (x : OpportunityClient.t) : Q :=
  or_zero (OpportunityClient.total_invested x).

(** The two tests of the loop body that decide whether a fetched plan
    reaches the [OpportunityClient(...)] call, on the months the two calls
    return. *)
Definition no_sip_increase_due (min_months : Z) (record : SIPRecord.t) : bool :=
  let months_since_last :=
    months_elapsed (SIPRecord.latest_success_order_date record) in
  let months_since_start :=
    months_elapsed (SIPRecord.start_date record) in
  truthy_int months_since_last && truthy_int months_since_start
  && sql_ge_int months_since_last min_months
  && (0 <? expected_increments (SIPRecord.increment_period record)
             (default 0%Z months_since_start))%Z.

(** The opportunity [o] is the one the loop body builds from the plan [r]. *)
Definition no_sip_increase_emitted (r : SIPRecord.t) (o : OpportunityClient.t)
  : Prop :=
  exists amount increment_percentage months_since_last months_since_start
         days_since_activity,
    SIPRecord.amount r = Some amount
    /\ SIPRecord.increment_percentage r = Some increment_percentage
    /\ get_months_since_date (SIPRecord.latest_success_order_date r)
       = Ok (Some months_since_last)
    /\ get_months_since_date (SIPRecord.start_date r)
       = Ok (Some months_since_start)
    /\ get_days_since_date (SIPRecord.latest_success_order_date r)
       = Ok days_since_activity
    /\ o = no_sip_increase_opportunity r months_since_last
             (expected_increments (SIPRecord.increment_period r)
                months_since_start)
             (amount * (increment_percentage / 100))%Q
             days_since_activity.

Definition get_no_sip_increase_clients (db : Session)
    (agent_id : option string) (min_months : Z) (limit : nat)
  : result (list OpportunityClient.t) :=
  let records :=
    List.filter (no_sip_increase_query agent_id) (sip_records db) in
  opportunities ← for_each (no_sip_increase_body min_months) records [];
  mret (take limit (sort_desc potential_key opportunities)).

(** *** get_failed_sip_clients *)

Definition failed_sip_query (agent_id : option string) (min_failed_amount : Q)
    (r : SIPRecord.t) : bool :=
  sql_eq (SIPRecord.deleted r) "false"
  && sql_ge (SIPRecord.failed_amount r) min_failed_amount
  && optional_filter agent_id (SIPRecord.agent_id r).

Definition failure_rate_of (record : SIPRecord.t) : result Q :=
  total_attempted ←
    py_add (SIPRecord.success_amount record) (SIPRecord.failed_amount record);
  if Qltb 0 total_attempted then
    q ← py_truediv (SIPRecord.failed_amount record) (Some total_attempted);
    mret (q * 100)%Q
  else mret 0%Q.

(** The [OpportunityClient(...)] call of the loop body. *)
Definition failed_sip_opportunity (record : SIPRecord.t)
    (shown_failed failure_rate : Q) (days_since_activity : option Z)
  : OpportunityClient.t :=
  {| OpportunityClient.user_id := SIPRecord.user_id record;
     OpportunityClient.agent_id := or_str (SIPRecord.agent_id record) "0";
     OpportunityClient.agent_external_id :=
       or_str (SIPRecord.agent_external_id record) "unassigned";
     OpportunityClient.opportunity_type := "Failed SIP Transactions";
     OpportunityClient.opportunity_description :=
       FailedText shown_failed failure_rate
         (SIPRecord.current_sip_status record);
     OpportunityClient.current_sip_amount := SIPRecord.amount record;
     OpportunityClient.potential_increase := SIPRecord.failed_amount record;
     OpportunityClient.last_activity_date :=
       SIPRecord.latest_success_order_date record;
     OpportunityClient.days_since_activity := days_since_activity;
     OpportunityClient.total_invested := SIPRecord.success_amount record;
     OpportunityClient.failed_amount := SIPRecord.failed_amount record;
     OpportunityClient.risk_score := Some (py_min 10 (failure_rate / 10)) |}.

Definition failed_sip_body (record : SIPRecord.t)
    (opportunities : list OpportunityClient.t)
  : result (list OpportunityClient.t) :=
  failure_rate ← failure_rate_of record;
  shown_failed ← py_format_float (SIPRecord.failed_amount record);
  days_since_activity ←
    get_days_since_date (SIPRecord.latest_success_order_date record);
  mret (opportunities ++
          [ failed_sip_opportunity record shown_failed failure_rate
              days_since_activity ]).

(** [lambda r: r.failed_amount], the [ORDER BY] key. *)
Definition failed_key (r : SIPRecord.t) : Q :=
  or_zero (SIPRecord.failed_amount r).

(** The failure rate the loop body computes from the two totals. *)
Definition failure_rate (success_amount failed_amount : Q) : Q :=
  if Qltb 0 (success_amount + failed_amount)
  then (failed_amount / (success_amount + failed_amount) * 100)%Q
  else 0%Q.

(** The opportunity [o] is the one the loop body builds from the plan [r]. *)
Definition failed_sip_emitted (r : SIPRecord.t) (o : OpportunityClient.t)
  : Prop :=
  exists success_amount failed_amount days_since_activity,
    SIPRecord.success_amount r = Some success_amount
    /\ SIPRecord.failed_amount r = Some failed_amount
    /\ get_days_since_date (SIPRecord.latest_success_order_date r)
       = Ok days_since_activity
    /\ OpportunityClient.potential_increase o = Some failed_amount
    /\ OpportunityClient.risk_score o
       = Some (py_min 10 (failure_rate success_amount failed_amount / 10))
    /\ o = failed_sip_opportunity r failed_amount
             (failure_rate success_amount failed_amount)
             days_since_activity.

(** Follows the words of the claim, not the source: the rate is the
    quotient, and 0 when the two totals add up to 0. *)
Definition spec_failure_rate (success_amount failed_amount : Q) : Q :=
  if Qeq_bool (success_amount + failed_amount) 0 then 0%Q
  else (failed_amount / (success_amount + failed_amount) * 100)%Q.

(** The rows fetched by
    [query.order_by(desc(SIPRecord.failed_amount)).limit(limit * 2).all()];
    the filter leaves no NULL [failed_amount]. *)
Definition failed_sip_records (db : Session) (agent_id : option string)
    (min_failed_amount : Q) (limit : nat) : list SIPRecord.t :=
  take (limit * 2)
    (sort_desc failed_key
       (List.filter (failed_sip_query agent_id min_failed_amount)
          (sip_records db))).

Definition get_failed_sip_clients (db : Session) (agent_id : option string)
    (min_failed_amount : Q) (limit : nat) : result (list OpportunityClient.t) :=
  let records := failed_sip_records db agent_id min_failed_amount limit in
  opportunities ← for_each failed_sip_body records [];
  mret (take limit opportunities).

(** *** get_high_value_inactive_clients *)

Definition high_value_inactive_query (agent_id : option string)
    (min_invested_amount : Q) (r : SIPRecord.t) : bool :=
  sql_eq (SIPRecord.deleted r) "false"
  && sql_ge (SIPRecord.success_amount r) min_invested_amount
  && isnot_None (SIPRecord.latest_success_order_date r)
  && optional_filter agent_id (SIPRecord.agent_id r).

(** The [OpportunityClient(...)] call of the loop body. *)
Definition high_value_inactive_opportunity (record : SIPRecord.t)
    (days_since_activity : Z) (potential_increase shown_invested : Q)
  : OpportunityClient.t :=
  {| OpportunityClient.user_id := SIPRecord.user_id record;
     OpportunityClient.agent_id := or_str (SIPRecord.agent_id record) "0";
     OpportunityClient.agent_external_id :=
       or_str (SIPRecord.agent_external_id record) "unassigned";
     OpportunityClient.opportunity_type := "High-Value Inactive Client";
     OpportunityClient.opportunity_description :=
       InactiveText shown_invested days_since_activity;
     OpportunityClient.current_sip_amount := SIPRecord.amount record;
     OpportunityClient.potential_increase := Some potential_increase;
     OpportunityClient.last_activity_date :=
       SIPRecord.latest_success_order_date record;
     OpportunityClient.days_since_activity := Some days_since_activity;
     OpportunityClient.total_invested := SIPRecord.success_amount record;
     OpportunityClient.failed_amount := None;
     OpportunityClient.risk_score :=
       Some (py_min 10 (inject_Z days_since_activity / 30)) |}.

Definition high_value_inactive_body (min_inactive_days : Z)
    (record : SIPRecord.t) (opportunities : list OpportunityClient.t)
  : result (list OpportunityClient.t) :=
  days_since_activity ←
    get_days_since_date (SIPRecord.latest_success_order_date record);
  if truthy_int days_since_activity
     && sql_ge_int days_since_activity min_inactive_days
  then
    potential_increase ← py_mul (SIPRecord.amount record) (Some (3 # 2)%Q);
    shown_invested ← py_format_float (SIPRecord.success_amount record);
    mret (opportunities ++
      [ high_value_inactive_opportunity record (default 0%Z days_since_activity)
          potential_increase shown_invested ])
  else mret opportunities.

(** The test of the loop body that decides whether a fetched plan reaches
    the [OpportunityClient(...)] call, on the days the call returns. *)
Definition high_value_inactive_due (min_inactive_days : Z)
    (record : SIPRecord.t) : bool :=
  let days_since_activity :=
    days_elapsed (SIPRecord.latest_success_order_date record) in
  truthy_int days_since_activity
  && sql_ge_int days_since_activity min_inactive_days.

(** [lambda r: r.success_amount], the [ORDER BY] key. *)
Definition success_key (r : SIPRecord.t) : Q :=
  or_zero (SIPRecord.success_amount r).

(** The opportunity [o] is the one the loop body builds from the plan [r]. *)
Definition high_value_inactive_emitted (r : SIPRecord.t)
    (o : OpportunityClient.t) : Prop :=
  exists amount success_amount days_since_activity,
    SIPRecord.amount r = Some amount
    /\ SIPRecord.success_amount r = Some success_amount
    /\ get_days_since_date (SIPRecord.latest_success_order_date r)
       = Ok (Some days_since_activity)
    /\ OpportunityClient.potential_increase o = Some (amount * (3 # 2))%Q
    /\ OpportunityClient.risk_score o
       = Some (py_min 10 (inject_Z days_since_activity / 30))
    /\ o = high_value_inactive_opportunity r days_since_activity
             (amount * (3 # 2))%Q success_amount.

(** Follows the words of the claim, not the source: the plan is not
    soft-deleted, has [success_amount >= min_invested_amount] and a
    parseable latest-success date at least [min_inactive_days] days old. *)
Definition spec_high_value_inactive_eligible (min_invested_amount : Q)
    (min_inactive_days : Z) (r : SIPRecord.t) : Prop :=
  SIPRecord.deleted r = Some "false"
  /\ (exists s, SIPRecord.success_amount r = Some s
                /\ (min_invested_amount <= s)%Q)
  /\ (exists d, get_days_since_date (SIPRecord.latest_success_order_date r)
                = Ok (Some d)
                /\ (min_inactive_days <= d)%Z).

(** The rows fetched by
    [query.order_by(desc(SIPRecord.success_amount)).limit(limit * 3).all()];
    the filter leaves no NULL [success_amount]. *)
Definition high_value_inactive_records (db : Session)
    (agent_id : option string) (min_invested_amount : Q) (limit : nat)
  : list SIPRecord.t :=
  take (limit * 3)
    (sort_desc success_key
       (List.filter (high_value_inactive_query agent_id min_invested_amount)
          (sip_records db))).

Definition get_high_value_inactive_clients (db : Session)
    (agent_id : option string) (min_invested_amount : Q)
    (min_inactive_days : Z) (limit : nat) : result (list OpportunityClient.t) :=
  let records :=
    high_value_inactive_records db agent_id min_invested_amount limit in
  opportunities ← for_each (high_value_inactive_body min_inactive_days) records [];
  mret (take limit (sort_desc invested_key opportunities)).

(** *** get_all_opportunities *)

Definition combined_key (x : OpportunityClient.t) : Q :=
  (or_zero (OpportunityClient.risk_score x)
   + or_zero (OpportunityClient.potential_increase x) / 10000)%Q.

Definition get_all_opportunities (db : Session) (agent_id : option string)
    (limit : nat) : result (list OpportunityClient.t) :=
  no_increase ← get_no_sip_increase_clients db agent_id 12 (limit / 3);
  failed ← get_failed_sip_clients db agent_id 5000 (limit / 3);
  inactive ← get_high_value_inactive_clients db agent_id 100000 60 (limit / 3);
  let all_opps := ([] ++ no_increase ++ failed ++ inactive)%list in
  mret (take limit (sort_desc combined_key all_opps)).

(** *** get_insurance_gap_opportunities *)

Definition insurance_gap_query (agent_id : option string) (min_premium_gap : Q)
    (min_opportunity_score : Z) (r : InsuranceRecord.t) : bool :=
  sql_eq (InsuranceRecord.deleted r) "false"
  && sql_ge (InsuranceRecord.premium_gap r) min_premium_gap
  && sql_ge_int (InsuranceRecord.opportunity_score r) min_opportunity_score
  && optional_filter agent_id (InsuranceRecord.agent_id r).

(** A value of the dict [client_insurance]. *)
Record client_data := mkData {
  data_record : InsuranceRecord.t;
  data_insurance_types : gset string;
  data_total_premium : Q
}.

(** [client_insurance] in insertion order, keyed by [user_id]. *)
Definition client_dict : Type := list (option string * client_data).

Fixpoint dict_mem (k : option string) (d : client_dict) : bool :=
  match d with
  | [] => false
  | (k', _) :: rest => if decide (k = k') then true else dict_mem k rest
  end.

(** [d[k] = f(d[k])] for a key that is present. *)
Fixpoint dict_alter (f : client_data -> client_data) (k : option string)
    (d : client_dict) : client_dict :=
  match d with
  | [] => []
  | (k', v) :: rest =>
      if decide (k = k') then (k', f v) :: rest
      else (k', v) :: dict_alter f k rest
  end.

(** [record.insurance_type or 'Unknown'] *)
Definition held_type (record : InsuranceRecord.t) : string :=
  or_str (InsuranceRecord.insurance_type record) "Unknown".

(** [total += record.premium or 0] *)
Definition add_premium (total : Q) (record : InsuranceRecord.t) : Q :=
  (total + or_zero (InsuranceRecord.premium record))%Q.

Definition group_body (client_insurance : client_dict)
    (record : InsuranceRecord.t) : client_dict :=
  let user_id := InsuranceRecord.user_id record in
  let d1 :=
    if dict_mem user_id client_insurance then client_insurance
    else client_insurance ++ [(user_id, mkData record ∅ 0%Q)] in
  let d2 :=
    dict_alter
      (fun data =>
         mkData (data_record data)
           ({[ held_type record ]} ∪ data_insurance_types data)
           (data_total_premium data))
      user_id d1 in
  dict_alter
    (fun data =>
       mkData (data_record data) (data_insurance_types data)
         (add_premium (data_total_premium data) record))
    user_id d2.

(** The [InsuranceOpportunity(...)] call of the second loop. *)
Definition insurance_gap_opportunity (user_id : option string)
    (data : client_data) (shown_gap : Q) : InsuranceOpportunity.t :=
  let record := data_record data in
  let insurance_types := data_insurance_types data in
  let missing_types := all_types ∖ insurance_types in
  {| InsuranceOpportunity.user_id := user_id;
     InsuranceOpportunity.name := or_str (InsuranceRecord.name record) "Unknown";
     InsuranceOpportunity.agent_id :=
       or_str (InsuranceRecord.agent_id record) "0";
     InsuranceOpportunity.agent_external_id :=
       or_str (InsuranceRecord.agent_external_id record) "unassigned";
     InsuranceOpportunity.opportunity_type := "Insurance Coverage Gap";
     InsuranceOpportunity.opportunity_description :=
       GapText shown_gap insurance_types missing_types;
     InsuranceOpportunity.wealth_band :=
       or_str (InsuranceRecord.wealth_band record) "Unknown";
     InsuranceOpportunity.age := InsuranceRecord.mock_age record;
     InsuranceOpportunity.mf_current_value :=
       or_zero (InsuranceRecord.mf_current_value record);
     InsuranceOpportunity.total_premium := data_total_premium data;
     InsuranceOpportunity.baseline_expected_premium :=
       or_zero (InsuranceRecord.baseline_expected_premium record);
     InsuranceOpportunity.premium_gap :=
       or_zero (InsuranceRecord.premium_gap record);
     InsuranceOpportunity.opportunity_score :=
       default 0%Z (InsuranceRecord.opportunity_score record);
     InsuranceOpportunity.missing_coverage_types := missing_types |}.

Definition insurance_gap_body (item : option string * client_data)
    (opportunities : list InsuranceOpportunity.t)
  : result (list InsuranceOpportunity.t) :=
  let '(user_id, data) := item in
  shown_gap ← py_format_float (InsuranceRecord.premium_gap (data_record data));
  mret (opportunities ++ [ insurance_gap_opportunity user_id data shown_gap ]).

Definition score_key (x : InsuranceOpportunity.t) : Q :=
  inject_Z (InsuranceOpportunity.opportunity_score x).

Definition record_score (r : InsuranceRecord.t) : Q :=
  inject_Z (default 0%Z (InsuranceRecord.opportunity_score r)).

(** The rows fetched by
    [query.order_by(desc(InsuranceRecord.opportunity_score)).limit(limit * 2).all()];
    the filter leaves no NULL [opportunity_score]. *)
Definition insurance_gap_records (db : Session) (agent_id : option string)
    (min_premium_gap : Q) (min_opportunity_score : Z) (limit : nat)
  : list InsuranceRecord.t :=
  take (limit * 2)
    (sort_desc record_score
       (List.filter
          (insurance_gap_query agent_id min_premium_gap min_opportunity_score)
          (insurance_records db))).

Definition get_insurance_gap_opportunities (db : Session)
    (agent_id : option string) (min_premium_gap : Q)
    (min_opportunity_score : Z) (limit : nat)
  : result (list InsuranceOpportunity.t) :=
  let records :=
    insurance_gap_records db agent_id min_premium_gap min_opportunity_score
      limit in
  let client_insurance := fold_left group_body records [] in
  opportunities ← for_each insurance_gap_body client_insurance [];
  mret (take limit (sort_desc score_key opportunities)).

(** The rows of one client among [records], in order. *)
Definition client_records (records : list InsuranceRecord.t)
    (user_id : option string) : list InsuranceRecord.t :=
  List.filter (fun r => bool_decide (InsuranceRecord.user_id r = user_id))
    records.

(** The opportunity [o] summarises the rows [records] of one client: the
    types not held, the premiums added in order, and the metadata of the
    first row, which carries the highest score among them. *)
Definition summarises (records : list InsuranceRecord.t)
    (o : InsuranceOpportunity.t) : Prop :=
  exists first rest,
    records = first :: rest
    /\ (forall r, r ∈ records -> (record_score r <= record_score first)%Q)
    /\ InsuranceOpportunity.missing_coverage_types o
       = all_types ∖ list_to_set (held_type <$> records)
    /\ InsuranceOpportunity.total_premium o = fold_left add_premium records 0%Q
    /\ InsuranceOpportunity.name o
       = or_str (InsuranceRecord.name first) "Unknown"
    /\ InsuranceOpportunity.premium_gap o
       = or_zero (InsuranceRecord.premium_gap first)
    /\ InsuranceOpportunity.baseline_expected_premium o
       = or_zero (InsuranceRecord.baseline_expected_premium first)
    /\ InsuranceOpportunity.opportunity_score o
       = default 0%Z (InsuranceRecord.opportunity_score first).

(** The dict [d] groups the rows [records]: one entry per client, holding
    the client's first row, the set of types of the client's rows and the
    sum of their premiums. *)
Definition groups (records : list InsuranceRecord.t) (d : client_dict)
  : Prop :=
  NoDup d.*1
  /\ (forall u, u ∈ d.*1 <-> u ∈ InsuranceRecord.user_id <$> records)
  /\ forall u data, (u, data) ∈ d ->
       head (client_records records u) = Some (data_record data)
       /\ data_insurance_types data
          = list_to_set (held_type <$> client_records records u)
       /\ data_total_premium data
          = fold_left add_premium (client_records records u) 0%Q.

(** Follow the words of the claim, not the source: the types missing and
    the premiums paid over all the matching records of the client. *)
Definition spec_matching_records (db : Session) (agent_id : option string)
    (min_premium_gap : Q) (min_opportunity_score : Z)
    (user_id : option string) : list InsuranceRecord.t :=
  client_records
    (List.filter
       (insurance_gap_query agent_id min_premium_gap min_opportunity_score)
       (insurance_records db))
    user_id.

Definition spec_missing_types (matching : list InsuranceRecord.t)
  : gset string :=
  all_types ∖ list_to_set (held_type <$> matching).

Definition spec_total_premium (matching : list InsuranceRecord.t) : Q :=
  fold_left add_premium matching 0%Q.

(** *** get_no_insurance_clients *)

Definition sip_query (agent_id : option string) (r : SIPRecord.t) : bool :=
  sql_eq (SIPRecord.deleted r) "false"
  && optional_filter agent_id (SIPRecord.agent_id r).

(** The rows of [sip_query] before grouping. *)
Definition selected_plans (db : Session) (agent_id : option string)
  : list SIPRecord.t :=
  List.filter (sip_query agent_id) (sip_records db).

(** [func.sum(SIPRecord.success_amount)] over the group of [user_id]. *)
Definition client_total (db : Session) (agent_id : option string)
    (user_id : option string) : option Q :=
  sql_sum
    (SIPRecord.success_amount <$>
       List.filter (fun r => bool_decide (SIPRecord.user_id r = user_id))
         (selected_plans db agent_id)).

(** [GROUP BY user_id] with the [HAVING] clause: one row per distinct
    [user_id] of the selected rows. *)
Definition sip_clients (db : Session) (agent_id : option string)
    (min_mf_value : Q) : list (option string * option Q) :=
  List.filter (fun g => sql_ge (snd g) min_mf_value)
    ((fun u => (u, client_total db agent_id u)) <$>
       remove_dups (SIPRecord.user_id <$> selected_plans db agent_id)).

Definition insured_clients (db : Session) : gset (option string) :=
  list_to_set
    (InsuranceRecord.user_id <$>
       List.filter (fun r => sql_eq (InsuranceRecord.deleted r) "false")
         (insurance_records db)).

(** The detail query of the loop body: [.first()] of the client's rows. *)
Definition first_sip_record (db : Session) (u : option string)
  : option SIPRecord.t :=
  head
    (List.filter
       (fun r => bool_decide (SIPRecord.user_id r = u)
                 && sql_eq (SIPRecord.deleted r) "false")
       (sip_records db)).

(** The [InsuranceOpportunity(...)] call of the loop body. *)
Definition no_insurance_opportunity (user_id : option string)
    (sip_record : SIPRecord.t) (total_invested expected_premium : Q)
    (is_top_band : bool) : InsuranceOpportunity.t :=
  {| InsuranceOpportunity.user_id := user_id;
     InsuranceOpportunity.name := "Unknown";
     InsuranceOpportunity.agent_id :=
       or_str (SIPRecord.agent_id sip_record) "0";
     InsuranceOpportunity.agent_external_id :=
       or_str (SIPRecord.agent_external_id sip_record) "unassigned";
     InsuranceOpportunity.opportunity_type := "No Insurance Coverage";
     InsuranceOpportunity.opportunity_description :=
       NoCoverageText total_invested;
     InsuranceOpportunity.wealth_band :=
       if is_top_band then "5Cr+" else "1Cr-5Cr";
     InsuranceOpportunity.age := None;
     InsuranceOpportunity.mf_current_value := total_invested;
     InsuranceOpportunity.total_premium := 0%Q;
     InsuranceOpportunity.baseline_expected_premium := expected_premium;
     InsuranceOpportunity.premium_gap := expected_premium;
     InsuranceOpportunity.opportunity_score := 100%Z;
     InsuranceOpportunity.missing_coverage_types := all_types |}.

Definition no_insurance_body (db : Session)
    (sip_client : option string * option Q)
    (opportunities : list InsuranceOpportunity.t)
  : result (list InsuranceOpportunity.t) :=
  let '(user_id, total_invested) := sip_client in
  if bool_decide (user_id ∉ insured_clients db) then
    match first_sip_record db user_id with
    | Some sip_record =>
        two_percent ← py_mul total_invested (Some (2 # 100)%Q);
        let expected_premium := py_min 100000 two_percent in
        shown_invested ← py_format_float total_invested;
        is_top_band ← py_ge total_invested 5000000;
        mret (opportunities ++
          [ no_insurance_opportunity user_id sip_record shown_invested
              expected_premium is_top_band ])
    | None => mret opportunities
    end
  else mret opportunities.

Definition get_no_insurance_clients (db : Session) (agent_id : option string)
    (min_mf_value : Q) (limit : nat) : result (list InsuranceOpportunity.t) :=
  opportunities ←
    for_each (no_insurance_body db) (sip_clients db agent_id min_mf_value) [];
  mret (take limit
          (sort_desc InsuranceOpportunity.mf_current_value opportunities)).

(** *** get_low_rated_funds *)

Definition low_rated_query (user_id : option string) (min_current_value : Q)
    (h : PortfolioHolding.t) : bool :=
  isnot_None (PortfolioHolding.w_rating h)
  && sql_ge (PortfolioHolding.current_value h) min_current_value
  && optional_filter user_id (PortfolioHolding.user_id h).

Definition py_float (x : option string) : result pyfloat :=
  match x with
  | Some s =>
      match float_of_str s with
      | Some f => Ok f
      | None => Raise (mkExc "ValueError" "could not convert string to float")
      end
  | None => Raise (TypeError "float() argument must be a string or a real number")
  end.

(** [except (ValueError, TypeError): continue] *)
Definition low_rated_body (max_rating : Q) (holding : PortfolioHolding.t)
    (low_rated : list PortfolioHolding.t) : result (list PortfolioHolding.t) :=
  try_except
    (rating ← py_float (PortfolioHolding.w_rating holding);
     if pyfloat_ltb rating max_rating then mret (low_rated ++ [holding])
     else mret low_rated)
    (fun e =>
       if String.eqb (exc_class e) "ValueError"
          || String.eqb (exc_class e) "TypeError"
       then Ok low_rated else Raise e).

Definition low_rated_opportunity (holding : PortfolioHolding.t)
  : PortfolioOpportunity.t :=
  {| PortfolioOpportunity.user_id := PortfolioHolding.user_id holding;
     PortfolioOpportunity.scheme_name := PortfolioHolding.scheme_name holding;
     PortfolioOpportunity.wpc := PortfolioHolding.wpc holding;
     PortfolioOpportunity.category := PortfolioHolding.category holding;
     PortfolioOpportunity.amc_name := PortfolioHolding.amc_name holding;
     PortfolioOpportunity.current_value := PortfolioHolding.current_value holding;
     PortfolioOpportunity.portfolio_weight :=
       PortfolioHolding.portfolio_weight holding;
     PortfolioOpportunity.opportunity_type := "Low Rated Fund";
     PortfolioOpportunity.opportunity_description :=
       LowRatedText (PortfolioHolding.w_rating holding)
         (or_str (PortfolioHolding.comment holding)
            "Consider reviewing and switching to higher rated alternatives.");
     PortfolioOpportunity.w_rating := PortfolioHolding.w_rating holding;
     PortfolioOpportunity.xirr_performance :=
       PortfolioHolding.xirr_performance holding;
     PortfolioOpportunity.three_year_returns_alpha :=
       PortfolioHolding.three_year_returns_alpha holding;
     PortfolioOpportunity.five_year_returns_alpha :=
       PortfolioHolding.five_year_returns_alpha holding;
     PortfolioOpportunity.rolling_12q_beat_percentage :=
       PortfolioHolding.rolling_12q_beat_percentage holding |}.

(** The rating text of the holding parses as a number below [max_rating]. *)
Definition rating_below (max_rating : Q) (h : PortfolioHolding.t) : bool :=
  match PortfolioHolding.w_rating h with
  | Some rating_text =>
      match float_of_str rating_text with
      | Some rating => pyfloat_ltb rating max_rating
      | None => false
      end
  | None => false
  end.

(** [lambda x: x.current_value]; never [None] here: the query keeps only
    rows with [current_value >= min_current_value]. *)
Definition current_value_key (x : PortfolioHolding.t) : Q :=
  or_zero (PortfolioHolding.current_value x).

Definition get_low_rated_funds (db : Session) (user_id : option string)
    (max_rating : Q) (min_current_value : Q) (limit : nat)
  : result (list PortfolioOpportunity.t) :=
  let holdings :=
    List.filter (low_rated_query user_id min_current_value)
      (portfolio_holdings db) in
  low_rated ← for_each (low_rated_body max_rating) holdings [];
  let low_rated :=
    take limit (sort_desc current_value_key low_rated) in
  for_each
    (fun holding opportunities =>
       mret (opportunities ++ [low_rated_opportunity holding]))
    low_rated [].

(** *** get_opportunity_statistics *)

(** [sum(xs)]: the additions start from 0 and go left to right. *)
Definition py_sum (xs : list Q) : Q := fold_left Qplus xs 0%Q.

(** [sum(o.potential_increase or 0 for o in opportunities)] *)
Definition potential_revenue (opportunities : list OpportunityClient.t) : Q :=
  py_sum
    ((fun o => or_zero (OpportunityClient.potential_increase o))
       <$> opportunities).

Definition get_opportunity_statistics (db : Session)
    (agent_id : option string) : result OpportunityStats.t :=
  no_increase ← get_no_sip_increase_clients db agent_id 12 1000;
  failed_sips ← get_failed_sip_clients db agent_id 5000 1000;
  high_value ← get_high_value_inactive_clients db agent_id 100000 60 1000;
  let total_potential :=
    py_sum [ potential_revenue no_increase; potential_revenue failed_sips;
             potential_revenue high_value ] in
  mret
    {| OpportunityStats.total_opportunities :=
         length no_increase + length failed_sips + length high_value;
       OpportunityStats.total_potential_revenue := total_potential;
       OpportunityStats.breakdown_by_type :=
         [ ("no_sip_increase",
            OpportunityStats.mk_by_type (length no_increase)
              (potential_revenue no_increase));
           ("failed_sips",
            OpportunityStats.mk_by_type (length failed_sips)
              (potential_revenue failed_sips));
           ("high_value_inactive",
            OpportunityStats.mk_by_type (length high_value)
              (potential_revenue high_value)) ] |}.

(** *** get_client_sip_records, get_client_insurance_records *)

Definition get_client_sip_records (db : Session) (user_id : string)
  : list SIPRecord.t :=
  List.filter
    (fun r => sql_eq (SIPRecord.user_id r) user_id
              && sql_eq (SIPRecord.deleted r) "false")
    (sip_records db).

Definition get_client_insurance_records (db : Session) (user_id : string)
  : list InsuranceRecord.t :=
  List.filter
    (fun r => sql_eq (InsuranceRecord.user_id r) user_id
              && sql_eq (InsuranceRecord.deleted r) "false")
    (insurance_records db).

(** *** get_underperforming_funds *)

(** [column < v] in SQL: a NULL never satisfies it. *)
Definition sql_lt (col : option Q) (v : Q) : bool :=
  match col with
  | Some x => Qltb x v
  | None => false
  end.

Definition underperforming_query (user_id : option string)
    (min_current_value : Q) (h : PortfolioHolding.t) : bool :=
  (sql_lt (PortfolioHolding.three_year_returns_alpha h) 0
   || sql_lt (PortfolioHolding.five_year_returns_alpha h) 0
   || sql_lt (PortfolioHolding.xirr_performance h) 0)
  && sql_ge (PortfolioHolding.current_value h) min_current_value
  && optional_filter user_id (PortfolioHolding.user_id h).

(** The rows fetched by
    [query.order_by(desc(PortfolioHolding.current_value)).limit(limit).all()];
    the filter leaves no NULL [current_value]. *)
Definition underperforming_holdings (db : Session) (user_id : option string)
    (min_current_value : Q) (limit : nat) : list PortfolioHolding.t :=
  take limit
    (sort_desc current_value_key
       (List.filter (underperforming_query user_id min_current_value)
          (portfolio_holdings db))).

(** [x and x < 0] on an [Optional[float]]: [None] and [0.0] are falsy and
    end the test before the comparison. *)
Definition and_negative (x : option Q) : bool :=
  match x with
  | Some q => negb (Qeq_bool q 0) && Qltb q 0
  | None => false
  end.

(** [if x and x < 0: issues.append(f"...{x:.2f}%")] *)
Definition append_issue (template : Q -> issue) (x : option Q)
    (issues : list issue) : result (list issue) :=
  if and_negative x then
    shown ← py_format_float x;
    mret (issues ++ [template shown])
  else mret issues.

(** The [PortfolioOpportunity(...)] call of the loop body. *)
Definition underperforming_opportunity (holding : PortfolioHolding.t)
    (issues : list issue) : FundOpportunity.t :=
  {| FundOpportunity.user_id := PortfolioHolding.user_id holding;
     FundOpportunity.scheme_name := PortfolioHolding.scheme_name holding;
     FundOpportunity.wpc := PortfolioHolding.wpc holding;
     FundOpportunity.category := PortfolioHolding.category holding;
     FundOpportunity.amc_name := PortfolioHolding.amc_name holding;
     FundOpportunity.current_value := PortfolioHolding.current_value holding;
     FundOpportunity.portfolio_weight :=
       PortfolioHolding.portfolio_weight holding;
     FundOpportunity.opportunity_type := "Underperforming Fund";
     FundOpportunity.opportunity_description :=
       UnderperformingText issues
         (or_str (PortfolioHolding.comment holding)
            "Consider switching to better performing alternatives.");
     FundOpportunity.w_rating := PortfolioHolding.w_rating holding;
     FundOpportunity.xirr_performance :=
       PortfolioHolding.xirr_performance holding;
     FundOpportunity.three_year_returns_alpha :=
       PortfolioHolding.three_year_returns_alpha holding;
     FundOpportunity.five_year_returns_alpha :=
       PortfolioHolding.five_year_returns_alpha holding;
     FundOpportunity.rolling_12q_beat_percentage :=
       PortfolioHolding.rolling_12q_beat_percentage holding |}.

Definition underperforming_body (holding : PortfolioHolding.t)
    (opportunities : list FundOpportunity.t)
  : result (list FundOpportunity.t) :=
  issues ←
    append_issue ThreeYearAlphaIssue
      (PortfolioHolding.three_year_returns_alpha holding) [];
  issues ←
    append_issue FiveYearAlphaIssue
      (PortfolioHolding.five_year_returns_alpha holding) issues;
  issues ←
    append_issue XirrIssue (PortfolioHolding.xirr_performance holding) issues;
  mret (opportunities ++ [underperforming_opportunity holding issues]).

Definition get_underperforming_funds (db : Session) (user_id : option string)
    (min_current_value : Q) (limit : nat) : result (list FundOpportunity.t) :=
  let holdings :=
    underperforming_holdings db user_id min_current_value limit in
  for_each underperforming_body holdings [].

(** The list [issues] the loop body builds for a holding: one entry per
    metric that passes its test, in the order of the three tests. *)
Definition underperforming_issues (h : PortfolioHolding.t) : list issue :=
  (if sql_lt (PortfolioHolding.three_year_returns_alpha h) 0
   then [ThreeYearAlphaIssue
           (or_zero (PortfolioHolding.three_year_returns_alpha h))]
   else [])
  ++ (if sql_lt (PortfolioHolding.five_year_returns_alpha h) 0
      then [FiveYearAlphaIssue
              (or_zero (PortfolioHolding.five_year_returns_alpha h))]
      else [])
  ++ (if sql_lt (PortfolioHolding.xirr_performance h) 0
      then [XirrIssue (or_zero (PortfolioHolding.xirr_performance h))]
      else []).

(** *** get_portfolio_rebalancing_opportunities *)

Definition rebalancing_query (user_id : option string) (min_concentration : Q)
    (h : PortfolioHolding.t) : bool :=
  sql_ge (PortfolioHolding.portfolio_weight h) min_concentration
  && optional_filter user_id (PortfolioHolding.user_id h).

(** [lambda x: x.portfolio_weight], the [ORDER BY] key; never [None] here:
    the query keeps only rows with [portfolio_weight >= min_concentration]. *)
Definition portfolio_weight_key (x : PortfolioHolding.t) : Q :=
  or_zero (PortfolioHolding.portfolio_weight x).

(** The rows fetched by
    [query.order_by(desc(PortfolioHolding.portfolio_weight)).limit(limit).all()]. *)
Definition concentrated_holdings (db : Session) (user_id : option string)
    (min_concentration : Q) (limit : nat) : list PortfolioHolding.t :=
  take limit
    (sort_desc portfolio_weight_key
       (List.filter (rebalancing_query user_id min_concentration)
          (portfolio_holdings db))).

(** The [PortfolioOpportunity(...)] call of the loop body. *)
Definition rebalancing_opportunity (holding : PortfolioHolding.t)
    (shown_weight : Q) : FundOpportunity.t :=
  {| FundOpportunity.user_id := PortfolioHolding.user_id holding;
     FundOpportunity.scheme_name := PortfolioHolding.scheme_name holding;
     FundOpportunity.wpc := PortfolioHolding.wpc holding;
     FundOpportunity.category := PortfolioHolding.category holding;
     FundOpportunity.amc_name := PortfolioHolding.amc_name holding;
     FundOpportunity.current_value := PortfolioHolding.current_value holding;
     FundOpportunity.portfolio_weight :=
       PortfolioHolding.portfolio_weight holding;
     FundOpportunity.opportunity_type := "Portfolio Concentration";
     FundOpportunity.opportunity_description := ConcentrationText shown_weight;
     FundOpportunity.w_rating := PortfolioHolding.w_rating holding;
     FundOpportunity.xirr_performance :=
       PortfolioHolding.xirr_performance holding;
     FundOpportunity.three_year_returns_alpha :=
       PortfolioHolding.three_year_returns_alpha holding;
     FundOpportunity.five_year_returns_alpha :=
       PortfolioHolding.five_year_returns_alpha holding;
     FundOpportunity.rolling_12q_beat_percentage :=
       PortfolioHolding.rolling_12q_beat_percentage holding |}.

Definition rebalancing_body (holding : PortfolioHolding.t)
    (opportunities : list FundOpportunity.t)
  : result (list FundOpportunity.t) :=
  shown_weight ← py_format_float (PortfolioHolding.portfolio_weight holding);
  mret (opportunities ++ [rebalancing_opportunity holding shown_weight]).

Definition get_portfolio_rebalancing_opportunities (db : Session)
    (user_id : option string) (min_concentration : Q) (limit : nat)
  : result (list FundOpportunity.t) :=
  let holdings := concentrated_holdings db user_id min_concentration limit in
  for_each rebalancing_body holdings [].

(** *** get_all_portfolio_opportunities *)

(** An element of [all_opps]: an object built by [get_low_rated_funds], or
    one built by the two other detectors. *)
Definition portfolio_opportunity : Type :=
  (PortfolioOpportunity.t + FundOpportunity.t)%type.

(** [lambda x: x.current_value] *)
Definition opportunity_current_value (x : portfolio_opportunity) : option Q :=
  match x with
  | inl o => PortfolioOpportunity.current_value o
  | inr o => FundOpportunity.current_value o
  end.

(** [l.sort(key=key, reverse=True)] for a key that may be [None].  A list
    of fewer than two elements is returned without a comparison; in a longer
    list every element is compared with another one, and a comparison with
    [None] raises [TypeError]. *)
Definition py_sort_desc {A} (key : A -> option Q) (l : list A)
  : result (list A) :=
  if (length l <? 2)%nat then Ok l
  else if forallb (fun x => isnot_None (key x)) l
  then Ok (sort_desc (fun x => or_zero (key x)) l)
  else Raise (TypeError "'<' not supported between instances").

Definition get_all_portfolio_opportunities (db : Session)
    (user_id : option string) (limit : nat)
  : result (list portfolio_opportunity) :=
  underperforming ← get_underperforming_funds db user_id 0 (limit / 3);
  low_rated ← get_low_rated_funds db user_id 3 0 (limit / 3);
  concentrated ←
    get_portfolio_rebalancing_opportunities db user_id 25 (limit / 3);
  let all_opps :=
    ([] ++ (inr <$> underperforming) ++ (inl <$> low_rated)
        ++ (inr <$> concentrated))%list in
  sorted ← py_sort_desc opportunity_current_value all_opps;
  mret (take limit sorted).

End Detectors.

End Services.

(** ** A concrete clock and concrete parsers

    Used to run the detectors on concrete tables: [dateutil] on calendar
    dates written [YYYY-MM-DD], which it parses to a naive datetime, and on
    the same dates followed by [T00:00:00Z], which it parses to an
    offset-aware one; [float()] on plain decimal numerals and on the texts
    [nan], [inf] and [-inf]. *)

Module Demo.

(** A contribution plan that is active, in "Success" state and not
    soft-deleted. *)
Definition plan (user_id agent_id : string) (amount : option Q)
    (start_date latest_success_order_date : option string)
    (increment_percentage : option Q) (increment_period : option string)
    (success_amount failed_amount : option Q) : SIPRecord.t :=
  {| SIPRecord.user_id := Some user_id;
     SIPRecord.agent_id := Some agent_id;
     SIPRecord.agent_external_id := None;
     SIPRecord.amount := amount;
     SIPRecord.start_date := start_date;
     SIPRecord.increment_percentage := increment_percentage;
     SIPRecord.increment_period := increment_period;
     SIPRecord.is_active := Some "true";
     SIPRecord.current_sip_status := Some "Success";
     SIPRecord.latest_success_order_date := latest_success_order_date;
     SIPRecord.success_amount := success_amount;
     SIPRecord.failed_amount := failed_amount;
     SIPRecord.deleted := Some "false" |}.

Definition only_plans (plans : list SIPRecord.t) : Session :=
  mkSession plans [] [].

Definition digits_value (s : list ascii) : option Z :=
  match s with
  | [] => None
  | _ =>
      fold_left
        (fun acc c =>
           match acc, Agent.digit_of c with
           | Some n, Some d => Some (10 * n + d)%Z
           | _, _ => None
           end)
        s (Some 0%Z)
  end.

Definition is_leap (y : Z) : bool :=
  ((y mod 4 =? 0) && negb (y mod 100 =? 0) || (y mod 400 =? 0))%Z.

Definition days_in_month (y m : Z) : Z :=
  if (m =? 2)%Z then (if is_leap y then 29 else 28)%Z
  else if ((m =? 4) || (m =? 6) || (m =? 9) || (m =? 11))%Z then 30%Z
  else 31%Z.

(** Days from 1970-01-01 to the civil date [y-m-d]. *)
Definition days_from_civil (y m d : Z) : Z :=
  let y' := (if m <=? 2 then y - 1 else y)%Z in
  let era := (y' / 400)%Z in
  let yoe := (y' - era * 400)%Z in
  let mp := (if 2 <? m then m - 3 else m + 9)%Z in
  let doy := ((153 * mp + 2) / 5 + d - 1)%Z in
  let doe := (yoe * 365 + yoe / 4 - yoe / 100 + doy)%Z in
  (era * 146097 + doe - 719468)%Z.

(** The instant of midnight of a calendar date written [YYYY-MM-DD]. *)
Definition civil_midnight (text : string) : option Z :=
  match list_ascii_of_string text with
  | [y1; y2; y3; y4; "-"%char; m1; m2; "-"%char; d1; d2] =>
      match digits_value [y1; y2; y3; y4], digits_value [m1; m2],
            digits_value [d1; d2] with
      | Some y, Some m, Some d =>
          if ((1 <=? m) && (m <=? 12) && (1 <=? d) && (d <=? days_in_month y m))%Z
          then Some (days_from_civil y m d * Services.microseconds_per_day)%Z
          else None
      | _, _, _ => None
      end
  | _ => None
  end.

Definition parse_iso_date (text : string) : option datetime :=
  if (String.length text =? 20)%nat
     && String.eqb (substring 10 10 text) "T00:00:00Z"
  then Aware <$> civil_midnight (substring 0 10 text)
  else Naive <$> civil_midnight text.

(** Midnight of 2026-01-01. *)
Definition new_year_2026 : Z :=
  (days_from_civil 2026 1 1 * Services.microseconds_per_day)%Z.

Fixpoint split_at_dot (s : list ascii) : list ascii * option (list ascii) :=
  match s with
  | [] => ([], None)
  | c :: r =>
      if Ascii.eqb c "." then ([], Some r)
      else let '(a, b) := split_at_dot r in (c :: a, b)
  end.

Definition unsigned_decimal (s : list ascii) : option Q :=
  match split_at_dot s with
  | (int_part, None) | (int_part, Some []) =>
      match digits_value int_part with
      | Some n => Some (inject_Z n)
      | None => None
      end
  | ([], Some frac_part) =>
      match digits_value frac_part with
      | Some f =>
          Some (inject_Z f / inject_Z (10 ^ Z.of_nat (List.length frac_part)))%Q
      | None => None
      end
  | (int_part, Some frac_part) =>
      match digits_value int_part, digits_value frac_part with
      | Some n, Some f =>
          Some (inject_Z n
                + inject_Z f / inject_Z (10 ^ Z.of_nat (List.length frac_part)))%Q
      | _, _ => None
      end
  end.

Definition parse_decimal (text : string) : option pyfloat :=
  if String.eqb text "nan" then Some NaN
  else if String.eqb text "inf" then Some PosInf
  else if String.eqb text "-inf" then Some NegInf
  else
    match list_ascii_of_string text with
    | "-"%char :: r =>
        match unsigned_decimal r with
        | Some q => Some (Finite (- q))
        | None => None
        end
    | s =>
        match unsigned_decimal s with
        | Some q => Some (Finite q)
        | None => None
        end
    end.

(** On 2026-01-01 the last success of this plan is 390 days (13 months) old
    and its start 426 days (14 months) old. *)
Definition stagnant_plan : SIPRecord.t :=
  plan "U1" "A1" (Some 10000%Q) (Some "2024-11-01") (Some "2024-12-07")
    (Some 10%Q) (Some "6M") (Some 4000%Q) (Some 6000%Q).

(** The same plan with a NULL [amount]. *)
Definition stagnant_plan_without_amount : SIPRecord.t :=
  plan "U1" "A1" None (Some "2024-11-01") (Some "2024-12-07")
    (Some 10%Q) (Some "6M") (Some 4000%Q) (Some 6000%Q).

(** 4000 collected and 6000 failed. *)
Definition half_failed_plan : SIPRecord.t :=
  plan "U3" "A1" (Some 5000%Q) (Some "2024-11-01") (Some "2025-11-20")
    None None (Some 4000%Q) (Some 6000%Q).

(** The same plan with its last success written with a UTC designator. *)
Definition zoned_plan : SIPRecord.t :=
  plan "U3" "A1" (Some 5000%Q) (Some "2024-11-01")
    (Some "2025-11-20T00:00:00Z") None None (Some 4000%Q) (Some 6000%Q).

(** A plan whose collected total was reversed below zero. *)
Definition reversed_plan : SIPRecord.t :=
  plan "U4" "A1" (Some 5000%Q) (Some "2024-11-01") (Some "2025-11-20")
    None None (Some (-10000)%Q) (Some 6000%Q).

(** 150000 collected, last success on 2025-10-03, 90 days before
    2026-01-01. *)
Definition dormant_plan : SIPRecord.t :=
  plan "U5" "A1" (Some 8000%Q) (Some "2023-01-10") (Some "2025-10-03")
    None None (Some 150000%Q) (Some 0%Q).

(** Three larger plans whose last success is 12 days old. *)
Definition busy_plan (user_id : string) (success_amount : Q) : SIPRecord.t :=
  plan user_id "A1" (Some 20000%Q) (Some "2023-01-10") (Some "2025-12-20")
    None None (Some success_amount) (Some 0%Q).

Definition three_busy_one_dormant : Session :=
  only_plans
    [ busy_plan "U6" 400000; busy_plan "U7" 300000; busy_plan "U8" 200000;
      dormant_plan ].

(** A protection policy that is not soft-deleted. *)
Definition policy (user_id agent_id : string) (insurance_type : option string)
    (premium : option Q) (premium_gap : Q) (opportunity_score : Z)
  : InsuranceRecord.t :=
  {| InsuranceRecord.user_id := Some user_id;
     InsuranceRecord.name := Some ("Client " ++ user_id)%string;
     InsuranceRecord.mf_current_value := Some 2500000%Q;
     InsuranceRecord.wealth_band := Some "1Cr-5Cr";
     InsuranceRecord.mock_age := Some 41%Z;
     InsuranceRecord.insurance_type := insurance_type;
     InsuranceRecord.premium := premium;
     InsuranceRecord.agent_id := Some agent_id;
     InsuranceRecord.agent_external_id := None;
     InsuranceRecord.baseline_expected_premium := Some 60000%Q;
     InsuranceRecord.premium_gap := Some premium_gap;
     InsuranceRecord.opportunity_score := Some opportunity_score;
     InsuranceRecord.deleted := Some "false" |}.

(** A plan of which only the owner, the advisor and the collected total
    matter. *)
Definition holding_plan (user_id agent_id : string) (success_amount : Q)
  : SIPRecord.t :=
  plan user_id agent_id (Some 25000%Q) (Some "2023-01-10") (Some "2025-12-20")
    None None (Some success_amount) (Some 0%Q).

(** U10 has collected 6,000,000 over two plans and holds no policy; U11 has
    collected 2,000,000 and holds a policy. *)
Definition uninsured_and_insured : Session :=
  mkSession
    [ holding_plan "U10" "A1" 4000000; holding_plan "U11" "A1" 2000000;
      holding_plan "U10" "A1" 2000000 ]
    [ policy "U11" "A1" (Some "Health") (Some 20000%Q) 40000 70 ]
    [].

(** U12 holds a small plan with advisor A2, stored first, and a large plan
    with advisor A1. *)
Definition two_advisors : Session :=
  only_plans
    [ holding_plan "U12" "A2" 500000; holding_plan "U12" "A1" 2000000 ].

(** U20 holds three policies with a premium gap of 40000 each: Health
    (score 90), Term (score 80) and ULIP (score 70). *)
Definition three_policies : Session :=
  mkSession []
    [ policy "U20" "A1" (Some "Health") (Some 10000%Q) 40000 90;
      policy "U20" "A1" (Some "Term") (Some 12000%Q) 40000 80;
      policy "U20" "A1" (Some "ULIP") (Some 15000%Q) 40000 70 ]
    [].

(** A fund holding of U30, of which only the value and the rating text
    matter. *)
Definition fund (scheme_name : string) (current_value : Q)
    (w_rating : option string) : PortfolioHolding.t :=
  {| PortfolioHolding.user_id := Some "U30";
     PortfolioHolding.wpc := None;
     PortfolioHolding.scheme_name := Some scheme_name;
     PortfolioHolding.category := Some "Equity";
     PortfolioHolding.amc_name := None;
     PortfolioHolding.current_value := Some current_value;
     PortfolioHolding.portfolio_weight := None;
     PortfolioHolding.xirr_performance := None;
     PortfolioHolding.three_year_returns_alpha := None;
     PortfolioHolding.five_year_returns_alpha := None;
     PortfolioHolding.rolling_12q_beat_percentage := None;
     PortfolioHolding.comment := None;
     PortfolioHolding.w_rating := w_rating |}.

(** Ratings 2.5, "N/A", 4, "nan", 1 and a NULL rating. *)
Definition mixed_ratings : Session :=
  mkSession [] []
    [ fund "Alpha Growth" 50000 (Some "2.5");
      fund "Beta Income" 900000 (Some "N/A");
      fund "Gamma Value" 700000 (Some "4");
      fund "Delta Hybrid" 800000 (Some "nan");
      fund "Epsilon Small Cap" 60000 (Some "1");
      fund "Zeta Liquid" 950000 None ].

(** Three plans of advisor A1: one stagnant, one with failed transactions,
    one dormant. *)
Definition three_plans : Session :=
  only_plans [stagnant_plan; half_failed_plan; dormant_plan].

(** A fund holding of U31 with a value, a weight in the portfolio, a
    three-year alpha and a rating text. *)
Definition weighted_fund (scheme_name : string) (current_value : option Q)
    (portfolio_weight three_year_returns_alpha : option Q)
    (w_rating : option string) : PortfolioHolding.t :=
  {| PortfolioHolding.user_id := Some "U31";
     PortfolioHolding.wpc := None;
     PortfolioHolding.scheme_name := Some scheme_name;
     PortfolioHolding.category := Some "Equity";
     PortfolioHolding.amc_name := None;
     PortfolioHolding.current_value := current_value;
     PortfolioHolding.portfolio_weight := portfolio_weight;
     PortfolioHolding.xirr_performance := None;
     PortfolioHolding.three_year_returns_alpha := three_year_returns_alpha;
     PortfolioHolding.five_year_returns_alpha := None;
     PortfolioHolding.rolling_12q_beat_percentage := None;
     PortfolioHolding.comment := None;
     PortfolioHolding.w_rating := w_rating |}.

(** Two holdings of U31: 40% of the portfolio with a NULL value, and 30% of
    the portfolio worth 300000, rated 2, with a three-year alpha of -2. *)
Definition concentrated_portfolio : Session :=
  mkSession [] []
    [ weighted_fund "Eta Bluechip" None (Some 40%Q) None None;
      weighted_fund "Theta Midcap" (Some 300000%Q) (Some 30%Q) (Some (-2)%Q)
        (Some "2") ].

End Demo.

(** * Properties *)

(** ** The error monad, loops and sorting *)

Lemma try_except_returns {A} (body : result A) (handler : PyException -> A) :
  returns (try_except body (fun e => Ok (handler e))).
Proof. destruct body as [a|e]; simpl; eexists; reflexivity. Qed.

(** A loop whose body appends at most one element and never raises builds
    the list of the elements it emits, in order. *)
Lemma for_each_omap {A B} (body : A -> list B -> result (list B))
    (emit : A -> option B) (xs : list A) (acc : list B) :
  (forall x acc', x ∈ xs ->
     body x acc' = Ok (acc' ++ from_option (fun b => [b]) [] (emit x))) ->
  for_each body xs acc = Ok (acc ++ omap emit xs).
Proof.
  revert acc. induction xs as [|x xs IH]; intros acc Hbody; simpl.
  - by rewrite app_nil_r.
  - rewrite Hbody by left. simpl. rewrite IH.
    + destruct (emit x); simpl; by rewrite <- ?app_assoc, ?app_nil_r.
    + intros y acc' Hy. apply Hbody. by right.
Qed.

(** A loop raises as soon as its body raises on one element. *)
Lemma for_each_raises {A S} (body : A -> S -> result S) (xs : list A) (x : A)
    (acc : S) :
  x ∈ xs ->
  (forall acc', exists e, body x acc' = Raise e) ->
  exists e, for_each body xs acc = Raise e.
Proof.
  intros Hx Hraise. revert acc.
  induction xs as [|y xs IH]; intros acc; [by apply elem_of_nil in Hx|].
  simpl. apply elem_of_cons in Hx as [<-|Hx].
  - destruct (Hraise acc) as [e ->]. by exists e.
  - destruct (body y acc) as [acc'|e]; simpl; [by apply IH | by exists e].
Qed.

Lemma Qltb_lt (a b : Q) : Qltb a b = true <-> (a < b)%Q.
Proof.
  unfold Qltb. rewrite negb_true_iff, <- not_true_iff_false, Qle_bool_iff.
  split; [apply Qnot_le_lt | apply Qlt_not_le].
Qed.

Lemma Qltb_ge (a b : Q) : Qltb a b = false <-> (b <= a)%Q.
Proof.
  unfold Qltb. rewrite negb_false_iff. apply Qle_bool_iff.
Qed.

Lemma py_min_le (a b : Q) : (py_min a b <= a)%Q /\ (py_min a b <= b)%Q.
Proof.
  unfold py_min. destruct (Qltb b a) eqn:E.
  - apply Qltb_lt in E. split; [by apply Qlt_le_weak | apply Qle_refl].
  - apply Qltb_ge in E. split; [apply Qle_refl | done].
Qed.

Lemma insert_desc_perm {A} (key : A -> Q) (x : A) (l : list A) :
  insert_desc key x l ≡ₚ x :: l.
Proof.
  induction l as [|y l IH]; simpl; [done|].
  destruct (Qltb (key x) (key y)); [|done].
  rewrite IH. apply perm_swap.
Qed.

Lemma sort_desc_perm {A} (key : A -> Q) (l : list A) : sort_desc key l ≡ₚ l.
Proof.
  induction l as [|x l IH]; simpl; [done|].
  by rewrite insert_desc_perm, IH.
Qed.

Lemma elem_of_sort_desc {A} (key : A -> Q) (l : list A) (x : A) :
  x ∈ sort_desc key l <-> x ∈ l.
Proof. by rewrite sort_desc_perm. Qed.

Lemma insert_desc_sorted {A} (key : A -> Q) (x : A) (l : list A) :
  sorted_desc key l -> sorted_desc key (insert_desc key x l).
Proof.
  unfold sorted_desc. induction 1 as [|y l Hl IH Hy]; simpl.
  - repeat constructor.
  - destruct (Qltb (key x) (key y)) eqn:E.
    + constructor; [exact IH|].
      rewrite insert_desc_perm. constructor; [|exact Hy].
      apply Qltb_lt in E. by apply Qlt_le_weak.
    + apply Qltb_ge in E. constructor; [by constructor|].
      constructor; [exact E|].
      eapply Forall_impl; [exact Hy|]. intros z Hz. simpl in Hz.
      by apply Qle_trans with (key y).
Qed.

Lemma sort_desc_sorted {A} (key : A -> Q) (l : list A) :
  sorted_desc key (sort_desc key l).
Proof.
  induction l as [|x l IH]; simpl; [constructor | by apply insert_desc_sorted].
Qed.

Lemma sorted_desc_take {A} (key : A -> Q) (l : list A) (n : nat) :
  sorted_desc key l -> sorted_desc key (take n l).
Proof.
  unfold sorted_desc. intros H. revert n.
  induction H as [|x l Hl IH Hx]; intros [|n]; simpl; try constructor.
  - apply IH.
  - apply Forall_take. exact Hx.
Qed.

(** The head of a descending list carries the largest key. *)
Lemma sorted_desc_head {A} (key : A -> Q) (x : A) (l : list A) (y : A) :
  sorted_desc key (x :: l) -> y ∈ x :: l -> (key y <= key x)%Q.
Proof.
  intros H Hy. apply StronglySorted_inv in H as [_ H].
  apply elem_of_cons in Hy as [->|Hy]; [apply Qle_refl|].
  rewrite Forall_forall in H. by apply H.
Qed.

(** ** agent.py *)

Section SynthesizerFacts.

Variable pyobj : Type.
Variable model response : Type.
Variable py_format : pyobj -> result string.
Variable json_dumps : pyobj -> result string.
Variable GenerativeModel : string -> string -> result model.
Variable generate_content : model -> string -> result response.
Variable text : response -> result string.
Variable json_loads : string -> result Agent.json.
Variable system_instruction : string.

Local Abbreviation attempt :=
  (Agent.attempt pyobj model response py_format json_dumps GenerativeModel
     generate_content text json_loads system_instruction).
Local Abbreviation final_prompt :=
  (Agent.final_prompt pyobj py_format json_dumps system_instruction).
Local Abbreviation analyze_opportunity :=
  (Agent.analyze_opportunity pyobj model response py_format json_dumps
     GenerativeModel generate_content text json_loads system_instruction).

Lemma analyze_opportunity_cases (client_name opportunity_type raw_data : pyobj) :
  match attempt client_name opportunity_type raw_data with
  | Ok v => analyze_opportunity client_name opportunity_type raw_data = Ok v
  | Raise e =>
      analyze_opportunity client_name opportunity_type raw_data
      = Ok (Agent.fallback_object (exc_str e))
  end.
Proof.
  unfold Agent.analyze_opportunity.
  destruct (attempt client_name opportunity_type raw_data); reflexivity.
Qed.

(** C1.  Whatever the caller passes, [analyze_opportunity] returns a value
    and never raises.  When the generative call raises (a timeout is such an
    exception), when reading the response text raises, or when the text does
    not parse as JSON -- more generally when any step of the [try] block
    raises an exception [e] -- the value returned is exactly the fallback
    object: urgency score 0, headline "Manual Review Required", the fixed
    talking point, action "Open Profile", and [str(e)] as error details. *)
Theorem analyze_opportunity_fallback_total
    (client_name opportunity_type raw_data : pyobj) :
  returns (analyze_opportunity client_name opportunity_type raw_data)
  /\ (forall e,
        attempt client_name opportunity_type raw_data = Raise e ->
        analyze_opportunity client_name opportunity_type raw_data
        = Ok (Agent.fallback_object (exc_str e)))
  /\ (forall m prompt e,
        GenerativeModel "gemini-1.5-flash" "application/json" = Ok m ->
        final_prompt client_name opportunity_type raw_data = Ok prompt ->
        generate_content m prompt = Raise e ->
        analyze_opportunity client_name opportunity_type raw_data
        = Ok (Agent.fallback_object (exc_str e)))
  /\ (forall m prompt resp e,
        GenerativeModel "gemini-1.5-flash" "application/json" = Ok m ->
        final_prompt client_name opportunity_type raw_data = Ok prompt ->
        generate_content m prompt = Ok resp ->
        text resp = Raise e ->
        analyze_opportunity client_name opportunity_type raw_data
        = Ok (Agent.fallback_object (exc_str e)))
  /\ (forall m prompt resp txt e,
        GenerativeModel "gemini-1.5-flash" "application/json" = Ok m ->
        final_prompt client_name opportunity_type raw_data = Ok prompt ->
        generate_content m prompt = Ok resp ->
        text resp = Ok txt ->
        json_loads txt = Raise e ->
        analyze_opportunity client_name opportunity_type raw_data
        = Ok (Agent.fallback_object (exc_str e)))
  /\ (forall details,
        Agent.fallback_object details
        = Agent.JObject
            [ ("urgency_score", Agent.JInt 0);
              ("headline", Agent.JString "Manual Review Required");
              ("talking_point",
                Agent.JString
                  "Data analysis incomplete. Please review client file manually.");
              ("suggested_action", Agent.JString "Open Profile");
              ("error_details", Agent.JString details) ]).
Proof.
  pose proof (analyze_opportunity_cases client_name opportunity_type raw_data)
    as Hcases.
  split; [apply try_except_returns|].
  split; [intros e He; by rewrite He in Hcases|].
  assert (forall e, attempt client_name opportunity_type raw_data = Raise e ->
            analyze_opportunity client_name opportunity_type raw_data
            = Ok (Agent.fallback_object (exc_str e))) as Hraise
    by (intros e He; by rewrite He in Hcases).
  repeat split.
  - intros m prompt e Hm Hp Hg. apply Hraise.
    unfold Agent.attempt. rewrite Hm. simpl. rewrite Hp. simpl. by rewrite Hg.
  - intros m prompt resp e Hm Hp Hg Ht. apply Hraise.
    unfold Agent.attempt. rewrite Hm. simpl. rewrite Hp. simpl. rewrite Hg.
    simpl. by rewrite Ht.
  - intros m prompt resp txt e Hm Hp Hg Ht Hj. apply Hraise.
    unfold Agent.attempt. rewrite Hm. simpl. rewrite Hp. simpl. rewrite Hg.
    simpl. rewrite Ht. simpl. exact Hj.
Qed.

(** C2, as the source has it.  On the success path -- the model is built,
    the prompt is formatted, the service answers, and the answer parses as
    JSON -- [analyze_opportunity] returns the parsed value itself, whatever
    it is: no field is checked, added, removed or repaired. *)
Theorem analyze_opportunity_returns_parsed_value
    (client_name opportunity_type raw_data : pyobj) m prompt resp txt v :
  GenerativeModel "gemini-1.5-flash" "application/json" = Ok m ->
  final_prompt client_name opportunity_type raw_data = Ok prompt ->
  generate_content m prompt = Ok resp ->
  text resp = Ok txt ->
  json_loads txt = Ok v ->
  analyze_opportunity client_name opportunity_type raw_data = Ok v.
Proof.
  intros Hm Hp Hg Ht Hj.
  unfold Agent.analyze_opportunity, Agent.attempt.
  rewrite Hm. simpl. rewrite Hp. simpl. rewrite Hg. simpl. rewrite Ht. simpl.
  by rewrite Hj.
Qed.

End SynthesizerFacts.

(** The fallback on a timeout of the service, and on a reply that is not
    JSON. *)
Lemma analyze_opportunity_fallback_total_witness :
  Agent.run_with (Raise (mkExc "DeadlineExceeded" "504 Deadline Exceeded"))
    "Asha Rao" "SIP_RECOVERY" "{}"
  = Ok (Agent.fallback_object "504 Deadline Exceeded")
  /\ Agent.run_with (Ok "Sorry, I cannot help with that.")
       "Asha Rao" "SIP_RECOVERY" "{}"
     = Ok (Agent.fallback_object "Expecting value").
Proof.
  split.
  - pose proof
      (analyze_opportunity_fallback_total string Agent.canned_model string
         (fun s => Ok s) (fun s => Ok s) (fun _ _ => Ok tt)
         (fun _ _ => Raise (mkExc "DeadlineExceeded" "504 Deadline Exceeded"))
         (fun r => Ok r) Agent.json_loads_plain
         "You are a Premier Wealth Strategist."
         "Asha Rao" "SIP_RECOVERY" "{}") as (_ & _ & Hcall & _).
    exact (Hcall tt _ (mkExc "DeadlineExceeded" "504 Deadline Exceeded")
             eq_refl eq_refl eq_refl).
  - pose proof
      (analyze_opportunity_fallback_total string Agent.canned_model string
         (fun s => Ok s) (fun s => Ok s) (fun _ _ => Ok tt)
         (fun _ _ => Ok "Sorry, I cannot help with that.")
         (fun r => Ok r) Agent.json_loads_plain
         "You are a Premier Wealth Strategist."
         "Asha Rao" "SIP_RECOVERY" "{}") as (_ & _ & _ & _ & Hjson & _).
    exact (Hjson tt _ _ _ Agent.JSONDecodeError
             eq_refl eq_refl eq_refl eq_refl eq_refl).
Defined.

(** C2 fails as stated: the reply [{}] parses as JSON, is returned as it is,
    and has none of the six fields of the schema. *)
Lemma analyze_opportunity_schema_counterexample :
  Agent.json_loads_plain "{}" = Ok (Agent.JObject [])
  /\ Agent.run_with (Ok "{}") "Asha Rao" "SIP_RECOVERY" "{}"
     = Ok (Agent.JObject [])
  /\ Agent.spec_schema_conforms (Agent.JObject []) = false.
Proof. repeat split; vm_compute; reflexivity. Qed.

Lemma analyze_opportunity_returns_parsed_value_witness :
  Agent.run_with (Ok "[1, 2]") "Asha Rao" "SIP_RECOVERY" "{}"
  = Ok (Agent.JArray [Agent.JInt 1; Agent.JInt 2]).
Proof.
  exact (analyze_opportunity_returns_parsed_value string Agent.canned_model
           string (fun s => Ok s) (fun s => Ok s) (fun _ _ => Ok tt)
           (fun _ _ => Ok "[1, 2]") (fun r => Ok r) Agent.json_loads_plain
           "You are a Premier Wealth Strategist."
           "Asha Rao" "SIP_RECOVERY" "{}" tt _ _ _ _
           eq_refl eq_refl eq_refl eq_refl eq_refl).
Defined.

(** ** app/services.py: lists *)

Lemma Forall2_filter_omap {A B} (P : A -> bool) (emit : A -> option B)
    (R : A -> B -> Prop) (l : list A) :
  (forall x, x ∈ l ->
     if P x then exists y, emit x = Some y /\ R x y else emit x = None) ->
  Forall2 R (List.filter P l) (omap emit l).
Proof.
  induction l as [|x l IH]; intros H; simpl; [constructor|].
  pose proof (H x (list_elem_of_here x l)) as Hx.
  assert (Forall2 R (List.filter P l) (omap emit l)) as IH'.
  { apply IH. intros y Hy. apply H. by right. }
  destruct (P x).
  - destruct Hx as (y & -> & Hy). by constructor.
  - by rewrite Hx.
Qed.

Lemma elem_of_List_filter {A} (P : A -> bool) (l : list A) (x : A) :
  x ∈ List.filter P l <-> x ∈ l /\ P x = true.
Proof. rewrite !list_elem_of_In. apply filter_In. Qed.

Lemma List_filter_filter {A} (P Q : A -> bool) (l : list A) :
  List.filter Q (List.filter P l) = List.filter (fun x => P x && Q x) l.
Proof.
  induction l as [|x l IH]; simpl; [done|].
  destruct (P x); simpl; [destruct (Q x)|]; by rewrite IH.
Qed.

(** ** app/services.py: SQL and Python primitives *)

Lemma truthy_int_Some (x : option Z) :
  truthy_int x = true <-> exists n, x = Some n /\ n <> 0%Z.
Proof.
  destruct x as [n|]; simpl.
  - rewrite negb_true_iff, Z.eqb_neq. split; [eauto | by intros (? & [= <-] & ?)].
  - split; [done | by intros (? & [=] & _)].
Qed.

Lemma sql_ge_int_Some (x : option Z) (v : Z) :
  sql_ge_int x v = true <-> exists n, x = Some n /\ (v <= n)%Z.
Proof.
  destruct x as [n|]; simpl.
  - rewrite Z.leb_le. split; [eauto | by intros (? & [= <-] & ?)].
  - split; [done | by intros (? & [=] & _)].
Qed.

Lemma sql_gt_Some (x : option Q) (v : Q) :
  sql_gt x v = true <-> exists q, x = Some q /\ (v < q)%Q.
Proof.
  destruct x as [q|]; simpl.
  - rewrite Qltb_lt. split; [eauto | by intros (? & [= <-] & ?)].
  - split; [done | by intros (? & [=] & _)].
Qed.

Lemma sql_ge_Some (x : option Q) (v : Q) :
  sql_ge x v = true <-> exists q, x = Some q /\ (v <= q)%Q.
Proof.
  destruct x as [q|]; simpl.
  - rewrite Qle_bool_iff. split; [eauto | by intros (? & [= <-] & ?)].
  - split; [done | by intros (? & [=] & _)].
Qed.

Lemma optional_filter_iff (key col : option string) :
  optional_filter key col = true
  <-> truthy_str key = false \/ (truthy_str key = true /\ col = key).
Proof.
  unfold optional_filter, truthy_str.
  destruct key as [k|]; [|by intuition].
  destruct (String.eqb_spec k "") as [->|Hk]; simpl; [by intuition|].
  destruct col as [c|]; simpl.
  - destruct (String.eqb_spec c k) as [->|Hc]; [by intuition|].
    split; [done|]. intros [[=]|[_ [=]]]. done.
  - split; [done|]. by intros [[=]|[_ [=]]].
Qed.

Lemma sql_eq_iff (col : option string) (v : string) :
  sql_eq col v = true <-> col = Some v.
Proof.
  destruct col as [c|]; simpl; [|done].
  destruct (String.eqb_spec c v) as [->|H]; [done|].
  split; [done | by intros [= ->]].
Qed.

Lemma isnot_None_iff {A} (x : option A) : isnot_None x = true <-> is_Some x.
Proof.
  destruct x; simpl.
  - split; [by eexists | done].
  - split; [done | by intros [? [=]]].
Qed.

Lemma Forall2_fmap_same {A B} (f : A -> B) (R : A -> B -> Prop) (l : list A) :
  (forall x, x ∈ l -> R x (f x)) -> Forall2 R l (f <$> l).
Proof.
  induction l as [|x l IH]; intros H; simpl; constructor.
  - apply H. by left.
  - apply IH. intros y Hy. apply H. by right.
Qed.

Lemma omap_total {A B} (emit : A -> option B) (f : A -> B) (l : list A) :
  (forall x, x ∈ l -> emit x = Some (f x)) -> omap emit l = f <$> l.
Proof.
  induction l as [|x l IH]; intros H; simpl; [done|].
  rewrite (H x) by by left. simpl. f_equal.
  apply IH. intros y Hy. apply H. by right.
Qed.

(** ** app/services.py: the SIP detectors *)

Section DetectorFacts.

Variable now : Z.
Variable date_parser_parse : string -> option datetime.

Local Abbreviation get_days_since_date :=
  (Services.get_days_since_date now date_parser_parse).
Local Abbreviation get_months_since_date :=
  (Services.get_months_since_date now date_parser_parse).
Local Abbreviation no_sip_increase_due :=
  (Services.no_sip_increase_due now date_parser_parse).
Local Abbreviation no_sip_increase_body :=
  (Services.no_sip_increase_body now date_parser_parse).
Local Abbreviation no_sip_increase_emitted :=
  (Services.no_sip_increase_emitted now date_parser_parse).
Local Abbreviation get_no_sip_increase_clients :=
  (Services.get_no_sip_increase_clients now date_parser_parse).
Local Abbreviation offset_aware := (Services.offset_aware date_parser_parse).
Local Abbreviation days_elapsed :=
  (Services.days_elapsed now date_parser_parse).
Local Abbreviation months_elapsed :=
  (Services.months_elapsed now date_parser_parse).

(** The three outcomes of the two date functions. *)
Lemma get_days_since_date_naive (date_string : option string) :
  offset_aware date_string = false ->
  get_days_since_date date_string = Ok (days_elapsed date_string).
Proof.
  unfold Services.offset_aware, Services.days_elapsed,
    Services.get_days_since_date.
  by destruct (Services.parse_date_safe date_parser_parse date_string)
    as [[t|t]|].
Qed.

Lemma get_days_since_date_aware (date_string : option string) :
  offset_aware date_string = true ->
  get_days_since_date date_string = Raise Services.aware_error.
Proof.
  unfold Services.offset_aware, Services.get_days_since_date.
  by destruct (Services.parse_date_safe date_parser_parse date_string)
    as [[t|t]|].
Qed.

Lemma get_months_since_date_naive (date_string : option string) :
  offset_aware date_string = false ->
  get_months_since_date date_string = Ok (months_elapsed date_string).
Proof.
  intros Hnaive.
  unfold Services.months_elapsed, Services.get_months_since_date.
  rewrite (get_days_since_date_naive _ Hnaive). simpl.
  by destruct (days_elapsed date_string).
Qed.

Lemma get_months_since_date_aware (date_string : option string) :
  offset_aware date_string = true ->
  get_months_since_date date_string = Raise Services.aware_error.
Proof.
  intros Haware. unfold Services.get_months_since_date.
  by rewrite (get_days_since_date_aware _ Haware).
Qed.

Lemma days_elapsed_Some (date_string : option string) (days : Z) :
  days_elapsed date_string = Some days
  <-> get_days_since_date date_string = Ok (Some days).
Proof.
  unfold Services.days_elapsed.
  destruct (get_days_since_date date_string) as [d|e].
  - split; [by intros -> | by intros [= ->]].
  - split; done.
Qed.

Lemma months_elapsed_Some (date_string : option string) (months : Z) :
  months_elapsed date_string = Some months
  <-> get_months_since_date date_string = Ok (Some months).
Proof.
  unfold Services.months_elapsed.
  destruct (get_months_since_date date_string) as [m|e].
  - split; [by intros -> | by intros [= ->]].
  - split; done.
Qed.

Lemma days_elapsed_naive (date_string : option string) :
  is_Some (days_elapsed date_string) -> offset_aware date_string = false.
Proof.
  intros [d Hd]. destruct (offset_aware date_string) eqn:Haware; [|done].
  apply days_elapsed_Some in Hd.
  by rewrite (get_days_since_date_aware _ Haware) in Hd.
Qed.

Lemma months_elapsed_naive (date_string : option string) :
  is_Some (months_elapsed date_string) -> offset_aware date_string = false.
Proof.
  intros [m Hm]. destruct (offset_aware date_string) eqn:Haware; [|done].
  apply months_elapsed_Some in Hm.
  by rewrite (get_months_since_date_aware _ Haware) in Hm.
Qed.

Lemma expected_increments_pos (increment_period : option string)
    (months_since_start : Z) :
  (0 < Services.expected_increments increment_period months_since_start)%Z
  <-> (increment_period = Some "6M" /\ 6 <= months_since_start)%Z
      \/ (increment_period = Some "1Y" /\ 12 <= months_since_start)%Z.
Proof.
  unfold Services.expected_increments.
  destruct increment_period as [s|]; simpl.
  - destruct (String.eqb_spec s "6M") as [->|H6]; simpl.
    + destruct (Z.leb_spec 6 months_since_start) as [Hle|Hlt]; simpl.
      * split; [by left|]. intros _.
        apply Z.div_str_pos. lia.
      * split; [lia|]. intros [[_ ?]|[[=] _]]. lia.
    + destruct (String.eqb_spec s "1Y") as [->|H1]; simpl.
      * destruct (Z.leb_spec 12 months_since_start) as [Hle|Hlt]; simpl.
        -- split; [by right|]. intros _. apply Z.div_str_pos. lia.
        -- split; [lia|]. intros [[[=] _]|[_ ?]]. lia.
      * split; [lia|]. intros [[[= ->] _]|[[= ->] _]]; congruence.
  - split; [lia|]. intros [[[=] _]|[[=] _]].
Qed.

(** The loop body in the claim's words: with [min_months >= 1], a fetched
    plan reaches the constructor exactly when both dates parse, the last
    success is at least [min_months] months old and at least one increment
    was expected. *)
Lemma no_sip_increase_due_iff (min_months : Z) (r : SIPRecord.t) :
  (1 <= min_months)%Z ->
  no_sip_increase_due min_months r = true
  <-> exists months_since_last months_since_start,
        get_months_since_date (SIPRecord.latest_success_order_date r)
        = Ok (Some months_since_last)
        /\ get_months_since_date (SIPRecord.start_date r)
           = Ok (Some months_since_start)
        /\ (min_months <= months_since_last)%Z
        /\ (0 < Services.expected_increments (SIPRecord.increment_period r)
                  months_since_start)%Z.
Proof.
  intros Hmin. unfold Services.no_sip_increase_due.
  rewrite !andb_true_iff, !truthy_int_Some, sql_ge_int_Some, Z.ltb_lt.
  setoid_rewrite <- months_elapsed_Some.
  split.
  - intros [[[(msl & Hl & _) (mss & Hs & _)] (msl' & Hl' & Hge)] Hexp].
    rewrite Hl in Hl'. injection Hl' as <-. rewrite Hs in Hexp. simpl in Hexp.
    by exists msl, mss.
  - intros (msl & mss & Hl & Hs & Hge & Hexp).
    rewrite Hl, Hs. simpl. repeat split; eauto.
    + exists msl. split; [done | lia].
    + exists mss. split; [done|].
      apply expected_increments_pos in Hexp. lia.
Qed.

Lemma no_sip_increase_query_percentage (agent_id : option string)
    (r : SIPRecord.t) :
  Services.no_sip_increase_query agent_id r = true ->
  exists p, SIPRecord.increment_percentage r = Some p /\ (0 < p)%Q.
Proof.
  unfold Services.no_sip_increase_query. rewrite !andb_true_iff.
  intros [[_ H] _]. by apply sql_gt_Some.
Qed.

(** What one iteration does to the list under construction, for a plan
    whose two date texts do not parse to an offset-aware datetime. *)
Lemma no_sip_increase_body_step (min_months : Z) (r : SIPRecord.t)
    (opportunities : list OpportunityClient.t) :
  offset_aware (SIPRecord.latest_success_order_date r) = false ->
  offset_aware (SIPRecord.start_date r) = false ->
  no_sip_increase_body min_months r opportunities
  = if no_sip_increase_due min_months r then
      pct ← py_truediv (SIPRecord.increment_percentage r) (Some 100%Q);
      potential_increase ← py_mul (SIPRecord.amount r) (Some pct);
      mret (opportunities ++
        [ Services.no_sip_increase_opportunity r
            (default 0%Z
               (months_elapsed (SIPRecord.latest_success_order_date r)))
            (Services.expected_increments (SIPRecord.increment_period r)
               (default 0%Z (months_elapsed (SIPRecord.start_date r))))
            potential_increase
            (days_elapsed (SIPRecord.latest_success_order_date r)) ])
    else mret opportunities.
Proof.
  intros Hlast Hstart.
  unfold Services.no_sip_increase_body, Services.no_sip_increase_due.
  rewrite (get_months_since_date_naive _ Hlast),
    (get_months_since_date_naive _ Hstart).
  simpl.
  destruct (truthy_int _ && truthy_int _ && sql_ge_int _ _); simpl; [|done].
  destruct (0 <? _)%Z; [|done].
  destruct (py_truediv _ _) as [pct|e]; simpl; [|done].
  destruct (py_mul _ _) as [potential_increase|e]; simpl; [|done].
  by rewrite (get_days_since_date_naive _ Hlast).
Qed.

(** A plan with a date text that parses to an offset-aware datetime makes
    the iteration raise, before any test. *)
Lemma no_sip_increase_body_aware (min_months : Z) (r : SIPRecord.t)
    (opportunities : list OpportunityClient.t) :
  offset_aware (SIPRecord.latest_success_order_date r) = true
  \/ offset_aware (SIPRecord.start_date r) = true ->
  no_sip_increase_body min_months r opportunities
  = Raise Services.aware_error.
Proof.
  intros Haware. unfold Services.no_sip_increase_body.
  destruct (offset_aware (SIPRecord.latest_success_order_date r)) eqn:Hlast.
  - by rewrite (get_months_since_date_aware _ Hlast).
  - destruct Haware as [|Hstart]; [done|].
    rewrite (get_months_since_date_naive _ Hlast). simpl.
    by rewrite (get_months_since_date_aware _ Hstart).
Qed.

(** [get_no_sip_increase_clients] on tables in which no selected plan has a
    date text that parses to an offset-aware datetime and every plan that
    reaches the multiplication has an amount: one opportunity per fetched
    plan that passes the tests of the loop, built from that plan, then the
    descending sort by potential increase and the cut at [limit]. *)
Lemma get_no_sip_increase_clients_populated (db : Session)
    (agent_id : option string) (min_months : Z) (limit : nat) :
  (forall r, r ∈ sip_records db ->
     Services.no_sip_increase_query agent_id r = true ->
     offset_aware (SIPRecord.latest_success_order_date r) = false
     /\ offset_aware (SIPRecord.start_date r) = false) ->
  (forall r, r ∈ sip_records db ->
     Services.no_sip_increase_query agent_id r = true ->
     no_sip_increase_due min_months r = true ->
     is_Some (SIPRecord.amount r)) ->
  exists opportunities,
    get_no_sip_increase_clients db agent_id min_months limit
    = Ok (take limit (sort_desc Services.potential_key opportunities))
    /\ Forall2 no_sip_increase_emitted
         (List.filter
            (fun r => Services.no_sip_increase_query agent_id r
                      && no_sip_increase_due min_months r)
            (sip_records db))
         opportunities
    /\ sorted_desc Services.potential_key
         (take limit (sort_desc Services.potential_key opportunities)).
Proof.
  intros Hnaive Hamount.
  set (emit := fun r : SIPRecord.t =>
    if no_sip_increase_due min_months r then
      match SIPRecord.amount r, SIPRecord.increment_percentage r with
      | Some a, Some p =>
          Some (Services.no_sip_increase_opportunity r
                  (default 0%Z
                     (months_elapsed (SIPRecord.latest_success_order_date r)))
                  (Services.expected_increments (SIPRecord.increment_period r)
                     (default 0%Z (months_elapsed (SIPRecord.start_date r))))
                  (a * (p / 100))%Q
                  (days_elapsed (SIPRecord.latest_success_order_date r)))
      | _, _ => None
      end
    else None).
  set (records :=
    List.filter (Services.no_sip_increase_query agent_id) (sip_records db)).
  exists (omap emit records). split; [|split].
  - unfold Services.get_no_sip_increase_clients. fold records.
    rewrite (for_each_omap _ emit); [reflexivity|].
    intros r acc Hr. apply elem_of_List_filter in Hr as [Hr Hq].
    destruct (Hnaive r Hr Hq) as [Hlast Hstart].
    rewrite no_sip_increase_body_step by done. unfold emit.
    destruct (no_sip_increase_due min_months r) eqn:Hdue;
      [|by rewrite app_nil_r].
    destruct (no_sip_increase_query_percentage _ _ Hq) as (p & Hp & _).
    destruct (Hamount r Hr Hq Hdue) as [a Ha].
    rewrite Hp, Ha. reflexivity.
  - unfold records. rewrite <- List_filter_filter. fold records.
    apply Forall2_filter_omap. intros r Hr.
    apply elem_of_List_filter in Hr as [Hr Hq]. unfold emit.
    destruct (no_sip_increase_due min_months r) eqn:Hdue; [|done].
    destruct (no_sip_increase_query_percentage _ _ Hq) as (p & Hp & _).
    destruct (Hamount r Hr Hq Hdue) as [a Ha].
    rewrite Hp, Ha. eexists. split; [reflexivity|].
    unfold Services.no_sip_increase_due in Hdue.
    rewrite !andb_true_iff, !truthy_int_Some in Hdue.
    destruct Hdue as [[[(msl & Hl & _) (mss & Hs & _)] _] _].
    destruct (Hnaive r Hr Hq) as [Hlast _].
    exists a, p, msl, mss,
      (days_elapsed (SIPRecord.latest_success_order_date r)).
    rewrite Hl, Hs.
    apply months_elapsed_Some in Hl. apply months_elapsed_Some in Hs.
    by rewrite (get_days_since_date_naive _ Hlast).
  - apply sorted_desc_take, sort_desc_sorted.
Qed.

(** The tests of the loop pass only on dates that the two functions
    returned. *)
Lemma no_sip_increase_due_naive (min_months : Z) (r : SIPRecord.t) :
  no_sip_increase_due min_months r = true ->
  offset_aware (SIPRecord.latest_success_order_date r) = false
  /\ offset_aware (SIPRecord.start_date r) = false.
Proof.
  unfold Services.no_sip_increase_due.
  rewrite !andb_true_iff, !truthy_int_Some.
  intros [[[(msl & Hl & _) (mss & Hs & _)] _] _].
  split; apply months_elapsed_naive; by eexists.
Qed.

(** A fetched plan that passes the tests of the loop and has a NULL amount
    makes the whole call raise. *)
Lemma get_no_sip_increase_clients_raises (db : Session)
    (agent_id : option string) (min_months : Z) (limit : nat) (r : SIPRecord.t) :
  r ∈ sip_records db ->
  Services.no_sip_increase_query agent_id r = true ->
  no_sip_increase_due min_months r = true ->
  SIPRecord.amount r = None ->
  exists e, get_no_sip_increase_clients db agent_id min_months limit = Raise e.
Proof.
  intros Hr Hq Hdue Ha.
  destruct (no_sip_increase_due_naive _ _ Hdue) as [Hlast Hstart].
  unfold Services.get_no_sip_increase_clients.
  destruct (for_each_raises (no_sip_increase_body min_months)
              (List.filter (Services.no_sip_increase_query agent_id)
                 (sip_records db)) r []) as [e He].
  - by apply elem_of_List_filter.
  - intros acc. rewrite no_sip_increase_body_step by done. rewrite Hdue, Ha.
    destruct (py_truediv _ _); simpl; eauto.
  - exists e. by rewrite He.
Qed.

End DetectorFacts.

(** C3.  The table holding one plan that is active, in "Success" state, not
    soft-deleted, with a 10 % semiannual increment, a last success 13 months
    old, a start 14 months old and a NULL amount: the plan meets every
    condition of the claim, and [get_no_sip_increase_clients] raises
    [TypeError] from the multiplication instead of returning.  With the
    amount 10000 in place the same plan is emitted with 2 expected
    increments, potential increase 1000 and risk score 13/6. *)
Theorem get_no_sip_increase_clients_null_amount :
  Services.get_no_sip_increase_clients Demo.new_year_2026 Demo.parse_iso_date
    (Demo.only_plans [Demo.stagnant_plan_without_amount]) None 12 100
  = Raise (unsupported "*")
  /\ Services.no_sip_increase_query None Demo.stagnant_plan_without_amount = true
  /\ Services.no_sip_increase_due Demo.new_year_2026 Demo.parse_iso_date 12
       Demo.stagnant_plan_without_amount = true
  /\ exists o,
       Services.get_no_sip_increase_clients Demo.new_year_2026
         Demo.parse_iso_date (Demo.only_plans [Demo.stagnant_plan]) None 12 100
       = Ok [o]
       /\ OpportunityClient.opportunity_description o
          = NoIncreaseText 13 2 (Some "6M")
       /\ (exists p, OpportunityClient.potential_increase o = Some p
                     /\ (p == 1000)%Q)
       /\ (exists s, OpportunityClient.risk_score o = Some s
                     /\ (s == 13 # 6)%Q).
Proof.
  split; [vm_compute; reflexivity|].
  split; [vm_compute; reflexivity|].
  split; [vm_compute; reflexivity|].
  eexists. split; [vm_compute; reflexivity|].
  split; [reflexivity|].
  split; eexists; (split; [reflexivity|]); vm_compute; reflexivity.
Qed.

Section FailedSipFacts.

Variable now : Z.
Variable date_parser_parse : string -> option datetime.

Local Abbreviation failed_sip_body :=
  (Services.failed_sip_body now date_parser_parse).
Local Abbreviation failed_sip_emitted :=
  (Services.failed_sip_emitted now date_parser_parse).
Local Abbreviation get_failed_sip_clients :=
  (Services.get_failed_sip_clients now date_parser_parse).
Local Abbreviation get_days_since_date :=
  (Services.get_days_since_date now date_parser_parse).
Local Abbreviation offset_aware := (Services.offset_aware date_parser_parse).
Local Abbreviation days_elapsed :=
  (Services.days_elapsed now date_parser_parse).

(** The rows the query selects. *)
Lemma failed_sip_query_iff (agent_id : option string) (min_failed_amount : Q)
    (r : SIPRecord.t) :
  Services.failed_sip_query agent_id min_failed_amount r = true
  <-> SIPRecord.deleted r = Some "false"
      /\ (exists f, SIPRecord.failed_amount r = Some f
                    /\ (min_failed_amount <= f)%Q)
      /\ (truthy_str agent_id = false
          \/ (truthy_str agent_id = true /\ SIPRecord.agent_id r = agent_id)).
Proof.
  unfold Services.failed_sip_query.
  rewrite !andb_true_iff, sql_eq_iff, sql_ge_Some, optional_filter_iff.
  tauto.
Qed.

(** One iteration on a plan with both totals: it appends the opportunity
    when the date call returns, and raises with it otherwise. *)
Lemma failed_sip_body_step (r : SIPRecord.t) (s f : Q)
    (opportunities : list OpportunityClient.t) :
  SIPRecord.success_amount r = Some s ->
  SIPRecord.failed_amount r = Some f ->
  failed_sip_body r opportunities
  = (days_since_activity ←
       get_days_since_date (SIPRecord.latest_success_order_date r);
     mret (opportunities ++
             [Services.failed_sip_opportunity r f (Services.failure_rate s f)
                days_since_activity])).
Proof.
  intros Hs Hf.
  unfold Services.failed_sip_body, Services.failure_rate_of,
    Services.failure_rate.
  rewrite Hs, Hf. simpl.
  destruct (Qltb 0 (s + f)) eqn:Hpos; simpl; [|done].
  unfold py_truediv.
  destruct (Qeq_bool (s + f) 0) eqn:Hz; [|done].
  apply Qeq_bool_iff in Hz. apply Qltb_lt in Hpos.
  rewrite Hz in Hpos. by apply Qlt_irrefl in Hpos.
Qed.

(** C4, as the source has it.  For tables in which every fetched plan has a
    [success_amount] and a latest-success date text that does not parse to
    an offset-aware datetime: the call returns; the plans considered are
    exactly the rows that are not soft-deleted, have
    [failed_amount >= min_failed_amount] and pass the advisor filter; the
    list returned holds one opportunity for each of the first [limit] of
    them in descending order of [failed_amount], with
    [potential_increase = failed_amount] and
    [risk_score = min(10, failure_rate / 10)], where [failure_rate] is
    [failed_amount / (success_amount + failed_amount) * 100] when the sum is
    positive and 0 otherwise (so the division never sees a zero
    denominator).  With 4000 collected and 6000 failed the rate is 60 and the
    risk score 6. *)
Theorem get_failed_sip_clients_populated (db : Session)
    (agent_id : option string) (min_failed_amount : Q) (limit : nat) :
  (forall r,
     r ∈ Services.failed_sip_records db agent_id min_failed_amount limit ->
     is_Some (SIPRecord.success_amount r)
     /\ offset_aware (SIPRecord.latest_success_order_date r) = false) ->
  let eligible :=
    List.filter (Services.failed_sip_query agent_id min_failed_amount)
      (sip_records db) in
  (forall r, r ∈ eligible <->
     r ∈ sip_records db
     /\ SIPRecord.deleted r = Some "false"
     /\ (exists f, SIPRecord.failed_amount r = Some f
                   /\ (min_failed_amount <= f)%Q)
     /\ (truthy_str agent_id = false
         \/ (truthy_str agent_id = true /\ SIPRecord.agent_id r = agent_id)))
  /\ (exists opportunities,
        get_failed_sip_clients db agent_id min_failed_amount limit
        = Ok opportunities
        /\ Forall2 failed_sip_emitted
             (take limit (sort_desc Services.failed_key eligible))
             opportunities)
  /\ sorted_desc Services.failed_key
       (take limit (sort_desc Services.failed_key eligible))
  /\ (forall s f, (0 < s + f)%Q ->
        Services.failure_rate s f = (f / (s + f) * 100)%Q)
  /\ (forall s f, (s + f <= 0)%Q -> Services.failure_rate s f = 0%Q)
  /\ (Services.failure_rate 4000 6000 == 60)%Q
  /\ (py_min 10 (Services.failure_rate 4000 6000 / 10) == 6)%Q.
Proof.
  intros Hsuccess eligible.
  split; [|split; [|split; [|split; [|split; [|split]]]]].
  - intros r. unfold eligible.
    rewrite elem_of_List_filter, failed_sip_query_iff. tauto.
  - set (records :=
      Services.failed_sip_records db agent_id min_failed_amount limit).
    assert (forall r, r ∈ records ->
              exists s f, SIPRecord.success_amount r = Some s
                          /\ SIPRecord.failed_amount r = Some f
                          /\ get_days_since_date
                               (SIPRecord.latest_success_order_date r)
                             = Ok (days_elapsed
                                     (SIPRecord.latest_success_order_date r)))
      as Hboth.
    { intros r Hr. destruct (Hsuccess r Hr) as [[s Hs] Hnaive].
      apply subseteq_take, elem_of_sort_desc, elem_of_List_filter in Hr
        as [_ Hq].
      apply failed_sip_query_iff in Hq as (_ & (f & Hf & _) & _).
      exists s, f. split; [done|]. split; [done|].
      by apply get_days_since_date_naive. }
    set (mk := fun r : SIPRecord.t =>
      Services.failed_sip_opportunity r
        (or_zero (SIPRecord.failed_amount r))
        (Services.failure_rate (or_zero (SIPRecord.success_amount r))
           (or_zero (SIPRecord.failed_amount r)))
        (days_elapsed (SIPRecord.latest_success_order_date r))).
    exists (take limit (mk <$> records)). split.
    + unfold Services.get_failed_sip_clients. fold records.
      rewrite (for_each_omap _ (fun r => Some (mk r))).
      * change (Ok (take limit (omap (fun r => Some (mk r)) records))
                = Ok (take limit (mk <$> records))).
        rewrite (omap_total _ mk); [done|]. by intros.
      * intros r acc Hr. destruct (Hboth r Hr) as (s & f & Hs & Hf & Hd).
        rewrite (failed_sip_body_step r s f) by done.
        unfold mk. by rewrite Hd, Hs, Hf.
    + rewrite <- fmap_take. unfold records, Services.failed_sip_records.
      fold eligible. rewrite take_take.
      replace (limit `min` (limit * 2)) with limit by lia.
      apply Forall2_fmap_same. intros r Hr.
      assert (r ∈ records) as Hr'.
      { unfold records, Services.failed_sip_records. fold eligible.
        apply elem_of_take in Hr as (i & Hi & Hlt).
        apply elem_of_take. exists i. split; [done | lia]. }
      destruct (Hboth r Hr') as (s & f & Hs & Hf & Hd).
      exists s, f, (days_elapsed (SIPRecord.latest_success_order_date r)).
      unfold mk. rewrite Hs, Hf. by repeat split.
  - apply sorted_desc_take, sort_desc_sorted.
  - intros s f Hpos. unfold Services.failure_rate.
    by apply Qltb_lt in Hpos as ->.
  - intros s f Hneg. unfold Services.failure_rate.
    by apply Qltb_ge in Hneg as ->.
  - vm_compute. reflexivity.
  - vm_compute. reflexivity.
Qed.

End FailedSipFacts.

(** C4 fails as stated: a plan with -10000 collected and 6000 failed is
    emitted with failure rate 0 and risk score 0, where the quotient of the
    claim is 6000 / (-4000) * 100 = -150 and its risk score -15. *)
Lemma get_failed_sip_clients_negative_total :
  exists o,
    Services.get_failed_sip_clients Demo.new_year_2026 Demo.parse_iso_date
      (Demo.only_plans [Demo.reversed_plan]) None 5000 100
    = Ok [o]
    /\ OpportunityClient.risk_score o = Some (py_min 10 (0 / 10))
    /\ (Services.spec_failure_rate (-10000) 6000 == -150)%Q
    /\ ~ (py_min 10 (0 / 10)
          == py_min 10 (Services.spec_failure_rate (-10000) 6000 / 10))%Q.
Proof.
  eexists. split; [vm_compute; reflexivity|].
  split; [reflexivity|].
  split; [vm_compute; reflexivity|].
  vm_compute. discriminate.
Qed.

(** The table of one plan with 4000 collected and 6000 failed. *)
Lemma get_failed_sip_clients_populated_witness :
  exists opportunities,
    Services.get_failed_sip_clients Demo.new_year_2026 Demo.parse_iso_date
      (Demo.only_plans [Demo.half_failed_plan]) None 5000 100
    = Ok opportunities
    /\ Forall2
         (Services.failed_sip_emitted Demo.new_year_2026 Demo.parse_iso_date)
         [Demo.half_failed_plan] opportunities.
Proof.
  refine (proj1 (proj2
    (get_failed_sip_clients_populated Demo.new_year_2026 Demo.parse_iso_date
       (Demo.only_plans [Demo.half_failed_plan]) None 5000 100 _))).
  intros r Hr. vm_compute in Hr.
  apply list_elem_of_singleton in Hr as ->.
  split; [by eexists | reflexivity].
Defined.

Section HighValueInactiveFacts.

Variable now : Z.
Variable date_parser_parse : string -> option datetime.

Local Abbreviation get_days_since_date :=
  (Services.get_days_since_date now date_parser_parse).
Local Abbreviation high_value_inactive_due :=
  (Services.high_value_inactive_due now date_parser_parse).
Local Abbreviation high_value_inactive_body :=
  (Services.high_value_inactive_body now date_parser_parse).
Local Abbreviation high_value_inactive_emitted :=
  (Services.high_value_inactive_emitted now date_parser_parse).
Local Abbreviation get_high_value_inactive_clients :=
  (Services.get_high_value_inactive_clients now date_parser_parse).
Local Abbreviation offset_aware := (Services.offset_aware date_parser_parse).
Local Abbreviation days_elapsed :=
  (Services.days_elapsed now date_parser_parse).

(** The rows the query selects. *)
Lemma high_value_inactive_query_iff (agent_id : option string)
    (min_invested_amount : Q) (r : SIPRecord.t) :
  Services.high_value_inactive_query agent_id min_invested_amount r = true
  <-> SIPRecord.deleted r = Some "false"
      /\ (exists s, SIPRecord.success_amount r = Some s
                    /\ (min_invested_amount <= s)%Q)
      /\ is_Some (SIPRecord.latest_success_order_date r)
      /\ (truthy_str agent_id = false
          \/ (truthy_str agent_id = true /\ SIPRecord.agent_id r = agent_id)).
Proof.
  unfold Services.high_value_inactive_query.
  rewrite !andb_true_iff, sql_eq_iff, sql_ge_Some, isnot_None_iff,
    optional_filter_iff.
  tauto.
Qed.

(** The test of the loop body, for [min_inactive_days >= 1]. *)
Lemma high_value_inactive_due_iff (min_inactive_days : Z) (r : SIPRecord.t) :
  (1 <= min_inactive_days)%Z ->
  high_value_inactive_due min_inactive_days r = true
  <-> exists d,
        get_days_since_date (SIPRecord.latest_success_order_date r)
        = Ok (Some d)
        /\ (min_inactive_days <= d)%Z.
Proof.
  intros Hmin. unfold Services.high_value_inactive_due.
  rewrite andb_true_iff, truthy_int_Some, sql_ge_int_Some.
  setoid_rewrite <- days_elapsed_Some.
  split; [by intros [_ ?]|].
  intros (d & Hd & Hle). split; exists d; (split; [done|]); lia.
Qed.

(** What one iteration does, for a plan whose date text does not parse to
    an offset-aware datetime. *)
Lemma high_value_inactive_body_step (min_inactive_days : Z) (r : SIPRecord.t)
    (opportunities : list OpportunityClient.t) :
  offset_aware (SIPRecord.latest_success_order_date r) = false ->
  high_value_inactive_body min_inactive_days r opportunities
  = if high_value_inactive_due min_inactive_days r then
      potential_increase ← py_mul (SIPRecord.amount r) (Some (3 # 2)%Q);
      shown_invested ← py_format_float (SIPRecord.success_amount r);
      mret (opportunities ++
        [ Services.high_value_inactive_opportunity r
            (default 0%Z
               (days_elapsed (SIPRecord.latest_success_order_date r)))
            potential_increase shown_invested ])
    else mret opportunities.
Proof.
  intros Hnaive. unfold Services.high_value_inactive_body.
  by rewrite (get_days_since_date_naive _ _ _ Hnaive).
Qed.

(** A plan whose date text parses to an offset-aware datetime makes the
    iteration raise. *)
Lemma high_value_inactive_body_aware (min_inactive_days : Z)
    (r : SIPRecord.t) (opportunities : list OpportunityClient.t) :
  offset_aware (SIPRecord.latest_success_order_date r) = true ->
  high_value_inactive_body min_inactive_days r opportunities
  = Raise Services.aware_error.
Proof.
  intros Haware. unfold Services.high_value_inactive_body.
  by rewrite (get_days_since_date_aware _ _ _ Haware).
Qed.

(** C5, as the source has it.  The query fetches the first [3 * limit]
    plans, in descending order of [success_amount], among the rows that are
    not soft-deleted, have [success_amount >= min_invested_amount], a
    non-null latest-success date and pass the advisor filter.  For tables in
    which no fetched plan has a date text that parses to an offset-aware
    datetime and every fetched plan that passes the test of the loop has an
    amount: the call returns; it emits one opportunity for each fetched plan
    whose date parses and is at least [min_inactive_days] days old, and for
    no other plan; each has [potential_increase = amount * 1.5] and
    [risk_score = min(10, days / 30)]; the result is sorted descending by
    [success_amount] and cut at [limit]. *)
Theorem get_high_value_inactive_clients_fetched (db : Session)
    (agent_id : option string) (min_invested_amount : Q)
    (min_inactive_days : Z) (limit : nat) :
  (1 <= min_inactive_days)%Z ->
  let fetched :=
    Services.high_value_inactive_records db agent_id min_invested_amount limit
  in
  (forall r, r ∈ fetched ->
     offset_aware (SIPRecord.latest_success_order_date r) = false) ->
  (forall r, r ∈ fetched ->
     high_value_inactive_due min_inactive_days r = true ->
     is_Some (SIPRecord.amount r)) ->
  fetched
  = take (limit * 3)
      (sort_desc Services.success_key
         (List.filter
            (Services.high_value_inactive_query agent_id min_invested_amount)
            (sip_records db)))
  /\ (forall r,
        Services.high_value_inactive_query agent_id min_invested_amount r = true
        <-> SIPRecord.deleted r = Some "false"
            /\ (exists s, SIPRecord.success_amount r = Some s
                          /\ (min_invested_amount <= s)%Q)
            /\ is_Some (SIPRecord.latest_success_order_date r)
            /\ (truthy_str agent_id = false
                \/ (truthy_str agent_id = true
                    /\ SIPRecord.agent_id r = agent_id)))
  /\ (forall r,
        high_value_inactive_due min_inactive_days r = true
        <-> exists d,
              get_days_since_date (SIPRecord.latest_success_order_date r)
              = Ok (Some d)
              /\ (min_inactive_days <= d)%Z)
  /\ exists opportunities,
       get_high_value_inactive_clients db agent_id min_invested_amount
         min_inactive_days limit
       = Ok (take limit (sort_desc Services.invested_key opportunities))
       /\ Forall2 high_value_inactive_emitted
            (List.filter (high_value_inactive_due min_inactive_days) fetched)
            opportunities
       /\ sorted_desc Services.invested_key
            (take limit (sort_desc Services.invested_key opportunities)).
Proof.
  intros Hmin fetched Hnaive Hamount.
  split; [reflexivity|].
  split; [intros r; apply high_value_inactive_query_iff|].
  split; [intros r; by apply high_value_inactive_due_iff|].
  assert (forall r, r ∈ fetched -> is_Some (SIPRecord.success_amount r))
    as Hsuccess.
  { intros r Hr.
    apply subseteq_take, elem_of_sort_desc, elem_of_List_filter in Hr
      as [_ Hq].
    apply high_value_inactive_query_iff in Hq as (_ & (s & -> & _) & _).
    by eexists. }
  set (emit := fun r : SIPRecord.t =>
    if high_value_inactive_due min_inactive_days r then
      match SIPRecord.amount r, SIPRecord.success_amount r with
      | Some a, Some s =>
          Some (Services.high_value_inactive_opportunity r
                  (default 0%Z
                     (days_elapsed (SIPRecord.latest_success_order_date r)))
                  (a * (3 # 2))%Q s)
      | _, _ => None
      end
    else None).
  exists (omap emit fetched). split; [|split].
  - unfold Services.get_high_value_inactive_clients. fold fetched.
    rewrite (for_each_omap _ emit); [reflexivity|].
    intros r acc Hr.
    rewrite high_value_inactive_body_step by (by apply Hnaive).
    unfold emit.
    destruct (high_value_inactive_due min_inactive_days r) eqn:Hdue;
      [|by rewrite app_nil_r].
    destruct (Hamount r Hr Hdue) as [a Ha].
    destruct (Hsuccess r Hr) as [s Hs].
    by rewrite Ha, Hs.
  - apply Forall2_filter_omap. intros r Hr. unfold emit.
    destruct (high_value_inactive_due min_inactive_days r) eqn:Hdue; [|done].
    destruct (Hamount r Hr Hdue) as [a Ha].
    destruct (Hsuccess r Hr) as [s Hs].
    rewrite Ha, Hs. eexists. split; [reflexivity|].
    apply high_value_inactive_due_iff in Hdue as (d & Hd & _); [|done].
    exists a, s, d. apply days_elapsed_Some in Hd as Hd'. by rewrite Hd'.
  - apply sorted_desc_take, sort_desc_sorted.
Qed.

End HighValueInactiveFacts.

(** C5 fails as stated: with [limit = 1] the query fetches the three plans
    with the largest [success_amount]; their last success is 12 days old, so
    nothing is emitted.  The fourth plan (150000 collected, 90 days
    inactive) meets every condition of the claim and is never examined. *)
Lemma get_high_value_inactive_clients_beyond_fetch :
  Services.get_high_value_inactive_clients Demo.new_year_2026
    Demo.parse_iso_date Demo.three_busy_one_dormant None 100000 60 1
  = Ok []
  /\ Demo.dormant_plan ∈ sip_records Demo.three_busy_one_dormant
  /\ Services.spec_high_value_inactive_eligible Demo.new_year_2026
       Demo.parse_iso_date 100000 60 Demo.dormant_plan.
Proof.
  split; [vm_compute; reflexivity|].
  split; [repeat constructor|].
  split; [reflexivity|].
  split.
  - exists 150000%Q. split; [reflexivity | vm_compute; discriminate].
  - exists 90%Z. split; [vm_compute; reflexivity | lia].
Qed.

(** The table of the one dormant plan (150000 collected, 90 days inactive)
    with thresholds 100000 and 60: the plan is emitted with potential
    increase 8000 * 1.5 and risk score 3. *)
Lemma get_high_value_inactive_clients_fetched_witness :
  exists o,
    Services.get_high_value_inactive_clients Demo.new_year_2026
      Demo.parse_iso_date (Demo.only_plans [Demo.dormant_plan]) None
      100000 60 100
    = Ok [o]
    /\ Services.high_value_inactive_emitted Demo.new_year_2026
         Demo.parse_iso_date Demo.dormant_plan o
    /\ OpportunityClient.potential_increase o = Some (8000 * (3 # 2))%Q
    /\ (exists s, OpportunityClient.risk_score o = Some s /\ (s == 3)%Q).
Proof.
  assert (1 <= 60)%Z as Hmin by lia.
  destruct (get_high_value_inactive_clients_fetched Demo.new_year_2026
              Demo.parse_iso_date (Demo.only_plans [Demo.dormant_plan]) None
              100000 60 100 Hmin) as (_ & _ & _ & opps & Hget & Hall & _).
  { intros r Hr. vm_compute in Hr.
    by apply list_elem_of_singleton in Hr as ->. }
  { intros r Hr _. vm_compute in Hr.
    apply list_elem_of_singleton in Hr as ->. by eexists. }
  change (List.filter _ _) with [Demo.dormant_plan] in Hall.
  apply Forall2_cons_inv_l in Hall as (o & rest & Ho & Hrest & ->).
  apply Forall2_nil_inv_l in Hrest as ->.
  exists o. split; [exact Hget|]. split; [exact Ho|].
  destruct Ho as (a & s & d & Ha & Hs & Hd & Hpot & Hrisk & _).
  injection Ha as <-. vm_compute in Hd. injection Hd as <-.
  split; [exact Hpot|]. eexists. split; [exact Hrisk|].
  vm_compute. reflexivity.
Defined.

(** A plan whose last success is written with a UTC designator: the text
    parses to an offset-aware datetime, and the two rules that fetch the plan
    raise [TypeError] from the subtraction in [get_days_since_date]. *)
Lemma get_days_since_date_offset_aware_plan :
  Services.get_failed_sip_clients Demo.new_year_2026 Demo.parse_iso_date
    (Demo.only_plans [Demo.zoned_plan]) None 5000 100
  = Raise Services.aware_error
  /\ Services.get_high_value_inactive_clients Demo.new_year_2026
       Demo.parse_iso_date (Demo.only_plans [Demo.zoned_plan]) None 1000 60
       100
     = Raise Services.aware_error
  /\ exc_class Services.aware_error = "TypeError".
Proof. repeat split; vm_compute; reflexivity. Qed.

Section CombinedViewFacts.

Variable now : Z.
Variable date_parser_parse : string -> option datetime.

Local Abbreviation get_no_sip_increase_clients :=
  (Services.get_no_sip_increase_clients now date_parser_parse).
Local Abbreviation get_failed_sip_clients :=
  (Services.get_failed_sip_clients now date_parser_parse).
Local Abbreviation get_high_value_inactive_clients :=
  (Services.get_high_value_inactive_clients now date_parser_parse).
Local Abbreviation get_all_opportunities :=
  (Services.get_all_opportunities now date_parser_parse).

(** The combined view runs the three rules at their default thresholds with
    [limit // 3] each, and raises when one of them raises; otherwise it
    concatenates their results, sorts by the composite key and cuts at
    [limit]. *)
Lemma get_all_opportunities_combines (db : Session) (agent_id : option string)
    (limit : nat) :
  get_all_opportunities db agent_id limit
  = (no_increase ← get_no_sip_increase_clients db agent_id 12 (limit / 3);
     failed ← get_failed_sip_clients db agent_id 5000 (limit / 3);
     inactive ←
       get_high_value_inactive_clients db agent_id 100000 60 (limit / 3);
     mret (take limit
             (sort_desc Services.combined_key
                (no_increase ++ failed ++ inactive))))
  /\ (forall no_increase failed inactive,
        get_no_sip_increase_clients db agent_id 12 (limit / 3) = Ok no_increase ->
        get_failed_sip_clients db agent_id 5000 (limit / 3) = Ok failed ->
        get_high_value_inactive_clients db agent_id 100000 60 (limit / 3)
        = Ok inactive ->
        get_all_opportunities db agent_id limit
        = Ok (take limit
                (sort_desc Services.combined_key
                   (no_increase ++ failed ++ inactive)))
        /\ sorted_desc Services.combined_key
             (take limit
                (sort_desc Services.combined_key
                   (no_increase ++ failed ++ inactive)))).
Proof.
  split; [reflexivity|].
  intros a b c Ha Hb Hc. unfold Services.get_all_opportunities.
  rewrite Ha, Hb, Hc. split; [reflexivity|].
  apply sorted_desc_take, sort_desc_sorted.
Qed.

(** With [limit < 3] each rule runs with limit 0.  The two rules that cut at
    the query fetch nothing and return the empty list; the no-increase rule
    still runs its loop over every selected plan. *)
Lemma get_all_opportunities_small_limit (db : Session)
    (agent_id : option string) (limit : nat) :
  limit < 3 ->
  get_failed_sip_clients db agent_id 5000 (limit / 3) = Ok []
  /\ get_high_value_inactive_clients db agent_id 100000 60 (limit / 3) = Ok []
  /\ (returns (get_no_sip_increase_clients db agent_id 12 (limit / 3)) ->
      get_all_opportunities db agent_id limit = Ok [])
  /\ (forall e,
        get_no_sip_increase_clients db agent_id 12 (limit / 3) = Raise e ->
        get_all_opportunities db agent_id limit = Raise e).
Proof.
  intros Hlimit. rewrite (Nat.div_small limit 3) by done.
  split; [reflexivity|]. split; [reflexivity|].
  unfold Services.get_all_opportunities.
  rewrite (Nat.div_small limit 3) by done.
  split.
  - intros [opps Hopps].
    assert (opps = []) as ->.
    { unfold Services.get_no_sip_increase_clients in Hopps.
      destruct (for_each _ _ _); simpl in Hopps; [|done].
      by injection Hopps as <-. }
    rewrite Hopps. simpl. by destruct limit.
  - intros e ->. reflexivity.
Qed.

End CombinedViewFacts.

(** C6.  With [limit = 2] on the table holding the one plan with a NULL
    amount, the no-increase rule (run with limit 0) raises [TypeError] in its
    loop and so does the combined view, where the claim has the empty list.
    With the amount in place the combined view returns the empty list. *)
Theorem get_all_opportunities_null_amount :
  Services.get_all_opportunities Demo.new_year_2026 Demo.parse_iso_date
    (Demo.only_plans [Demo.stagnant_plan_without_amount]) None 2
  = Raise (unsupported "*")
  /\ Services.get_all_opportunities Demo.new_year_2026 Demo.parse_iso_date
       (Demo.only_plans [Demo.stagnant_plan]) None 2
     = Ok [].
Proof. split; vm_compute; reflexivity. Qed.

(** ** app/services.py: the insurance detectors *)



Lemma insured_clients_iff (db : Session) (u : option string) :
  u ∈ Services.insured_clients db
  <-> exists p, p ∈ insurance_records db
                /\ InsuranceRecord.deleted p = Some "false"
                /\ InsuranceRecord.user_id p = u.
Proof.
  unfold Services.insured_clients.
  rewrite elem_of_list_to_set, list_elem_of_fmap.
  split.
  - intros (p & -> & Hp). apply elem_of_List_filter in Hp as [Hp Hd].
    apply sql_eq_iff in Hd. by exists p.
  - intros (p & Hp & Hd & <-). exists p. split; [done|].
    apply elem_of_List_filter. split; [done|]. by apply sql_eq_iff.
Qed.





(** C10.  U12 holds two plans that are not soft-deleted: 500000 with advisor
    A2, stored first, and 2,000,000 with advisor A1.  With the advisor
    filter "A1" and [min_mf_value] 1,000,000 the grouped query keeps U12 on
    the strength of the A1 plan; the detail query is not filtered by advisor
    and returns the A2 plan, so the opportunity carries [agent_id = "A2"]. *)
Theorem get_no_insurance_clients_other_advisor :
  exists o,
    Services.get_no_insurance_clients Demo.two_advisors (Some "A1") 1000000 100
    = Ok [o]
    /\ InsuranceOpportunity.user_id o = Some "U12"
    /\ InsuranceOpportunity.agent_id o = "A2"
    /\ InsuranceOpportunity.agent_id o <> "A1".
Proof.
  eexists. split; [vm_compute; reflexivity|].
  repeat split. discriminate.
Qed.

Lemma dict_mem_iff (k : option string) (d : Services.client_dict) :
  Services.dict_mem k d = true <-> k ∈ d.*1.
Proof.
  induction d as [|[k' v] d IH]; simpl.
  - rewrite elem_of_nil. done.
  - rewrite elem_of_cons. destruct (decide (k = k')) as [->|Hne].
    + split; [by left | done].
    + rewrite IH. split; [by right | by intros [?|?]].
Qed.

Lemma dict_alter_keys (f : Services.client_data -> Services.client_data)
    (k : option string) (d : Services.client_dict) :
  (Services.dict_alter f k d).*1 = d.*1.
Proof.
  induction d as [|[k' v] d IH]; [done|].
  cbn [Services.dict_alter].
  destruct (decide (k = k')); rewrite !fmap_cons; simpl; [done | by rewrite IH].
Qed.

Lemma dict_alter_alter (f g : Services.client_data -> Services.client_data)
    (k : option string) (d : Services.client_dict) :
  Services.dict_alter g k (Services.dict_alter f k d)
  = Services.dict_alter (fun v => g (f v)) k d.
Proof.
  induction d as [|[k' v] d IH]; simpl; [done|].
  destruct (decide (k = k')) as [->|Hne]; simpl.
  - by rewrite decide_True.
  - by rewrite decide_False, IH.
Qed.

Lemma elem_of_dict_alter (f : Services.client_data -> Services.client_data)
    (k : option string) (d : Services.client_dict) (k' : option string)
    (v' : Services.client_data) :
  NoDup d.*1 ->
  (k', v') ∈ Services.dict_alter f k d ->
  (k' <> k /\ (k', v') ∈ d) \/ (k' = k /\ exists v, (k, v) ∈ d /\ v' = f v).
Proof.
  induction d as [|[k0 v0] d IH]; simpl; [by rewrite elem_of_nil|].
  rewrite NoDup_cons. intros [Hk0 Hd].
  destruct (decide (k = k0)) as [->|Hne].
  - rewrite elem_of_cons. intros [[= -> ->]|Hin].
    + right. split; [done|]. exists v0. split; [by left | done].
    + left. split; [|by right].
      intros ->. apply Hk0. apply list_elem_of_fmap. by exists (k0, v').
  - rewrite elem_of_cons. intros [[= -> ->]|Hin].
    + left. split; [done | by left].
    + destruct (IH Hd Hin) as [[? ?]|(-> & v & Hv & ->)].
      * left. split; [done | by right].
      * right. split; [done|]. exists v. split; [by right | done].
Qed.

Lemma client_records_snoc (records : list InsuranceRecord.t)
    (r : InsuranceRecord.t) (u : option string) :
  Services.client_records (records ++ [r]) u
  = Services.client_records records u
    ++ (if decide (InsuranceRecord.user_id r = u) then [r] else []).
Proof.
  unfold Services.client_records. rewrite List.filter_app. simpl.
  by destruct (decide (InsuranceRecord.user_id r = u));
    [rewrite bool_decide_eq_true_2 | rewrite bool_decide_eq_false_2].
Qed.

Lemma client_records_nil (records : list InsuranceRecord.t)
    (u : option string) :
  u ∉ InsuranceRecord.user_id <$> records ->
  Services.client_records records u = [].
Proof.
  intros Hu. unfold Services.client_records.
  induction records as [|r records IH]; simpl; [done|].
  rewrite fmap_cons, not_elem_of_cons in Hu. destruct Hu as [Hne Hu].
  rewrite bool_decide_eq_false_2 by done. by apply IH.
Qed.

Lemma elem_of_client_records (records : list InsuranceRecord.t)
    (u : option string) (r : InsuranceRecord.t) :
  r ∈ Services.client_records records u
  <-> r ∈ records /\ InsuranceRecord.user_id r = u.
Proof.
  unfold Services.client_records.
  by rewrite elem_of_List_filter, bool_decide_eq_true.
Qed.

(** One iteration of the grouping loop keeps the dict a grouping of the rows
    seen so far. *)
Lemma group_body_groups (records : list InsuranceRecord.t)
    (d : Services.client_dict) (r : InsuranceRecord.t) :
  Services.groups records d ->
  Services.groups (records ++ [r]) (Services.group_body d r).
Proof.
  intros (Hnodup & Hkeys & Hdata).
  unfold Services.group_body. rewrite dict_alter_alter.
  set (u0 := InsuranceRecord.user_id r).
  set (d1 := if Services.dict_mem u0 d then d
             else d ++ [(u0, Services.mkData r ∅ 0%Q)]).
  assert (NoDup d1.*1) as Hnodup1.
  { unfold d1. destruct (Services.dict_mem u0 d) eqn:Hmem; [done|].
    rewrite fmap_app. apply NoDup_app. split; [done|].
    split; [|apply NoDup_singleton].
    intros u Hu. simpl. rewrite list_elem_of_singleton. intros ->.
    apply dict_mem_iff in Hu. congruence. }
  assert (forall u, u ∈ d1.*1 <-> u ∈ d.*1 \/ u = u0) as Hkeys1.
  { intros u. unfold d1. destruct (Services.dict_mem u0 d) eqn:Hmem.
    - apply dict_mem_iff in Hmem. split; [by left | by intros [?| ->]].
    - rewrite fmap_app, elem_of_app. simpl.
      by rewrite list_elem_of_singleton. }
  unfold Services.groups. fold u0. fold d1.
  split; [by rewrite dict_alter_keys|]. split.
  - intros u. rewrite dict_alter_keys, Hkeys1, Hkeys.
    rewrite fmap_app, elem_of_app. simpl.
    by rewrite list_elem_of_singleton.
  - intros u data' Hin.
    apply elem_of_dict_alter in Hin
      as [[Hne Hin]|(-> & data & Hin & ->)]; [| |done].
    + assert ((u, data') ∈ d) as Hind.
      { unfold d1 in Hin. destruct (Services.dict_mem u0 d); [done|].
        apply elem_of_app in Hin as [?|Hin]; [done|].
        apply list_elem_of_singleton in Hin. by injection Hin as -> _. }
      rewrite client_records_snoc, decide_False, app_nil_r by done.
      by apply Hdata.
    + rewrite client_records_snoc, decide_True by done. simpl.
      unfold d1 in Hin. destruct (Services.dict_mem u0 d) eqn:Hmem.
      * destruct (Hdata _ _ Hin) as (Hhead & Htypes & Htotal).
        rewrite Htypes, Htotal, fmap_app, fold_left_app. simpl.
        split; [|split; [|done]].
        -- destruct (Services.client_records records u0); [done|done].
        -- rewrite list_to_set_app_L. simpl.
           by rewrite union_empty_r_L, (comm_L (∪)).
      * assert (u0 ∉ d.*1) as Hfresh.
        { rewrite <- dict_mem_iff. congruence. }
        apply elem_of_app in Hin as [Hin|Hin].
        { exfalso. apply Hfresh. apply list_elem_of_fmap. by exists (u0, data). }
        apply list_elem_of_singleton in Hin. injection Hin as ->.
        rewrite client_records_nil by by rewrite <- Hkeys.
        simpl. split; [done|]. split; [|done].
        by rewrite (comm_L (∪)).
Qed.

Lemma fold_group_body_groups (records : list InsuranceRecord.t) :
  Services.groups records (fold_left Services.group_body records []).
Proof.
  induction records as [|r records IH] using rev_ind.
  - split; [constructor|]. split; [done|].
    intros u data Hin. by apply elem_of_nil in Hin.
  - rewrite fold_left_app. simpl. by apply group_body_groups.
Qed.

Lemma sorted_desc_List_filter {A} (key : A -> Q) (P : A -> bool) (l : list A) :
  sorted_desc key l -> sorted_desc key (List.filter P l).
Proof.
  unfold sorted_desc. induction 1 as [|x l Hl IH Hx]; simpl; [constructor|].
  destruct (P x); [|exact IH]. constructor; [exact IH|].
  rewrite Forall_forall in *. intros y Hy.
  apply elem_of_List_filter in Hy as [Hy _]. by apply Hx.
Qed.

(** The rows the query selects. *)
Lemma insurance_gap_query_iff (agent_id : option string) (min_premium_gap : Q)
    (min_opportunity_score : Z) (r : InsuranceRecord.t) :
  Services.insurance_gap_query agent_id min_premium_gap min_opportunity_score r
  = true
  <-> InsuranceRecord.deleted r = Some "false"
      /\ (exists g, InsuranceRecord.premium_gap r = Some g
                    /\ (min_premium_gap <= g)%Q)
      /\ (exists n, InsuranceRecord.opportunity_score r = Some n
                    /\ (min_opportunity_score <= n)%Z)
      /\ (truthy_str agent_id = false
          \/ (truthy_str agent_id = true
              /\ InsuranceRecord.agent_id r = agent_id)).
Proof.
  unfold Services.insurance_gap_query.
  rewrite !andb_true_iff, sql_eq_iff, sql_ge_Some, sql_ge_int_Some,
    optional_filter_iff.
  tauto.
Qed.

(** C8, as the source has it.  The query fetches the first [2 * limit]
    rows, in descending order of [opportunity_score], among the policies that
    are not soft-deleted, have [premium_gap >= min_premium_gap] and
    [opportunity_score >= min_opportunity_score] and pass the advisor filter.
    The call always returns.  It builds exactly one opportunity per client id
    among the fetched rows; its missing coverage types are the four types
    minus the insurance types of the client's fetched rows, its total premium
    is the sum of their premiums, and its name, premium gap, baseline
    expected premium and opportunity score are those of the client's first
    fetched row, which has the highest score among them.  The result is
    sorted descending by opportunity score and cut at [limit].  Rows of a
    client beyond the first [2 * limit] are not taken into account. *)
Theorem get_insurance_gap_opportunities_fetched (db : Session)
    (agent_id : option string) (min_premium_gap : Q)
    (min_opportunity_score : Z) (limit : nat) :
  let fetched :=
    Services.insurance_gap_records db agent_id min_premium_gap
      min_opportunity_score limit in
  fetched
  = take (limit * 2)
      (sort_desc Services.record_score
         (List.filter
            (Services.insurance_gap_query agent_id min_premium_gap
               min_opportunity_score)
            (insurance_records db)))
  /\ (forall r,
        Services.insurance_gap_query agent_id min_premium_gap
          min_opportunity_score r = true
        <-> InsuranceRecord.deleted r = Some "false"
            /\ (exists g, InsuranceRecord.premium_gap r = Some g
                          /\ (min_premium_gap <= g)%Q)
            /\ (exists n, InsuranceRecord.opportunity_score r = Some n
                          /\ (min_opportunity_score <= n)%Z)
            /\ (truthy_str agent_id = false
                \/ (truthy_str agent_id = true
                    /\ InsuranceRecord.agent_id r = agent_id)))
  /\ (exists opportunities,
        Services.get_insurance_gap_opportunities db agent_id min_premium_gap
          min_opportunity_score limit
        = Ok (take limit (sort_desc Services.score_key opportunities))
        /\ NoDup (InsuranceOpportunity.user_id <$> opportunities)
        /\ (forall u,
              u ∈ InsuranceOpportunity.user_id <$> opportunities
              <-> u ∈ InsuranceRecord.user_id <$> fetched)
        /\ (forall o, o ∈ opportunities ->
              Services.summarises
                (Services.client_records fetched (InsuranceOpportunity.user_id o))
                o)
        /\ sorted_desc Services.score_key
             (take limit (sort_desc Services.score_key opportunities)))
  /\ exists o,
       Services.get_insurance_gap_opportunities Demo.three_policies None
         10000 0 100 = Ok [o]
       /\ InsuranceOpportunity.missing_coverage_types o = {[ "Traditional" ]}
       /\ (InsuranceOpportunity.total_premium o == 37000)%Q
       /\ InsuranceOpportunity.opportunity_score o = 90%Z.
Proof.
  intros fetched.
  split; [reflexivity|].
  split; [intros r; apply insurance_gap_query_iff|].
  split.
  2:{ eexists. split; [vm_compute; reflexivity|].
      split; [|split; [vm_compute; reflexivity | reflexivity]].
      apply set_eq. intros x. vm_compute. tauto. }
  pose proof (fold_group_body_groups fetched) as (Hnodup & Hkeys & Hdata).
  set (d := fold_left Services.group_body fetched []) in *.
  assert (sorted_desc Services.record_score fetched) as Hsorted.
  { apply sorted_desc_take, sort_desc_sorted. }
  assert (forall r, r ∈ fetched ->
            exists g, InsuranceRecord.premium_gap r = Some g) as Hgap.
  { intros r Hr.
    apply subseteq_take, elem_of_sort_desc, elem_of_List_filter in Hr
      as [_ Hq].
    apply insurance_gap_query_iff in Hq as (_ & (g & Hg & _) & _).
    by exists g. }
  assert (forall u data, (u, data) ∈ d ->
            Services.data_record data ∈ fetched) as Hrecord.
  { intros u data Hin. destruct (Hdata u data Hin) as (Hhead & _).
    apply head_Some_elem_of, elem_of_client_records in Hhead. tauto. }
  set (mk := fun item : option string * Services.client_data =>
    Services.insurance_gap_opportunity item.1 item.2
      (or_zero (InsuranceRecord.premium_gap (Services.data_record item.2)))).
  exists (mk <$> d).
  split; [|split; [|split; [|split]]].
  - unfold Services.get_insurance_gap_opportunities. fold fetched. fold d.
    rewrite (for_each_omap _ (fun item => Some (mk item))).
    + rewrite (omap_total _ mk) by done. reflexivity.
    + intros [u data] acc Hin. unfold Services.insurance_gap_body, mk. simpl.
      destruct (Hgap _ (Hrecord u data Hin)) as [g ->]. reflexivity.
  - rewrite <- list_fmap_compose. exact Hnodup.
  - intros u. rewrite <- list_fmap_compose. apply Hkeys.
  - intros o Ho. apply list_elem_of_fmap in Ho as ([u data] & -> & Hin).
    destruct (Hdata u data Hin) as (Hhead & Htypes & Htotal). simpl.
    apply head_Some in Hhead as [rest Hrecs].
    exists (Services.data_record data), rest.
    split; [exact Hrecs|]. split.
    + intros r Hr. rewrite Hrecs in Hr.
      eapply (sorted_desc_head Services.record_score); [|exact Hr].
      rewrite <- Hrecs. by apply sorted_desc_List_filter.
    + unfold Services.insurance_gap_opportunity. simpl.
      rewrite Htypes, Htotal. by repeat split.
  - apply sorted_desc_take, sort_desc_sorted.
Qed.

(** C8 fails as stated: with [limit = 1] the query fetches the two
    highest-scored of the three matching policies of U20 (Health and Term).
    The opportunity lists ULIP and Traditional as missing and a total
    premium of 22000, where the claim has Traditional alone and 37000. *)
Lemma get_insurance_gap_opportunities_beyond_fetch :
  exists o,
    Services.get_insurance_gap_opportunities Demo.three_policies None 10000 0 1
    = Ok [o]
    /\ InsuranceOpportunity.user_id o = Some "U20"
    /\ length (Services.spec_matching_records Demo.three_policies None 10000 0
                 (Some "U20")) = 3
    /\ InsuranceOpportunity.missing_coverage_types o
       = {[ "ULIP"; "Traditional" ]}
    /\ Services.spec_missing_types
         (Services.spec_matching_records Demo.three_policies None 10000 0
            (Some "U20"))
       = {[ "Traditional" ]}
    /\ InsuranceOpportunity.missing_coverage_types o
       <> Services.spec_missing_types
            (Services.spec_matching_records Demo.three_policies None 10000 0
               (Some "U20"))
    /\ (InsuranceOpportunity.total_premium o == 22000)%Q
    /\ (Services.spec_total_premium
          (Services.spec_matching_records Demo.three_policies None 10000 0
             (Some "U20")) == 37000)%Q.
Proof.
  eexists. split; [vm_compute; reflexivity|].
  split; [reflexivity|]. split; [reflexivity|].
  assert (forall X Y : gset string,
            (forall x, x ∈ elements X <-> x ∈ elements Y) -> X = Y) as Hext.
  { intros X Y H. apply set_eq. intros x. by rewrite <- !elem_of_elements. }
  split; [apply Hext; intros x; vm_compute; tauto|].
  split; [apply Hext; intros x; vm_compute; tauto|].
  split.
  - intros Heq.
    assert ("ULIP" ∈ Services.spec_missing_types
              (Services.spec_matching_records Demo.three_policies None 10000 0
                 (Some "U20"))) as Hin.
    { rewrite <- Heq. apply elem_of_elements. vm_compute. set_solver. }
    apply elem_of_elements in Hin. vm_compute in Hin. set_solver.
  - split; vm_compute; reflexivity.
Qed.

(** ** app/services.py: the low-rating detector *)

Lemma omap_guard {A} (P : A -> bool) (l : list A) :
  omap (fun x => if P x then Some x else None) l = List.filter P l.
Proof.
  induction l as [|x l IH]; simpl; [done|].
  destruct (P x); simpl; [f_equal|]; exact IH.
Qed.

Section LowRatedFacts.

Variable float_of_str : string -> option pyfloat.

Local Abbreviation rating_below := (Services.rating_below float_of_str).
Local Abbreviation low_rated_body := (Services.low_rated_body float_of_str).
Local Abbreviation get_low_rated_funds :=
  (Services.get_low_rated_funds float_of_str).

(** One iteration of the filtering loop never raises: a rating text that
    does not parse, or a NULL rating, skips the holding. *)
Lemma low_rated_body_step (max_rating : Q) (h : PortfolioHolding.t)
    (low_rated : list PortfolioHolding.t) :
  low_rated_body max_rating h low_rated
  = Ok (low_rated ++ if rating_below max_rating h then [h] else []).
Proof.
  unfold Services.low_rated_body, Services.rating_below, Services.py_float.
  destruct (PortfolioHolding.w_rating h) as [s|]; simpl;
    [|by rewrite app_nil_r].
  destruct (float_of_str s) as [f|]; simpl; [|by rewrite app_nil_r].
  destruct (pyfloat_ltb f max_rating); simpl; [done | by rewrite app_nil_r].
Qed.

Lemma low_rated_query_iff (user_id : option string) (min_current_value : Q)
    (h : PortfolioHolding.t) :
  Services.low_rated_query user_id min_current_value h = true
  <-> is_Some (PortfolioHolding.w_rating h)
      /\ (exists v, PortfolioHolding.current_value h = Some v
                    /\ (min_current_value <= v)%Q)
      /\ (truthy_str user_id = false
          \/ (truthy_str user_id = true
              /\ PortfolioHolding.user_id h = user_id)).
Proof.
  unfold Services.low_rated_query.
  rewrite !andb_true_iff, isnot_None_iff, sql_ge_Some, optional_filter_iff.
  tauto.
Qed.

Lemma rating_below_iff (max_rating : Q) (h : PortfolioHolding.t) :
  rating_below max_rating h = true
  <-> exists rating_text rating,
        PortfolioHolding.w_rating h = Some rating_text
        /\ float_of_str rating_text = Some rating
        /\ pyfloat_ltb rating max_rating = true.
Proof.
  unfold Services.rating_below.
  destruct (PortfolioHolding.w_rating h) as [s|];
    [|split; [done | by intros (? & ? & [=] & _)]].
  destruct (float_of_str s) as [f|] eqn:Hf.
  - split; [by exists s, f|]. intros (s' & f' & [= <-] & Hf' & Hlt).
    rewrite Hf in Hf'. by injection Hf' as <-.
  - split; [done|]. intros (s' & f' & [= <-] & Hf' & _). congruence.
Qed.

(** C9.  [get_low_rated_funds] always returns.  The opportunities are built,
    one each, from the holdings that have a non-null rating text,
    [current_value >= min_current_value], pass the client filter, and whose
    rating text parses as a number strictly below [max_rating]; they are
    taken in descending order of [current_value] and cut at [limit].  A
    holding whose rating text does not parse is left out, and neither it nor
    any other holding makes the call raise. *)
Theorem get_low_rated_funds_spec (db : Session) (user_id : option string)
    (max_rating min_current_value : Q) (limit : nat) :
  let selected :=
    List.filter
      (fun h => Services.low_rated_query user_id min_current_value h
                && rating_below max_rating h)
      (portfolio_holdings db) in
  get_low_rated_funds db user_id max_rating min_current_value limit
  = Ok (Services.low_rated_opportunity
          <$> take limit (sort_desc Services.current_value_key selected))
  /\ (forall h,
        h ∈ selected
        <-> h ∈ portfolio_holdings db
            /\ (exists rating_text rating,
                  PortfolioHolding.w_rating h = Some rating_text
                  /\ float_of_str rating_text = Some rating
                  /\ pyfloat_ltb rating max_rating = true)
            /\ (exists v, PortfolioHolding.current_value h = Some v
                          /\ (min_current_value <= v)%Q)
            /\ (truthy_str user_id = false
                \/ (truthy_str user_id = true
                    /\ PortfolioHolding.user_id h = user_id)))
  /\ (forall h rating_text,
        PortfolioHolding.w_rating h = Some rating_text ->
        float_of_str rating_text = None ->
        h ∉ selected)
  /\ (forall q, pyfloat_ltb (Finite q) max_rating = true <-> (q < max_rating)%Q)
  /\ pyfloat_ltb NaN max_rating = false
  /\ sorted_desc Services.current_value_key
       (take limit (sort_desc Services.current_value_key selected)).
Proof.
  intros selected.
  assert (forall h, h ∈ selected
            <-> h ∈ portfolio_holdings db
                /\ Services.low_rated_query user_id min_current_value h = true
                /\ rating_below max_rating h = true) as Hsel.
  { intros h. unfold selected.
    rewrite elem_of_List_filter, andb_true_iff. tauto. }
  split; [|split; [|split; [|split; [|split]]]].
  - unfold Services.get_low_rated_funds.
    rewrite (for_each_omap _
               (fun h => if rating_below max_rating h then Some h else None)).
    + rewrite omap_guard, List_filter_filter. simpl. fold selected.
      rewrite (for_each_omap _
                 (fun h => Some (Services.low_rated_opportunity h))); [|done].
      by rewrite (omap_total _ Services.low_rated_opportunity).
    + intros h acc _. rewrite low_rated_body_step.
      by destruct (rating_below max_rating h).
  - intros h. rewrite Hsel, low_rated_query_iff, rating_below_iff.
    split.
    + intros (Hin & (_ & Hv & Hu) & Hr). done.
    + intros (Hin & Hr & Hv & Hu). split; [done|]. split; [|done].
      split; [|done]. destruct Hr as (s & _ & -> & _). by eexists.
  - intros h s Hs Hf Hin. apply Hsel in Hin as (_ & _ & Hr).
    apply rating_below_iff in Hr as (s' & f & Hs' & Hf' & _).
    congruence.
  - intros q. apply Qltb_lt.
  - reflexivity.
  - apply sorted_desc_take, sort_desc_sorted.
Qed.

End LowRatedFacts.

(** Six holdings rated 2.5, "N/A", 4, "nan", 1 and NULL, with
    [max_rating = 3]: the call returns the holdings rated 1 and 2.5, the
    larger one first; the four others are left out without an error. *)
Lemma get_low_rated_funds_mixed_ratings :
  exists opportunities,
    Services.get_low_rated_funds Demo.parse_decimal Demo.mixed_ratings None
      3 0 100 = Ok opportunities
    /\ PortfolioOpportunity.scheme_name <$> opportunities
       = [Some "Epsilon Small Cap"; Some "Alpha Growth"]
    /\ PortfolioOpportunity.w_rating <$> opportunities
       = [Some "1"; Some "2.5"].
Proof. eexists. split; [vm_compute; reflexivity|]. split; reflexivity. Qed.

(** * Further properties of the detectors *)

(** ** Loops *)

(** When a loop returns, what it appended was appended by its body, one
    element at a time and in order. *)
Lemma for_each_emitted {A B} (body : A -> list B -> result (list B))
    (R : A -> B -> Prop) (xs : list A) (acc res : list B) :
  (forall x acc0 acc1, x ∈ xs -> body x acc0 = Ok acc1 ->
     acc1 = acc0 \/ exists y, acc1 = acc0 ++ [y] /\ R x y) ->
  for_each body xs acc = Ok res ->
  exists ys, res = acc ++ ys /\ Forall (fun y => exists x, x ∈ xs /\ R x y) ys.
Proof.
  revert acc. induction xs as [|x xs IH]; intros acc Hbody; simpl.
  - intros [= <-]. exists []. by rewrite app_nil_r.
  - destruct (body x acc) as [acc1|e] eqn:Hx; simpl; [|done].
    intros Hrest.
    destruct (IH acc1) as (ys & -> & Hys); [|exact Hrest|].
    { intros y a0 a1 Hy. apply Hbody. by right. }
    assert (Forall (fun y => exists x0, x0 ∈ x :: xs /\ R x0 y) ys) as Hys'.
    { eapply Forall_impl; [exact Hys|]. intros y (x0 & Hx0 & Hy).
      exists x0. split; [by right | done]. }
    destruct (Hbody x acc acc1 (list_elem_of_here x xs) Hx)
      as [->|(y & -> & Hy)].
    + by exists ys.
    + exists (y :: ys). rewrite <- app_assoc. split; [done|].
      constructor; [|exact Hys']. exists x. split; [by left | done].
Qed.

(** A loop returns exactly when its body returns on every element, for a
    body whose outcome does not depend on the list built so far. *)
Lemma for_each_returns_iff {A S} (body : A -> S -> result S)
    (ok : A -> Prop) (xs : list A) (acc : S) :
  (forall x acc0, x ∈ xs -> returns (body x acc0) <-> ok x) ->
  returns (for_each body xs acc) <-> Forall ok xs.
Proof.
  revert acc. induction xs as [|x xs IH]; intros acc Hbody; simpl.
  - split; [constructor | by eexists].
  - rewrite Forall_cons, <- (Hbody x acc) by left.
    destruct (body x acc) as [acc1|e]; simpl.
    + rewrite (IH acc1); [|intros y a Hy; apply Hbody; by right].
      split; [intros H; split; [by eexists | done] | by intros [_ ?]].
    + split; [by intros [? [=]] | by intros [[? [=]] _]].
Qed.

(** ** Dates *)

Section DateFacts.

Variable now : Z.
Variable date_parser_parse : string -> option datetime.

Local Abbreviation get_days_since_date :=
  (Services.get_days_since_date now date_parser_parse).
Local Abbreviation get_months_since_date :=
  (Services.get_months_since_date now date_parser_parse).

(** X1.  [get_months_since_date] has three outcomes.  It returns [None]
    exactly for a NULL, an empty or an unparseable date text.  It raises
    exactly for a text that parses to an offset-aware datetime, and what it
    raises is the [TypeError] of the subtraction from the naive
    [datetime.now()], which is outside the [try] of [parse_date_safe].  For
    a text that parses to a naive datetime it returns the elapsed days
    divided by 30, rounded down -- also for a date in the future, whose
    months are negative -- so that a threshold of [k] months is a threshold
    of [30 * k] elapsed days. *)
Theorem get_months_since_date_threshold (date_string : option string) :
  (get_months_since_date date_string = Ok None
   <-> date_string = None \/ date_string = Some ""
       \/ exists text, date_string = Some text
                       /\ date_parser_parse text = None)
  /\ (forall e,
        get_months_since_date date_string = Raise e
        <-> e = Services.aware_error
            /\ exists text instant,
                 date_string = Some text /\ text <> ""
                 /\ date_parser_parse text = Some (Aware instant))
  /\ exc_class Services.aware_error = "TypeError"
  /\ forall months,
       get_months_since_date date_string = Ok (Some months) ->
       exists text instant days,
         date_string = Some text /\ text <> ""
         /\ date_parser_parse text = Some (Naive instant)
         /\ get_days_since_date date_string = Ok (Some days)
         /\ days = ((now - instant) / Services.microseconds_per_day)%Z
         /\ (30 * months <= days < 30 * months + 30)%Z
         /\ (days < 0 -> months < 0)%Z
         /\ forall k, (k <= months <-> 30 * k <= days)%Z.
Proof.
  unfold Services.get_months_since_date, Services.get_days_since_date,
    Services.parse_date_safe.
  split; [|split; [|split; [reflexivity|]]].
  - destruct date_string as [text|]; [|by split; [left|]].
    destruct (String.eqb_spec text "") as [->|Hne].
    + split; [by right; left | done].
    + destruct (date_parser_parse text) as [[t|t]|] eqn:Hd; simpl.
      * split; [done|].
        intros [[=]|[[= ->]|(t' & [= <-] & Ht)]]; congruence.
      * split; [done|].
        intros [[=]|[[= ->]|(t' & [= <-] & Ht)]]; congruence.
      * split; [|done]. intros _. right. right. by exists text.
  - intros e. destruct date_string as [text|]; simpl;
      [|split; [done | by intros (_ & ? & ? & [=] & _)]].
    destruct (String.eqb_spec text "") as [->|Hne]; simpl.
    + split; [done | by intros (_ & ? & ? & [= <-] & ? & _)].
    + destruct (date_parser_parse text) as [[t|t]|] eqn:Hd; simpl.
      * split; [done|]. intros (_ & t1 & i & [= <-] & _ & Hp). congruence.
      * split.
        -- intros [= <-]. split; [done|]. by exists text, t.
        -- by intros [-> _].
      * split; [done|]. intros (_ & t1 & i & [= <-] & _ & Hp). congruence.
  - intros months Hm.
    destruct date_string as [text|]; simpl in Hm; [|done].
    destruct (String.eqb_spec text "") as [->|Hne]; simpl in Hm; [done|].
    destruct (date_parser_parse text) as [[t|t]|] eqn:Hd; simpl in Hm;
      [|done|done].
    injection Hm as <-. exists text, t. eexists.
    split; [done|]. split; [done|]. split; [done|].
    destruct (String.eqb_spec text "") as [->|_]; [done|].
    simpl. split; [reflexivity|]. split; [reflexivity|].
    set (days := ((now - t) / Services.microseconds_per_day)%Z).
    pose proof (Z.div_mod days 30 ltac:(lia)) as Hdiv.
    pose proof (Z.mod_pos_bound days 30 ltac:(lia)) as Hmod.
    split; [lia|]. split; [lia|]. intros k. lia.
Qed.

End DateFacts.

(** On 2026-01-01 a date 390 days back is 13 months old, a date one day
    ahead is -1 months old, and a date written with a UTC designator makes
    the call raise. *)
Lemma get_months_since_date_threshold_witness :
  (exists days,
     Services.get_days_since_date Demo.new_year_2026 Demo.parse_iso_date
       (Some "2024-12-07") = Ok (Some days)
     /\ (30 * 13 <= days < 30 * 13 + 30)%Z)
  /\ Services.get_months_since_date Demo.new_year_2026 Demo.parse_iso_date
       (Some "2026-01-02") = Ok (Some (-1)%Z)
  /\ Services.get_months_since_date Demo.new_year_2026 Demo.parse_iso_date
       (Some "2024-12-07T00:00:00Z") = Raise Services.aware_error.
Proof.
  split; [|split; vm_compute; reflexivity].
  destruct (proj2 (proj2 (proj2
              (get_months_since_date_threshold Demo.new_year_2026
                 Demo.parse_iso_date (Some "2024-12-07")))) 13%Z)
    as (text & instant & days & _ & _ & _ & Hdays & _ & Hrange & _);
    [vm_compute; reflexivity|].
  by exists days.
Defined.

(** ** The SIP detectors: what a returned list holds *)

Lemma py_min_range (x : Q) : (0 <= x)%Q -> (0 <= py_min 10 x <= 10)%Q.
Proof.
  intros Hx. split; [|apply py_min_le].
  unfold py_min. by destruct (Qltb x 10).
Qed.

Lemma Qdiv_nonneg (a b : Q) : (0 <= a)%Q -> (0 < b)%Q -> (0 <= a / b)%Q.
Proof.
  intros Ha Hb. apply Qle_shift_div_l; [done|]. by rewrite Qmult_0_l.
Qed.

Lemma or_str_Some (a : string) (d : string) : a <> "" -> or_str (Some a) d = a.
Proof.
  intros Ha. unfold or_str. by destruct (String.eqb_spec a "").
Qed.

Lemma truthy_str_Some (key : option string) :
  truthy_str key = true <-> exists a, key = Some a /\ a <> "".
Proof.
  destruct key as [a|]; simpl.
  - destruct (String.eqb_spec a "") as [->|Hne]; simpl.
    + split; [done | by intros (? & [= <-] & ?)].
    + split; [by exists a | done].
  - split; [done | by intros (? & [=] & _)].
Qed.

Section SipListFacts.

Variable now : Z.
Variable date_parser_parse : string -> option datetime.

Local Abbreviation get_days_since_date :=
  (Services.get_days_since_date now date_parser_parse).
Local Abbreviation get_months_since_date :=
  (Services.get_months_since_date now date_parser_parse).
Local Abbreviation no_sip_increase_due :=
  (Services.no_sip_increase_due now date_parser_parse).
Local Abbreviation no_sip_increase_body :=
  (Services.no_sip_increase_body now date_parser_parse).
Local Abbreviation no_sip_increase_emitted :=
  (Services.no_sip_increase_emitted now date_parser_parse).
Local Abbreviation get_no_sip_increase_clients :=
  (Services.get_no_sip_increase_clients now date_parser_parse).
Local Abbreviation failed_sip_body :=
  (Services.failed_sip_body now date_parser_parse).
Local Abbreviation failed_sip_emitted :=
  (Services.failed_sip_emitted now date_parser_parse).
Local Abbreviation get_failed_sip_clients :=
  (Services.get_failed_sip_clients now date_parser_parse).
Local Abbreviation high_value_inactive_due :=
  (Services.high_value_inactive_due now date_parser_parse).
Local Abbreviation high_value_inactive_body :=
  (Services.high_value_inactive_body now date_parser_parse).
Local Abbreviation high_value_inactive_emitted :=
  (Services.high_value_inactive_emitted now date_parser_parse).
Local Abbreviation get_high_value_inactive_clients :=
  (Services.get_high_value_inactive_clients now date_parser_parse).
Local Abbreviation get_all_opportunities :=
  (Services.get_all_opportunities now date_parser_parse).
Local Abbreviation offset_aware := (Services.offset_aware date_parser_parse).
Local Abbreviation days_elapsed :=
  (Services.days_elapsed now date_parser_parse).
Local Abbreviation months_elapsed :=
  (Services.months_elapsed now date_parser_parse).

(** The outcome of one iteration of the no-increase loop. *)
Lemma no_sip_increase_body_outcome (agent_id : option string) (min_months : Z)
    (r : SIPRecord.t) (acc : list OpportunityClient.t) :
  Services.no_sip_increase_query agent_id r = true ->
  match no_sip_increase_body min_months r acc with
  | Ok acc1 =>
      offset_aware (SIPRecord.latest_success_order_date r) = false
      /\ offset_aware (SIPRecord.start_date r) = false
      /\ ((no_sip_increase_due min_months r = false /\ acc1 = acc)
          \/ (no_sip_increase_due min_months r = true
              /\ exists o, acc1 = acc ++ [o] /\ no_sip_increase_emitted r o))
  | Raise _ =>
      offset_aware (SIPRecord.latest_success_order_date r) = true
      \/ offset_aware (SIPRecord.start_date r) = true
      \/ (no_sip_increase_due min_months r = true
          /\ SIPRecord.amount r = None)
  end.
Proof.
  intros Hq.
  destruct (offset_aware (SIPRecord.latest_success_order_date r)) eqn:Hlast.
  { rewrite no_sip_increase_body_aware by (by left). by left. }
  destruct (offset_aware (SIPRecord.start_date r)) eqn:Hstart.
  { rewrite no_sip_increase_body_aware by (by right). right. by left. }
  rewrite no_sip_increase_body_step by done.
  destruct (no_sip_increase_due min_months r) eqn:Hdue;
    [|split; [done|]; split; [done|]; by left].
  destruct (no_sip_increase_query_percentage _ _ Hq) as (p & Hp & _).
  rewrite Hp. simpl.
  destruct (SIPRecord.amount r) as [a|] eqn:Ha; simpl; [|by right; right].
  split; [done|]. split; [done|].
  right. split; [done|]. eexists. split; [reflexivity|].
  unfold Services.no_sip_increase_due in Hdue.
  rewrite !andb_true_iff, !truthy_int_Some in Hdue.
  destruct Hdue as [[[(msl & Hl & _) (mss & Hs & _)] _] _].
  exists a, p, msl, mss,
    (days_elapsed (SIPRecord.latest_success_order_date r)).
  rewrite Hl, Hs. simpl.
  apply months_elapsed_Some in Hl. apply months_elapsed_Some in Hs.
  by rewrite get_days_since_date_naive.
Qed.

(** Every opportunity of a returned no-increase list was built from a
    selected plan that passes the tests of the loop. *)
Lemma get_no_sip_increase_clients_sound (db : Session)
    (agent_id : option string) (min_months : Z) (limit : nat)
    (opportunities : list OpportunityClient.t) :
  get_no_sip_increase_clients db agent_id min_months limit = Ok opportunities ->
  forall o, o ∈ opportunities ->
    exists r, r ∈ sip_records db
              /\ Services.no_sip_increase_query agent_id r = true
              /\ no_sip_increase_due min_months r = true
              /\ no_sip_increase_emitted r o.
Proof.
  unfold Services.get_no_sip_increase_clients. intros Hget o Ho.
  destruct (for_each _ _ _) as [built|e] eqn:Hloop; simpl in Hget; [|done].
  injection Hget as <-.
  apply subseteq_take, elem_of_sort_desc in Ho.
  apply (for_each_emitted _
           (fun r o => Services.no_sip_increase_query agent_id r = true
                       /\ no_sip_increase_due min_months r = true
                       /\ no_sip_increase_emitted r o)) in Hloop
    as (ys & -> & Hys).
  - simpl in Ho. rewrite Forall_forall in Hys.
    destruct (Hys o Ho) as (r & Hr & Hq & Hdue & Hem).
    apply elem_of_List_filter in Hr as [Hr _]. by exists r.
  - intros r acc0 acc1 Hr Hbody. apply elem_of_List_filter in Hr as [_ Hq].
    pose proof (no_sip_increase_body_outcome agent_id min_months r acc0 Hq)
      as Hout.
    rewrite Hbody in Hout.
    destruct Hout as (_ & _ & [[_ ->]|(Hdue & y & -> & Hy)]); [by left|].
    right. by exists y.
Qed.

(** The outcome of one iteration of the failed-transaction loop. *)
Lemma failed_sip_body_outcome (r : SIPRecord.t) (f : Q)
    (acc : list OpportunityClient.t) :
  SIPRecord.failed_amount r = Some f ->
  match failed_sip_body r acc with
  | Ok acc1 =>
      offset_aware (SIPRecord.latest_success_order_date r) = false
      /\ exists o, acc1 = acc ++ [o] /\ failed_sip_emitted r o
  | Raise _ =>
      SIPRecord.success_amount r = None
      \/ offset_aware (SIPRecord.latest_success_order_date r) = true
  end.
Proof.
  intros Hf. destruct (SIPRecord.success_amount r) as [s|] eqn:Hs.
  - rewrite (failed_sip_body_step now date_parser_parse r s f) by done.
    destruct (offset_aware (SIPRecord.latest_success_order_date r))
      eqn:Hlast.
    + rewrite get_days_since_date_aware by done. by right.
    + rewrite get_days_since_date_naive by done. simpl.
      split; [done|]. eexists. split; [reflexivity|].
      exists s, f, (days_elapsed (SIPRecord.latest_success_order_date r)).
      split; [done|]. split; [done|].
      split; [by apply get_days_since_date_naive|]. by repeat split.
  - unfold Services.failed_sip_body, Services.failure_rate_of.
    rewrite Hs. by left.
Qed.

Lemma failed_sip_records_failed (db : Session) (agent_id : option string)
    (min_failed_amount : Q) (limit : nat) (r : SIPRecord.t) :
  r ∈ Services.failed_sip_records db agent_id min_failed_amount limit ->
  r ∈ sip_records db
  /\ Services.failed_sip_query agent_id min_failed_amount r = true.
Proof.
  intros Hr.
  by apply subseteq_take, elem_of_sort_desc, elem_of_List_filter in Hr.
Qed.

(** Every opportunity of a returned failed-transaction list was built from
    a fetched plan. *)
Lemma get_failed_sip_clients_sound (db : Session) (agent_id : option string)
    (min_failed_amount : Q) (limit : nat)
    (opportunities : list OpportunityClient.t) :
  get_failed_sip_clients db agent_id min_failed_amount limit = Ok opportunities ->
  forall o, o ∈ opportunities ->
    exists r, r ∈ sip_records db
              /\ Services.failed_sip_query agent_id min_failed_amount r = true
              /\ failed_sip_emitted r o.
Proof.
  unfold Services.get_failed_sip_clients. intros Hget o Ho.
  destruct (for_each _ _ _) as [built|e] eqn:Hloop; simpl in Hget; [|done].
  injection Hget as <-. apply subseteq_take in Ho.
  apply (for_each_emitted _ failed_sip_emitted) in Hloop as (ys & -> & Hys).
  - simpl in Ho. rewrite Forall_forall in Hys.
    destruct (Hys o Ho) as (r & Hr & Hem).
    apply failed_sip_records_failed in Hr as [Hr Hq]. by exists r.
  - intros r acc0 acc1 Hr Hbody.
    apply failed_sip_records_failed in Hr as [_ Hq].
    apply failed_sip_query_iff in Hq as (_ & (f & Hf & _) & _).
    pose proof (failed_sip_body_outcome r f acc0 Hf) as Hout.
    rewrite Hbody in Hout. right. by destruct Hout as [_ Hout].
Qed.

Lemma high_value_inactive_records_query (db : Session)
    (agent_id : option string) (min_invested_amount : Q) (limit : nat)
    (r : SIPRecord.t) :
  r ∈ Services.high_value_inactive_records db agent_id min_invested_amount limit ->
  r ∈ sip_records db
  /\ Services.high_value_inactive_query agent_id min_invested_amount r = true.
Proof.
  intros Hr.
  by apply subseteq_take, elem_of_sort_desc, elem_of_List_filter in Hr.
Qed.

(** The outcome of one iteration of the high-value-inactive loop. *)
Lemma high_value_inactive_body_outcome (min_inactive_days : Z)
    (r : SIPRecord.t) (s : Q) (acc : list OpportunityClient.t) :
  SIPRecord.success_amount r = Some s ->
  match high_value_inactive_body min_inactive_days r acc with
  | Ok acc1 =>
      offset_aware (SIPRecord.latest_success_order_date r) = false
      /\ ((high_value_inactive_due min_inactive_days r = false /\ acc1 = acc)
          \/ (high_value_inactive_due min_inactive_days r = true
              /\ exists o, acc1 = acc ++ [o]
                           /\ high_value_inactive_emitted r o))
  | Raise _ =>
      offset_aware (SIPRecord.latest_success_order_date r) = true
      \/ (high_value_inactive_due min_inactive_days r = true
          /\ SIPRecord.amount r = None)
  end.
Proof.
  intros Hs.
  destruct (offset_aware (SIPRecord.latest_success_order_date r)) eqn:Hlast.
  { rewrite high_value_inactive_body_aware by done. by left. }
  rewrite high_value_inactive_body_step by done.
  destruct (high_value_inactive_due min_inactive_days r) eqn:Hdue;
    [|split; [done|]; by left].
  rewrite Hs.
  destruct (SIPRecord.amount r) as [a|] eqn:Ha; simpl; [|by right].
  split; [done|]. right. split; [done|]. eexists. split; [reflexivity|].
  unfold Services.high_value_inactive_due in Hdue.
  rewrite andb_true_iff, truthy_int_Some in Hdue.
  destruct Hdue as [(d & Hd & _) _].
  exists a, s, d. rewrite Hd. apply days_elapsed_Some in Hd. done.
Qed.

(** Every opportunity of a returned high-value-inactive list was built from
    a fetched plan that passes the test of the loop. *)
Lemma get_high_value_inactive_clients_sound (db : Session)
    (agent_id : option string) (min_invested_amount : Q)
    (min_inactive_days : Z) (limit : nat)
    (opportunities : list OpportunityClient.t) :
  get_high_value_inactive_clients db agent_id min_invested_amount
    min_inactive_days limit = Ok opportunities ->
  forall o, o ∈ opportunities ->
    exists r, r ∈ sip_records db
              /\ Services.high_value_inactive_query agent_id
                   min_invested_amount r = true
              /\ high_value_inactive_due min_inactive_days r = true
              /\ high_value_inactive_emitted r o.
Proof.
  unfold Services.get_high_value_inactive_clients. intros Hget o Ho.
  destruct (for_each _ _ _) as [built|e] eqn:Hloop; simpl in Hget; [|done].
  injection Hget as <-.
  apply subseteq_take, elem_of_sort_desc in Ho.
  apply (for_each_emitted _
           (fun r o => high_value_inactive_due min_inactive_days r = true
                       /\ high_value_inactive_emitted r o)) in Hloop
    as (ys & -> & Hys).
  - simpl in Ho. rewrite Forall_forall in Hys.
    destruct (Hys o Ho) as (r & Hr & Hdue & Hem).
    apply high_value_inactive_records_query in Hr as [Hr Hq]. by exists r.
  - intros r acc0 acc1 Hr Hbody.
    apply high_value_inactive_records_query in Hr as [_ Hq].
    apply high_value_inactive_query_iff in Hq as (_ & (s & Hs & _) & _).
    pose proof (high_value_inactive_body_outcome min_inactive_days r s acc0 Hs)
      as Hout.
    rewrite Hbody in Hout.
    destruct Hout as (_ & [[_ ->]|(Hdue & y & -> & Hy)]); [by left|].
    right. by exists y.
Qed.

Lemma failure_rate_nonneg (s f : Q) :
  (0 <= f)%Q -> (0 <= Services.failure_rate s f)%Q.
Proof.
  intros Hf. unfold Services.failure_rate.
  destruct (Qltb 0 (s + f)) eqn:Hpos; [|apply Qle_refl].
  apply Qltb_lt in Hpos.
  apply Qmult_le_0_compat; [by apply Qdiv_nonneg | done].
Qed.

Lemma failure_rate_le_100 (s f : Q) :
  (0 <= s)%Q -> (0 <= f)%Q -> (Services.failure_rate s f <= 100)%Q.
Proof.
  intros Hs Hf. unfold Services.failure_rate.
  destruct (Qltb 0 (s + f)) eqn:Hpos; [|done].
  apply Qltb_lt in Hpos.
  assert (f / (s + f) <= 1)%Q as Hle.
  { apply Qle_shift_div_r; [done|]. rewrite Qmult_1_l.
    rewrite <- (Qplus_0_l f) at 1. by apply Qplus_le_l. }
  apply (Qmult_le_compat_r _ _ 100) in Hle; [|done].
  by rewrite Qmult_1_l in Hle.
Qed.

(** X2.  The failure rate computed for a plan whose two totals are present
    and not negative is a percentage: [failure_rate_of] returns a value
    between 0 and 100, and no division by zero is attempted, also when both
    totals are 0. *)
Theorem failure_rate_of_is_percentage (r : SIPRecord.t) (s f : Q) :
  SIPRecord.success_amount r = Some s ->
  SIPRecord.failed_amount r = Some f ->
  (0 <= s)%Q -> (0 <= f)%Q ->
  exists rate,
    Services.failure_rate_of r = Ok rate /\ (0 <= rate <= 100)%Q.
Proof.
  intros Hs Hf Hs0 Hf0. exists (Services.failure_rate s f). split.
  - unfold Services.failure_rate_of, Services.failure_rate.
    rewrite Hs, Hf. simpl.
    destruct (Qltb 0 (s + f)) eqn:Hpos; simpl; [|done].
    unfold py_truediv.
    destruct (Qeq_bool (s + f) 0) eqn:Hz; [|done].
    apply Qeq_bool_iff in Hz. apply Qltb_lt in Hpos.
    rewrite Hz in Hpos. by apply Qlt_irrefl in Hpos.
  - split; [by apply failure_rate_nonneg | by apply failure_rate_le_100].
Qed.

(** X3.  With thresholds that are not negative, every opportunity of a list
    returned by one of the three SIP detectors carries a risk score between
    0 and 10. *)
Theorem sip_risk_scores_in_range (db : Session) (agent_id : option string)
    (min_months : Z) (min_failed_amount min_invested_amount : Q)
    (min_inactive_days : Z) (limit : nat) :
  (0 <= min_months)%Z -> (0 <= min_failed_amount)%Q ->
  (0 <= min_inactive_days)%Z ->
  let in_range (o : OpportunityClient.t) :=
    exists score, OpportunityClient.risk_score o = Some score
                  /\ (0 <= score <= 10)%Q in
  (forall opportunities,
     get_no_sip_increase_clients db agent_id min_months limit
     = Ok opportunities ->
     Forall in_range opportunities)
  /\ (forall opportunities,
        get_failed_sip_clients db agent_id min_failed_amount limit
        = Ok opportunities ->
        Forall in_range opportunities)
  /\ (forall opportunities,
        get_high_value_inactive_clients db agent_id min_invested_amount
          min_inactive_days limit = Ok opportunities ->
        Forall in_range opportunities).
Proof.
  intros Hmonths Hfailed Hdays in_range.
  split; [|split]; intros opps Hget; apply Forall_forall; intros o Ho.
  - destruct (get_no_sip_increase_clients_sound _ _ _ _ _ Hget o Ho)
      as (r & _ & _ & Hdue & a & p & msl & mss & d & _ & _ & Hl & _ & _ & ->).
    eexists. split; [reflexivity|]. apply py_min_range.
    unfold Services.no_sip_increase_due in Hdue.
    rewrite !andb_true_iff, sql_ge_int_Some in Hdue.
    destruct Hdue as [[_ (n & Hn & Hge)] _].
    apply months_elapsed_Some in Hn.
    rewrite Hl in Hn. injection Hn as <-.
    apply Qdiv_nonneg; [|done].
    change 0%Q with (inject_Z 0). rewrite <- Zle_Qle. lia.
  - destruct (get_failed_sip_clients_sound _ _ _ _ _ Hget o Ho)
      as (r & _ & Hq & s & f & d & _ & Hf & _ & _ & Hrisk & _).
    apply failed_sip_query_iff in Hq as (_ & (f' & Hf' & Hge) & _).
    rewrite Hf in Hf'. injection Hf' as <-.
    eexists. split; [exact Hrisk|]. apply py_min_range.
    apply Qdiv_nonneg; [|done]. apply failure_rate_nonneg.
    by apply Qle_trans with min_failed_amount.
  - destruct (get_high_value_inactive_clients_sound _ _ _ _ _ _ Hget o Ho)
      as (r & _ & _ & Hdue & a & s & d & _ & _ & Hd & _ & Hrisk & _).
    eexists. split; [exact Hrisk|]. apply py_min_range.
    unfold Services.high_value_inactive_due in Hdue.
    rewrite andb_true_iff, sql_ge_int_Some in Hdue.
    destruct Hdue as [_ (n & Hn & Hge)].
    apply days_elapsed_Some in Hn.
    rewrite Hd in Hn. injection Hn as <-.
    apply Qdiv_nonneg; [|done].
    change 0%Q with (inject_Z 0). rewrite <- Zle_Qle. lia.
Qed.

(** X4.  With a non-empty advisor filter, every opportunity of a list
    returned by one of the three SIP detectors carries the advisor of the
    filter as [agent_id]: the opportunity is built from the filtered row
    itself. *)
Theorem sip_detectors_keep_advisor (db : Session) (advisor : string)
    (min_months : Z) (min_failed_amount min_invested_amount : Q)
    (min_inactive_days : Z) (limit : nat) :
  advisor <> "" ->
  let of_advisor (o : OpportunityClient.t) :=
    OpportunityClient.agent_id o = advisor in
  (forall opportunities,
     get_no_sip_increase_clients db (Some advisor) min_months limit
     = Ok opportunities ->
     Forall of_advisor opportunities)
  /\ (forall opportunities,
        get_failed_sip_clients db (Some advisor) min_failed_amount limit
        = Ok opportunities ->
        Forall of_advisor opportunities)
  /\ (forall opportunities,
        get_high_value_inactive_clients db (Some advisor) min_invested_amount
          min_inactive_days limit = Ok opportunities ->
        Forall of_advisor opportunities).
Proof.
  intros Hadvisor of_advisor.
  assert (truthy_str (Some advisor) = true) as Htruthy.
  { apply truthy_str_Some. by exists advisor. }
  assert (forall col : option string,
            optional_filter (Some advisor) col = true ->
            or_str col "0" = advisor) as Hcol.
  { intros col Hcol. apply optional_filter_iff in Hcol as [Hf|[_ ->]].
    - congruence.
    - by apply or_str_Some. }
  split; [|split]; intros opps Hget; apply Forall_forall; intros o Ho.
  - destruct (get_no_sip_increase_clients_sound _ _ _ _ _ Hget o Ho)
      as (r & _ & Hq & _ & a & p & msl & mss & d & _ & _ & _ & _ & _ & ->).
    unfold Services.no_sip_increase_query in Hq.
    rewrite !andb_true_iff in Hq. destruct Hq as [_ Hq]. by apply Hcol.
  - destruct (get_failed_sip_clients_sound _ _ _ _ _ Hget o Ho)
      as (r & _ & Hq & s & f & d & _ & _ & _ & _ & _ & ->).
    unfold Services.failed_sip_query in Hq.
    rewrite !andb_true_iff in Hq. destruct Hq as [_ Hq]. by apply Hcol.
  - destruct (get_high_value_inactive_clients_sound _ _ _ _ _ _ Hget o Ho)
      as (r & _ & Hq & _ & a & s & d & _ & _ & _ & _ & _ & ->).
    unfold Services.high_value_inactive_query in Hq.
    rewrite !andb_true_iff in Hq. destruct Hq as [_ Hq]. by apply Hcol.
Qed.

Lemma returns_bind_ret {A B} (m : result A) (f : A -> B) :
  returns (m ≫= fun a => mret (f a)) <-> returns m.
Proof.
  destruct m as [a|e]; simpl.
  - split; intros _; by eexists.
  - split; by intros [? [=]].
Qed.

(** When the no-increase rule returns. *)
Lemma get_no_sip_increase_clients_returns_iff (db : Session)
    (agent_id : option string) (min_months : Z) (limit : nat) :
  returns (get_no_sip_increase_clients db agent_id min_months limit)
  <-> forall r, r ∈ sip_records db ->
        Services.no_sip_increase_query agent_id r = true ->
        offset_aware (SIPRecord.latest_success_order_date r) = false
        /\ offset_aware (SIPRecord.start_date r) = false
        /\ (no_sip_increase_due min_months r = true ->
            is_Some (SIPRecord.amount r)).
Proof.
  unfold Services.get_no_sip_increase_clients.
  rewrite returns_bind_ret.
  rewrite (for_each_returns_iff _
             (fun r =>
                offset_aware (SIPRecord.latest_success_order_date r) = false
                /\ offset_aware (SIPRecord.start_date r) = false
                /\ (no_sip_increase_due min_months r = true ->
                    is_Some (SIPRecord.amount r)))).
  - rewrite Forall_forall. split.
    + intros H r Hr Hq. apply H. by apply elem_of_List_filter.
    + intros H r Hr. apply elem_of_List_filter in Hr as [Hr Hq]. by apply H.
  - intros r acc Hr. apply elem_of_List_filter in Hr as [_ Hq].
    pose proof (no_sip_increase_body_outcome agent_id min_months r acc Hq)
      as Hout.
    destruct (no_sip_increase_body min_months r acc) as [acc1|e].
    + split; [|by eexists]. intros _.
      destruct Hout as (Hlast & Hstart & Hout).
      split; [done|]. split; [done|]. intros Hdue.
      destruct Hout
        as [[Hno _]|(_ & o & _ & a & _ & _ & _ & _ & Ha & _)];
        [congruence | by eexists].
    + split; [by intros [? [=]]|].
      intros (Hlast & Hstart & Hamount).
      destruct Hout as [Habs|[Habs|[Hdue Ha]]]; [congruence|congruence|].
      destruct (Hamount Hdue) as [a Ha']. congruence.
Qed.

(** When the failed-transaction rule returns. *)
Lemma get_failed_sip_clients_returns_iff (db : Session)
    (agent_id : option string) (min_failed_amount : Q) (limit : nat) :
  returns (get_failed_sip_clients db agent_id min_failed_amount limit)
  <-> forall r,
        r ∈ Services.failed_sip_records db agent_id min_failed_amount limit ->
        is_Some (SIPRecord.success_amount r)
        /\ offset_aware (SIPRecord.latest_success_order_date r) = false.
Proof.
  unfold Services.get_failed_sip_clients.
  rewrite returns_bind_ret.
  rewrite (for_each_returns_iff _
             (fun r =>
                is_Some (SIPRecord.success_amount r)
                /\ offset_aware (SIPRecord.latest_success_order_date r)
                   = false)).
  - by rewrite Forall_forall.
  - intros r acc Hr. apply failed_sip_records_failed in Hr as [_ Hq].
    apply failed_sip_query_iff in Hq as (_ & (f & Hf & _) & _).
    pose proof (failed_sip_body_outcome r f acc Hf) as Hout.
    destruct (failed_sip_body r acc) as [acc1|e].
    + split; [|by eexists]. intros _.
      destruct Hout as (Hlast & o & _ & s & _ & _ & Hs & _).
      split; [by eexists | done].
    + split; [by intros [? [=]]|]. intros [[s Hs] Hlast].
      destruct Hout as [Habs|Habs]; congruence.
Qed.

(** When the high-value-inactive rule returns. *)
Lemma get_high_value_inactive_clients_returns_iff (db : Session)
    (agent_id : option string) (min_invested_amount : Q)
    (min_inactive_days : Z) (limit : nat) :
  returns (get_high_value_inactive_clients db agent_id min_invested_amount
             min_inactive_days limit)
  <-> forall r,
        r ∈ Services.high_value_inactive_records db agent_id
              min_invested_amount limit ->
        offset_aware (SIPRecord.latest_success_order_date r) = false
        /\ (high_value_inactive_due min_inactive_days r = true ->
            is_Some (SIPRecord.amount r)).
Proof.
  unfold Services.get_high_value_inactive_clients.
  rewrite returns_bind_ret.
  rewrite (for_each_returns_iff _
             (fun r =>
                offset_aware (SIPRecord.latest_success_order_date r) = false
                /\ (high_value_inactive_due min_inactive_days r = true ->
                    is_Some (SIPRecord.amount r)))).
  - by rewrite Forall_forall.
  - intros r acc Hr.
    apply high_value_inactive_records_query in Hr as [_ Hq].
    apply high_value_inactive_query_iff in Hq as (_ & (s & Hs & _) & _).
    pose proof (high_value_inactive_body_outcome min_inactive_days r s acc Hs)
      as Hout.
    destruct (high_value_inactive_body min_inactive_days r acc) as [acc1|e].
    + split; [|by eexists]. intros _.
      destruct Hout as (Hlast & Hout). split; [done|]. intros Hdue.
      destruct Hout as [[Hno _]|(_ & o & _ & a & _ & _ & Ha & _)];
        [congruence | by eexists].
    + split; [by intros [? [=]]|]. intros (Hlast & Hamount).
      destruct Hout as [Habs|[Hdue Ha]]; [congruence|].
      destruct (Hamount Hdue) as [a Ha']. congruence.
Qed.

(** X5.  When each detector returns and when it raises.  A date text that
    parses to an offset-aware datetime makes [get_days_since_date] raise.
    The no-increase rule returns exactly when no selected plan has such a
    latest-success or start date and every selected plan that passes the
    tests of its loop has an amount; the failed-transaction rule exactly
    when every fetched plan has a [success_amount] and no such
    latest-success date; the high-value-inactive rule exactly when no
    fetched plan has such a latest-success date and every fetched plan that
    passes its inactivity test has an amount.  One plan that breaks the
    condition makes the whole call raise, whatever the other plans and
    whatever [limit]. *)
Theorem sip_detectors_return_iff (db : Session) (agent_id : option string)
    (min_months : Z) (min_failed_amount min_invested_amount : Q)
    (min_inactive_days : Z) (limit : nat) :
  (returns (get_no_sip_increase_clients db agent_id min_months limit)
   <-> forall r, r ∈ sip_records db ->
         Services.no_sip_increase_query agent_id r = true ->
         offset_aware (SIPRecord.latest_success_order_date r) = false
         /\ offset_aware (SIPRecord.start_date r) = false
         /\ (no_sip_increase_due min_months r = true ->
             is_Some (SIPRecord.amount r)))
  /\ (returns (get_failed_sip_clients db agent_id min_failed_amount limit)
      <-> forall r,
            r ∈ Services.failed_sip_records db agent_id min_failed_amount limit ->
            is_Some (SIPRecord.success_amount r)
            /\ offset_aware (SIPRecord.latest_success_order_date r) = false)
  /\ (returns (get_high_value_inactive_clients db agent_id min_invested_amount
                 min_inactive_days limit)
      <-> forall r,
            r ∈ Services.high_value_inactive_records db agent_id
                  min_invested_amount limit ->
            offset_aware (SIPRecord.latest_success_order_date r) = false
            /\ (high_value_inactive_due min_inactive_days r = true ->
                is_Some (SIPRecord.amount r)))
  /\ forall date_string,
       offset_aware date_string = true
       <-> exists text instant,
             date_string = Some text /\ text <> ""
             /\ date_parser_parse text = Some (Aware instant).
Proof.
  split; [apply get_no_sip_increase_clients_returns_iff|].
  split; [apply get_failed_sip_clients_returns_iff|].
  split; [apply get_high_value_inactive_clients_returns_iff|].
  intros date_string.
  unfold Services.offset_aware, Services.parse_date_safe.
  destruct date_string as [text|];
    [|split; [done | by intros (? & ? & [=] & _)]].
  destruct (String.eqb_spec text "") as [->|Hne].
  - split; [done | by intros (? & ? & [= <-] & ? & _)].
  - destruct (date_parser_parse text) as [[t|t]|] eqn:Hd.
    + split; [done|]. intros (? & ? & [= <-] & _ & ?). congruence.
    + split; [|done]. intros _. by exists text, t.
    + split; [done|]. intros (? & ? & [= <-] & _ & ?). congruence.
Qed.

Lemma for_each_length {A B} (body : A -> list B -> result (list B))
    (xs : list A) (acc res : list B) :
  (forall x acc0 acc1, x ∈ xs -> body x acc0 = Ok acc1 ->
     length acc1 = S (length acc0)) ->
  for_each body xs acc = Ok res ->
  length res = length acc + length xs.
Proof.
  revert acc. induction xs as [|x xs IH]; intros acc Hbody; simpl.
  - intros [= <-]. lia.
  - destruct (body x acc) as [acc1|e] eqn:Hx; simpl; [|done].
    intros Hrest. rewrite (IH acc1); [|by intros y a0 a1 Hy; apply Hbody; right
                                       |exact Hrest].
    rewrite (Hbody x acc acc1) by (done || by left). lia.
Qed.

(** X6.  The failed-transaction rule fills its limit: a returned list holds
    [limit] opportunities when at least [limit] plans are eligible, and one
    opportunity per eligible plan otherwise. *)
Theorem get_failed_sip_clients_length (db : Session)
    (agent_id : option string) (min_failed_amount : Q) (limit : nat)
    (opportunities : list OpportunityClient.t) :
  get_failed_sip_clients db agent_id min_failed_amount limit = Ok opportunities ->
  length opportunities
  = limit `min`
      length (List.filter (Services.failed_sip_query agent_id min_failed_amount)
                (sip_records db)).
Proof.
  unfold Services.get_failed_sip_clients. intros Hget.
  destruct (for_each _ _ _) as [built|e] eqn:Hloop; simpl in Hget; [|done].
  injection Hget as <-.
  apply for_each_length in Hloop.
  - rewrite length_take, Hloop. simpl.
    unfold Services.failed_sip_records.
    rewrite length_take, (Permutation_length (sort_desc_perm _ _)). lia.
  - intros r acc0 acc1 Hr Hbody.
    apply failed_sip_records_failed in Hr as [_ Hq].
    apply failed_sip_query_iff in Hq as (_ & (f & Hf & _) & _).
    pose proof (failed_sip_body_outcome r f acc0 Hf) as Hout.
    rewrite Hbody in Hout. destruct Hout as (_ & o & -> & _).
    rewrite length_app. simpl. lia.
Qed.

Lemma take_bind_length {A B} (m : result (list A)) (key : list A -> list B)
    (limit : nat) (l : list B) :
  (m ≫= fun built => mret (take limit (key built))) = Ok l ->
  length l <= limit.
Proof.
  destruct m as [built|e]; simpl; [|done].
  intros [= <-]. rewrite length_take. lia.
Qed.

(** X7.  The combined view loses nothing at its final cut: when the three
    rules return with [limit // 3] each, the view returns a rearrangement of
    all their opportunities, in descending order of the composite key.  An
    opportunity that two rules emit for the same plan appears twice. *)
Theorem get_all_opportunities_keeps_all (db : Session)
    (agent_id : option string) (limit : nat)
    (no_increase failed inactive : list OpportunityClient.t) :
  get_no_sip_increase_clients db agent_id 12 (limit / 3) = Ok no_increase ->
  get_failed_sip_clients db agent_id 5000 (limit / 3) = Ok failed ->
  get_high_value_inactive_clients db agent_id 100000 60 (limit / 3)
  = Ok inactive ->
  exists combined,
    get_all_opportunities db agent_id limit = Ok combined
    /\ combined ≡ₚ no_increase ++ failed ++ inactive
    /\ sorted_desc Services.combined_key combined
    /\ length combined <= limit.
Proof.
  intros Ha Hb Hc.
  assert (length no_increase <= limit / 3) as Hla.
  { revert Ha. unfold Services.get_no_sip_increase_clients.
    apply take_bind_length. }
  assert (length failed <= limit / 3) as Hlb.
  { revert Hb. unfold Services.get_failed_sip_clients.
    apply (take_bind_length _ (fun l => l)). }
  assert (length inactive <= limit / 3) as Hlc.
  { revert Hc. unfold Services.get_high_value_inactive_clients.
    apply take_bind_length. }
  pose proof (Nat.Div0.mul_div_le limit 3) as Hdiv.
  set (all_opps := no_increase ++ failed ++ inactive).
  assert (length all_opps <= limit) as Hlen.
  { unfold all_opps. rewrite !length_app. lia. }
  exists (sort_desc Services.combined_key all_opps).
  split; [|split; [|split]].
  - unfold Services.get_all_opportunities. rewrite Ha, Hb, Hc. simpl.
    fold all_opps. rewrite take_ge; [done|].
    by rewrite (Permutation_length (sort_desc_perm _ _)).
  - apply sort_desc_perm.
  - apply sort_desc_sorted.
  - by rewrite (Permutation_length (sort_desc_perm _ _)).
Qed.

End SipListFacts.

Section NoIncreaseFacts.

Variable now : Z.
Variable date_parser_parse : string -> option datetime.

Local Abbreviation get_months_since_date :=
  (Services.get_months_since_date now date_parser_parse).
Local Abbreviation no_sip_increase_due :=
  (Services.no_sip_increase_due now date_parser_parse).
Local Abbreviation no_sip_increase_emitted :=
  (Services.no_sip_increase_emitted now date_parser_parse).
Local Abbreviation get_no_sip_increase_clients :=
  (Services.get_no_sip_increase_clients now date_parser_parse).
Local Abbreviation get_all_opportunities :=
  (Services.get_all_opportunities now date_parser_parse).
Local Abbreviation offset_aware := (Services.offset_aware date_parser_parse).

(** The rows the query selects. *)
Lemma no_sip_increase_query_iff (agent_id : option string) (r : SIPRecord.t) :
  Services.no_sip_increase_query agent_id r = true
  <-> SIPRecord.is_active r = Some "true"
      /\ SIPRecord.current_sip_status r = Some "Success"
      /\ SIPRecord.deleted r = Some "false"
      /\ is_Some (SIPRecord.latest_success_order_date r)
      /\ (exists p, SIPRecord.increment_percentage r = Some p /\ (0 < p)%Q)
      /\ (truthy_str agent_id = false
          \/ (truthy_str agent_id = true /\ SIPRecord.agent_id r = agent_id)).
Proof.
  unfold Services.no_sip_increase_query.
  rewrite !andb_true_iff, !sql_eq_iff, isnot_None_iff, sql_gt_Some,
    optional_filter_iff.
  tauto.
Qed.

(** X8.  The no-increase rule for [min_months >= 1], on tables in which no
    selected plan has a latest-success or start date text that parses to an
    offset-aware datetime and every eligible plan has an amount.  The call
    returns.  A plan is eligible exactly when it is active, in "Success"
    state, not soft-deleted, has a positive increment percentage, passes the
    advisor filter, both its latest-success date and its start date parse,
    the former is at least [min_months] months old, and either the period is
    "6M" and the plan at least 6 months old or the period is "1Y" and the
    plan at least 12 months old.  Exactly one opportunity is built per
    eligible plan, with potential increase
    [amount * (increment_percentage / 100)]; the list built is sorted
    descending by potential increase and cut at [limit]. *)
Theorem get_no_sip_increase_clients_emits_exactly (db : Session)
    (agent_id : option string) (min_months : Z) (limit : nat) :
  (1 <= min_months)%Z ->
  let eligible (r : SIPRecord.t) :=
    Services.no_sip_increase_query agent_id r
    && no_sip_increase_due min_months r in
  (forall r, r ∈ sip_records db ->
     Services.no_sip_increase_query agent_id r = true ->
     offset_aware (SIPRecord.latest_success_order_date r) = false
     /\ offset_aware (SIPRecord.start_date r) = false) ->
  (forall r, r ∈ sip_records db -> eligible r = true ->
     is_Some (SIPRecord.amount r)) ->
  (forall r,
     eligible r = true
     <-> SIPRecord.is_active r = Some "true"
         /\ SIPRecord.current_sip_status r = Some "Success"
         /\ SIPRecord.deleted r = Some "false"
         /\ (exists p, SIPRecord.increment_percentage r = Some p /\ (0 < p)%Q)
         /\ (truthy_str agent_id = false
             \/ (truthy_str agent_id = true /\ SIPRecord.agent_id r = agent_id))
         /\ exists months_since_last months_since_start,
              get_months_since_date (SIPRecord.latest_success_order_date r)
              = Ok (Some months_since_last)
              /\ get_months_since_date (SIPRecord.start_date r)
                 = Ok (Some months_since_start)
              /\ (min_months <= months_since_last)%Z
              /\ ((SIPRecord.increment_period r = Some "6M"
                   /\ (6 <= months_since_start)%Z)
                  \/ (SIPRecord.increment_period r = Some "1Y"
                      /\ (12 <= months_since_start)%Z)))
  /\ exists opportunities,
       get_no_sip_increase_clients db agent_id min_months limit
       = Ok (take limit (sort_desc Services.potential_key opportunities))
       /\ Forall2 no_sip_increase_emitted
            (List.filter eligible (sip_records db)) opportunities
       /\ sorted_desc Services.potential_key
            (take limit (sort_desc Services.potential_key opportunities)).
Proof.
  intros Hmin eligible Hnaive Hamount. split.
  - intros r. unfold eligible.
    rewrite andb_true_iff, no_sip_increase_query_iff,
      (no_sip_increase_due_iff now date_parser_parse min_months r Hmin).
    split.
    + intros [(Ha & Hs & Hd & _ & Hp & Hag) (msl & mss & Hl & Hst & Hge & He)].
      apply expected_increments_pos in He.
      split; [exact Ha|]. split; [exact Hs|]. split; [exact Hd|].
      split; [exact Hp|]. split; [exact Hag|]. by exists msl, mss.
    + intros (Ha & Hs & Hd & Hp & Hag & msl & mss & Hl & Hst & Hge & He).
      split.
      * split; [exact Ha|]. split; [exact Hs|]. split; [exact Hd|].
        split; [|by split].
        unfold Services.get_months_since_date, Services.get_days_since_date,
          Services.parse_date_safe in Hl.
        destruct (SIPRecord.latest_success_order_date r); [by eexists | done].
      * exists msl, mss. split; [exact Hl|]. split; [exact Hst|].
        split; [exact Hge|]. by apply expected_increments_pos.
  - apply get_no_sip_increase_clients_populated; [exact Hnaive|].
    intros r Hr Hq Hdue. apply Hamount; [done|].
    unfold eligible. by rewrite Hq, Hdue.
Qed.

(** X9.  The combined view with [limit < 3] runs each rule with limit 0.
    The two rules that cut at the query then fetch no plan; the no-increase
    rule still runs its loop over every selected plan.  The view returns
    exactly when no selected plan has a latest-success or start date text
    that parses to an offset-aware datetime and every selected plan that
    passes the tests of the no-increase loop (at 12 months) has an amount;
    what it returns is the empty list. *)
Theorem get_all_opportunities_below_three (db : Session)
    (agent_id : option string) (limit : nat) :
  limit < 3 ->
  (returns (get_all_opportunities db agent_id limit)
   <-> forall r, r ∈ sip_records db ->
         Services.no_sip_increase_query agent_id r = true ->
         offset_aware (SIPRecord.latest_success_order_date r) = false
         /\ offset_aware (SIPRecord.start_date r) = false
         /\ (no_sip_increase_due 12 r = true ->
             is_Some (SIPRecord.amount r)))
  /\ forall opportunities,
       get_all_opportunities db agent_id limit = Ok opportunities ->
       opportunities = [].
Proof.
  intros Hlimit.
  destruct (get_all_opportunities_small_limit now date_parser_parse db agent_id
              limit Hlimit) as (_ & _ & Hok & Hraise).
  rewrite <- (get_no_sip_increase_clients_returns_iff now date_parser_parse db
                agent_id 12 (limit / 3)).
  destruct (Services.get_no_sip_increase_clients now date_parser_parse db
              agent_id 12 (limit / 3)) as [a|e] eqn:Ha.
  - rewrite Hok by by eexists. split.
    + split; intros _; by eexists.
    + by intros opps [= <-].
  - rewrite (Hraise e) by done. split.
    + split; by intros [? [=]].
    + by intros opps [=].
Qed.

End NoIncreaseFacts.

Lemma failure_rate_of_is_percentage_witness :
  exists rate,
    Services.failure_rate_of Demo.half_failed_plan = Ok rate
    /\ (0 <= rate <= 100)%Q.
Proof.
  apply (failure_rate_of_is_percentage Demo.half_failed_plan 4000 6000);
    [reflexivity | reflexivity | vm_compute; discriminate
    | vm_compute; discriminate].
Defined.

Lemma sip_risk_scores_in_range_witness :
  exists opportunities,
    Services.get_failed_sip_clients Demo.new_year_2026 Demo.parse_iso_date
      Demo.three_plans (Some "A1") 5000 100 = Ok opportunities
    /\ length opportunities = 2
    /\ Forall
         (fun o => exists score,
            OpportunityClient.risk_score o = Some score
            /\ (0 <= score <= 10)%Q)
         opportunities.
Proof.
  eexists. split; [vm_compute; reflexivity|]. split; [reflexivity|].
  assert (0 <= 12)%Z as Hmonths by lia.
  assert (0 <= 5000)%Q as Hfailed by (vm_compute; discriminate).
  assert (0 <= 60)%Z as Hdays by lia.
  destruct (sip_risk_scores_in_range Demo.new_year_2026 Demo.parse_iso_date
              Demo.three_plans (Some "A1") 12 5000 100000 60 100
              Hmonths Hfailed Hdays) as (_ & Hrange & _).
  apply Hrange. vm_compute. reflexivity.
Defined.

Lemma sip_detectors_keep_advisor_witness :
  exists opportunities,
    Services.get_high_value_inactive_clients Demo.new_year_2026
      Demo.parse_iso_date Demo.three_plans (Some "A1") 100000 60 100
    = Ok opportunities
    /\ length opportunities = 1
    /\ Forall (fun o => OpportunityClient.agent_id o = "A1") opportunities.
Proof.
  eexists. split; [vm_compute; reflexivity|]. split; [reflexivity|].
  assert ("A1" <> "") as Hadvisor by discriminate.
  destruct (sip_detectors_keep_advisor Demo.new_year_2026 Demo.parse_iso_date
              Demo.three_plans "A1" 12 5000 100000 60 100 Hadvisor)
    as (_ & _ & Hkeep).
  apply Hkeep. vm_compute. reflexivity.
Defined.

Lemma get_failed_sip_clients_length_witness :
  exists opportunities,
    Services.get_failed_sip_clients Demo.new_year_2026 Demo.parse_iso_date
      Demo.three_plans None 5000 1 = Ok opportunities
    /\ length opportunities = 1.
Proof.
  eexists. split; [vm_compute; reflexivity|].
  rewrite (get_failed_sip_clients_length Demo.new_year_2026
             Demo.parse_iso_date Demo.three_plans None 5000 1 _);
    [reflexivity | vm_compute; reflexivity].
Defined.

(** With [limit = 9] the combined view of the three plans holds four
    opportunities: the stagnant plan is reported by two rules. *)
Lemma get_all_opportunities_keeps_all_witness :
  exists combined,
    Services.get_all_opportunities Demo.new_year_2026 Demo.parse_iso_date
      Demo.three_plans None 9 = Ok combined
    /\ length combined = 4.
Proof.
  destruct (get_all_opportunities_keeps_all Demo.new_year_2026
              Demo.parse_iso_date Demo.three_plans None 9 _ _ _
              eq_refl eq_refl eq_refl) as (combined & Hget & Hperm & _).
  exists combined. split; [exact Hget|].
  by rewrite (Permutation_length Hperm).
Defined.

Lemma get_no_sip_increase_clients_emits_exactly_witness :
  exists opportunities,
    Services.get_no_sip_increase_clients Demo.new_year_2026 Demo.parse_iso_date
      Demo.three_plans None 12 100
    = Ok (take 100 (sort_desc Services.potential_key opportunities))
    /\ Forall2
         (Services.no_sip_increase_emitted Demo.new_year_2026
            Demo.parse_iso_date)
         [Demo.stagnant_plan] opportunities.
Proof.
  assert (1 <= 12)%Z as Hmin by lia.
  destruct (get_no_sip_increase_clients_emits_exactly Demo.new_year_2026
              Demo.parse_iso_date Demo.three_plans None 12 100 Hmin)
    as (_ & opps & Hget & Hall & _).
  - intros r Hr _. vm_compute in Hr.
    repeat (apply elem_of_cons in Hr as [->|Hr];
            [split; vm_compute; reflexivity|]).
    by apply elem_of_nil in Hr.
  - intros r Hr _. vm_compute in Hr.
    repeat (apply elem_of_cons in Hr as [->|Hr]; [by eexists|]).
    by apply elem_of_nil in Hr.
  - exists opps. split; [exact Hget | exact Hall].
Defined.

(** With [limit = 2] on the three plans the combined view returns the empty
    list. *)
Lemma get_all_opportunities_below_three_witness :
  returns (Services.get_all_opportunities Demo.new_year_2026
             Demo.parse_iso_date Demo.three_plans None 2)
  /\ forall opportunities,
       Services.get_all_opportunities Demo.new_year_2026 Demo.parse_iso_date
         Demo.three_plans None 2 = Ok opportunities ->
       opportunities = [].
Proof.
  assert (2 < 3) as Hlimit by lia.
  destruct (get_all_opportunities_below_three Demo.new_year_2026
              Demo.parse_iso_date Demo.three_plans None 2 Hlimit)
    as [Hiff Hempty].
  split; [|exact Hempty].
  apply Hiff. intros r Hr _. vm_compute in Hr.
  repeat (apply elem_of_cons in Hr as [->|Hr];
          [split; [vm_compute; reflexivity|];
           split; [vm_compute; reflexivity|]; intros _; by eexists|]).
  by apply elem_of_nil in Hr.
Defined.

(** ** Portfolio detectors *)


Lemma sql_lt_Some (x : option Q) (v : Q) :
  Services.sql_lt x v = true <-> exists q, x = Some q /\ (q < v)%Q.
Proof.
  destruct x as [q|]; simpl.
  - rewrite Qltb_lt. split; [by exists q | by intros (? & [= <-] & ?)].
  - split; [done | by intros (? & [=] & _)].
Qed.

(** The Python test [x and x < 0] and the SQL test [x < 0] agree. *)
Lemma and_negative_sql_lt (x : option Q) :
  Services.and_negative x = Services.sql_lt x 0.
Proof.
  destruct x as [q|]; simpl; [|done].
  destruct (Qltb q 0) eqn:Hlt; [|by rewrite andb_false_r].
  rewrite andb_true_r. apply Qltb_lt in Hlt.
  destruct (Qeq_bool q 0) eqn:Heq; [|done].
  apply Qeq_bool_iff in Heq. rewrite Heq in Hlt. by apply Qlt_irrefl in Hlt.
Qed.

Lemma append_issue_step (template : Q -> issue) (x : option Q)
    (issues : list issue) :
  Services.append_issue template x issues
  = Ok (issues ++ if Services.sql_lt x 0 then [template (or_zero x)] else []).
Proof.
  unfold Services.append_issue. rewrite and_negative_sql_lt.
  destruct x as [q|]; simpl; [|by rewrite app_nil_r].
  destruct (Qltb q 0); simpl; [done | by rewrite app_nil_r].
Qed.

Lemma underperforming_body_step (h : PortfolioHolding.t)
    (acc : list FundOpportunity.t) :
  Services.underperforming_body h acc
  = Ok (acc ++
        [ Services.underperforming_opportunity h
            (Services.underperforming_issues h) ]).
Proof.
  unfold Services.underperforming_body, Services.underperforming_issues.
  rewrite !append_issue_step. simpl. rewrite !append_issue_step. simpl.
  rewrite append_issue_step. simpl. by rewrite <- app_assoc.
Qed.

Lemma underperforming_query_iff (user_id : option string)
    (min_current_value : Q) (h : PortfolioHolding.t) :
  Services.underperforming_query user_id min_current_value h = true
  <-> (Services.sql_lt (PortfolioHolding.three_year_returns_alpha h) 0 = true
       \/ Services.sql_lt (PortfolioHolding.five_year_returns_alpha h) 0 = true
       \/ Services.sql_lt (PortfolioHolding.xirr_performance h) 0 = true)
      /\ (exists v, PortfolioHolding.current_value h = Some v
                    /\ (min_current_value <= v)%Q)
      /\ (truthy_str user_id = false
          \/ (truthy_str user_id = true
              /\ PortfolioHolding.user_id h = user_id)).
Proof.
  unfold Services.underperforming_query.
  rewrite !andb_true_iff, !orb_true_iff, sql_ge_Some, optional_filter_iff.
  tauto.
Qed.

Lemma underperforming_holdings_query (db : Session) (user_id : option string)
    (min_current_value : Q) (limit : nat) (h : PortfolioHolding.t) :
  h ∈ Services.underperforming_holdings db user_id min_current_value limit ->
  h ∈ portfolio_holdings db
  /\ Services.underperforming_query user_id min_current_value h = true.
Proof.
  intros Hh.
  by apply subseteq_take, elem_of_sort_desc, elem_of_List_filter in Hh.
Qed.


Lemma get_underperforming_funds_eq (db : Session) (user_id : option string)
    (min_current_value : Q) (limit : nat) :
  Services.get_underperforming_funds db user_id min_current_value limit
  = Ok ((fun h => Services.underperforming_opportunity h
                    (Services.underperforming_issues h))
          <$> Services.underperforming_holdings db user_id min_current_value
                limit).
Proof.
  unfold Services.get_underperforming_funds.
  rewrite (for_each_omap _
             (fun h => Some (Services.underperforming_opportunity h
                               (Services.underperforming_issues h)))).
  - by rewrite (omap_total _
                  (fun h => Services.underperforming_opportunity h
                              (Services.underperforming_issues h))).
  - intros h acc _. apply underperforming_body_step.
Qed.



Lemma rebalancing_query_iff (user_id : option string) (min_concentration : Q)
    (h : PortfolioHolding.t) :
  Services.rebalancing_query user_id min_concentration h = true
  <-> (exists w, PortfolioHolding.portfolio_weight h = Some w
                 /\ (min_concentration <= w)%Q)
      /\ (truthy_str user_id = false
          \/ (truthy_str user_id = true
              /\ PortfolioHolding.user_id h = user_id)).
Proof.
  unfold Services.rebalancing_query.
  rewrite !andb_true_iff, sql_ge_Some, optional_filter_iff.
  tauto.
Qed.

Lemma concentrated_holdings_query (db : Session) (user_id : option string)
    (min_concentration : Q) (limit : nat) (h : PortfolioHolding.t) :
  h ∈ Services.concentrated_holdings db user_id min_concentration limit ->
  h ∈ portfolio_holdings db
  /\ Services.rebalancing_query user_id min_concentration h = true.
Proof.
  intros Hh.
  by apply subseteq_take, elem_of_sort_desc, elem_of_List_filter in Hh.
Qed.

Lemma get_portfolio_rebalancing_opportunities_eq (db : Session)
    (user_id : option string) (min_concentration : Q) (limit : nat) :
  Services.get_portfolio_rebalancing_opportunities db user_id
    min_concentration limit
  = Ok ((fun h => Services.rebalancing_opportunity h
                    (or_zero (PortfolioHolding.portfolio_weight h)))
          <$> Services.concentrated_holdings db user_id min_concentration
                limit).
Proof.
  unfold Services.get_portfolio_rebalancing_opportunities.
  rewrite (for_each_omap _
             (fun h => Some (Services.rebalancing_opportunity h
                               (or_zero (PortfolioHolding.portfolio_weight h))))).
  - by rewrite (omap_total _
                  (fun h => Services.rebalancing_opportunity h
                              (or_zero (PortfolioHolding.portfolio_weight h)))).
  - intros h acc Hh. apply concentrated_holdings_query in Hh as [_ Hq].
    apply rebalancing_query_iff in Hq as [(w & Hw & _) _].
    unfold Services.rebalancing_body. by rewrite Hw.
Qed.


Lemma py_sort_desc_returns_iff {A} (key : A -> option Q) (l : list A) :
  returns (Services.py_sort_desc key l)
  <-> (length l < 2)%nat \/ forall x, x ∈ l -> is_Some (key x).
Proof.
  unfold Services.py_sort_desc.
  destruct (length l <? 2)%nat eqn:Hlen.
  - apply Nat.ltb_lt in Hlen. split; [by left | by eexists].
  - apply Nat.ltb_ge in Hlen.
    destruct (forallb (fun x => isnot_None (key x)) l) eqn:Hall.
    + split; [|by eexists]. intros _. right. intros x Hx.
      rewrite forallb_forall in Hall. apply list_elem_of_In, Hall in Hx.
      by apply isnot_None_iff.
    + split; [by intros [? [=]]|]. intros [Hlt|Hsome]; [lia|].
      assert (forallb (fun x => isnot_None (key x)) l = true) as Habs;
        [|congruence].
      apply forallb_forall. intros x Hx. apply isnot_None_iff, Hsome.
      by apply list_elem_of_In.
Qed.

Lemma py_sort_desc_Ok {A} (key : A -> option Q) (l sorted : list A) :
  Services.py_sort_desc key l = Ok sorted ->
  sorted ≡ₚ l /\ sorted_desc (fun x => or_zero (key x)) sorted.
Proof.
  unfold Services.py_sort_desc.
  destruct (length l <? 2)%nat eqn:Hlen.
  - apply Nat.ltb_lt in Hlen. intros [= <-]. split; [done|].
    destruct l as [|x [|y l]]; simpl in Hlen; [constructor| |lia].
    constructor; constructor.
  - destruct (forallb _ l); [|done]. intros [= <-].
    split; [apply sort_desc_perm | apply sort_desc_sorted].
Qed.

Section PortfolioFacts.

Variable float_of_str : string -> option pyfloat.

Local Abbreviation rating_below := (Services.rating_below float_of_str).
Local Abbreviation get_low_rated_funds :=
  (Services.get_low_rated_funds float_of_str).
Local Abbreviation get_all_portfolio_opportunities :=
  (Services.get_all_portfolio_opportunities float_of_str).

Lemma get_low_rated_funds_eq (db : Session) (user_id : option string)
    (max_rating min_current_value : Q) (limit : nat) :
  get_low_rated_funds db user_id max_rating min_current_value limit
  = Ok (Services.low_rated_opportunity
          <$> take limit
                (sort_desc Services.current_value_key
                   (List.filter
                      (fun h =>
                         Services.low_rated_query user_id min_current_value h
                         && rating_below max_rating h)
                      (portfolio_holdings db)))).
Proof.
  unfold Services.get_low_rated_funds.
  rewrite (for_each_omap _
             (fun h => if rating_below max_rating h then Some h else None)).
  - rewrite omap_guard, List_filter_filter. simpl.
    rewrite (for_each_omap _
               (fun h => Some (Services.low_rated_opportunity h))); [|done].
    by rewrite (omap_total _ Services.low_rated_opportunity).
  - intros h acc _. rewrite low_rated_body_step.
    by destruct (rating_below max_rating h).
Qed.

(** X12.  The three portfolio detectors never raise under the thresholds
    the combined view passes, and the opportunities of the first two always
    carry a value.  The combined view returns exactly when it holds fewer
    than two opportunities or every concentrated holding it fetched has a
    value: a concentrated holding with a NULL [current_value] makes the sort
    of the combined list raise.  When the view returns, it returns a
    rearrangement of all the opportunities of the three detectors, in
    descending order of value. *)
Theorem get_all_portfolio_opportunities_returns_iff (db : Session)
    (user_id : option string) (limit : nat) :
  exists underperforming low_rated concentrated,
    Services.get_underperforming_funds db user_id 0 (limit / 3)
    = Ok underperforming
    /\ get_low_rated_funds db user_id 3 0 (limit / 3) = Ok low_rated
    /\ Services.get_portfolio_rebalancing_opportunities db user_id 25
         (limit / 3)
       = Ok concentrated
    /\ (forall o, o ∈ underperforming ->
          is_Some (FundOpportunity.current_value o))
    /\ (forall o, o ∈ low_rated ->
          is_Some (PortfolioOpportunity.current_value o))
    /\ (returns (get_all_portfolio_opportunities db user_id limit)
        <-> (length underperforming + length low_rated
             + length concentrated < 2)%nat
            \/ forall o, o ∈ concentrated ->
                 is_Some (FundOpportunity.current_value o))
    /\ forall all_opps,
         get_all_portfolio_opportunities db user_id limit = Ok all_opps ->
         all_opps ≡ₚ (inr <$> underperforming) ++ (inl <$> low_rated)
                      ++ (inr <$> concentrated)
         /\ sorted_desc
              (fun x => or_zero (Services.opportunity_current_value x))
              all_opps.
Proof.
  pose proof (get_underperforming_funds_eq db user_id 0 (limit / 3)) as Hu.
  pose proof (get_low_rated_funds_eq db user_id 3 0 (limit / 3)) as Hl.
  pose proof (get_portfolio_rebalancing_opportunities_eq db user_id 25
                (limit / 3)) as Hc.
  set (underperforming := _ <$> _) in Hu.
  set (low_rated := _ <$> _) in Hl.
  set (concentrated := _ <$> _) in Hc.
  exists underperforming, low_rated, concentrated.
  assert (forall o, o ∈ underperforming ->
            is_Some (FundOpportunity.current_value o)) as Hvu.
  { intros o Ho. apply list_elem_of_fmap in Ho as (h & -> & Hh).
    apply underperforming_holdings_query in Hh as [_ Hq].
    apply underperforming_query_iff in Hq as (_ & (v & Hv & _) & _).
    simpl. by rewrite Hv. }
  assert (forall o, o ∈ low_rated ->
            is_Some (PortfolioOpportunity.current_value o)) as Hvl.
  { intros o Ho. apply list_elem_of_fmap in Ho as (h & -> & Hh).
    apply subseteq_take, elem_of_sort_desc, elem_of_List_filter in Hh
      as [_ Hq].
    apply andb_true_iff in Hq as [Hq _].
    apply low_rated_query_iff in Hq as (_ & (v & Hv & _) & _).
    simpl. by rewrite Hv. }
  assert (length underperforming <= limit / 3)%nat as Hlu.
  { unfold underperforming, Services.underperforming_holdings.
    rewrite length_fmap, length_take. lia. }
  assert (length low_rated <= limit / 3)%nat as Hll.
  { unfold low_rated. rewrite length_fmap, length_take. lia. }
  assert (length concentrated <= limit / 3)%nat as Hlc.
  { unfold concentrated, Services.concentrated_holdings.
    rewrite length_fmap, length_take. lia. }
  pose proof (Nat.Div0.mul_div_le limit 3) as Hdiv.
  set (all := ((inr <$> underperforming) ++ (inl <$> low_rated)
               ++ (inr <$> concentrated)
               : list Services.portfolio_opportunity)).
  assert (length all = (length underperforming + length low_rated
                        + length concentrated)%nat) as Hlen.
  { unfold all. rewrite !length_app, !length_fmap. lia. }
  assert (get_all_portfolio_opportunities db user_id limit
          = sorted ← Services.py_sort_desc Services.opportunity_current_value
                       all;
            mret (take limit sorted)) as Hall.
  { unfold Services.get_all_portfolio_opportunities.
    rewrite Hu, Hl, Hc. reflexivity. }
  split; [exact Hu|]. split; [exact Hl|]. split; [exact Hc|].
  split; [exact Hvu|]. split; [exact Hvl|]. split.
  - rewrite Hall, returns_bind_ret, py_sort_desc_returns_iff, Hlen.
    split; (intros [Hlt|Hsome]; [by left | right]).
    + intros o Ho. apply (Hsome (inr o)). unfold all.
      rewrite !elem_of_app, !list_elem_of_fmap. right. right. by exists o.
    + intros x Hx. unfold all in Hx.
      rewrite !elem_of_app, !list_elem_of_fmap in Hx.
      destruct Hx as [(o & -> & Ho)|[(o & -> & Ho)|(o & -> & Ho)]]; simpl;
        [by apply Hvu | by apply Hvl | by apply Hsome].
  - intros all_opps. rewrite Hall.
    destruct (Services.py_sort_desc _ all) as [sorted|e] eqn:Hsort;
      simpl; [|done].
    intros [= <-]. apply py_sort_desc_Ok in Hsort as [Hperm Hsorted].
    rewrite take_ge by (rewrite (Permutation_length Hperm); lia).
    done.
Qed.

(** X13.  With [limit < 3] the combined portfolio view asks each detector
    for no opportunity at all and returns the empty list, whatever the
    table holds. *)
Theorem get_all_portfolio_opportunities_below_three (db : Session)
    (user_id : option string) (limit : nat) :
  (limit < 3)%nat ->
  get_all_portfolio_opportunities db user_id limit = Ok [].
Proof.
  intros Hlimit.
  unfold Services.get_all_portfolio_opportunities.
  rewrite get_underperforming_funds_eq, get_low_rated_funds_eq,
    get_portfolio_rebalancing_opportunities_eq.
  unfold Services.underperforming_holdings, Services.concentrated_holdings.
  rewrite (Nat.div_small limit 3 Hlimit). simpl.
  by destruct limit.
Qed.

End PortfolioFacts.

(** A concentrated holding without a value: the combined view raises. *)
Lemma get_all_portfolio_opportunities_null_value :
  exists e,
    Services.get_all_portfolio_opportunities Demo.parse_decimal
      Demo.concentrated_portfolio None 6
    = Raise e.
Proof. eexists. vm_compute. reflexivity. Qed.

Lemma get_all_portfolio_opportunities_below_three_witness :
  (2 < 3)%nat
  /\ Services.get_all_portfolio_opportunities Demo.parse_decimal
       Demo.concentrated_portfolio None 2
     = Ok [].
Proof.
  split; [lia|].
  apply (get_all_portfolio_opportunities_below_three Demo.parse_decimal
           Demo.concentrated_portfolio None 2).
  lia.
Defined.

(** ** Insurance detectors *)

Lemma NoDup_fmap_take_sort_desc {A B} (f : A -> B) (key : A -> Q)
    (l : list A) (limit : nat) :
  NoDup (f <$> l) -> NoDup (f <$> take limit (sort_desc key l)).
Proof.
  intros Hnodup. rewrite fmap_take.
  eapply sublist_NoDup; [|apply sublist_take].
  by rewrite (sort_desc_perm key l).
Qed.

(** What the coverage-gap rule returns, in terms of the dict built by its
    first loop. *)
Lemma get_insurance_gap_opportunities_eq (db : Session)
    (agent_id : option string) (min_premium_gap : Q)
    (min_opportunity_score : Z) (limit : nat) :
  Services.get_insurance_gap_opportunities db agent_id min_premium_gap
    min_opportunity_score limit
  = Ok (take limit
          (sort_desc Services.score_key
             ((fun item : option string * Services.client_data =>
                 Services.insurance_gap_opportunity item.1 item.2
                   (or_zero
                      (InsuranceRecord.premium_gap
                         (Services.data_record item.2))))
                <$> fold_left Services.group_body
                      (Services.insurance_gap_records db agent_id
                         min_premium_gap min_opportunity_score limit)
                      [])))
  /\ forall u data,
       (u, data) ∈ fold_left Services.group_body
                     (Services.insurance_gap_records db agent_id
                        min_premium_gap min_opportunity_score limit)
                     [] ->
       InsuranceRecord.user_id (Services.data_record data) = u
       /\ Services.data_record data ∈ insurance_records db
       /\ Services.insurance_gap_query agent_id min_premium_gap
            min_opportunity_score (Services.data_record data) = true
       /\ Services.held_type (Services.data_record data)
          ∈ Services.data_insurance_types data.
Proof.
  set (fetched := Services.insurance_gap_records db agent_id min_premium_gap
                    min_opportunity_score limit).
  pose proof (fold_group_body_groups fetched) as (Hnodup & Hkeys & Hdata).
  set (d := fold_left Services.group_body fetched []) in *.
  assert (forall u data, (u, data) ∈ d ->
            InsuranceRecord.user_id (Services.data_record data) = u
            /\ Services.data_record data ∈ insurance_records db
            /\ Services.insurance_gap_query agent_id min_premium_gap
                 min_opportunity_score (Services.data_record data) = true
            /\ Services.held_type (Services.data_record data)
               ∈ Services.data_insurance_types data) as Hrecord.
  { intros u data Hin. destruct (Hdata u data Hin) as (Hhead & Htypes & _).
    apply head_Some_elem_of in Hhead as Hmem.
    apply elem_of_client_records in Hmem as [Hf Hu].
    apply subseteq_take, elem_of_sort_desc, elem_of_List_filter in Hf
      as [Hin' Hq].
    split; [exact Hu|]. split; [exact Hin'|]. split; [exact Hq|].
    rewrite Htypes, elem_of_list_to_set, list_elem_of_fmap.
    eexists. split; [reflexivity|]. by apply head_Some_elem_of. }
  split; [|exact Hrecord].
  unfold Services.get_insurance_gap_opportunities. fold fetched. fold d.
  rewrite (for_each_omap _
             (fun item : option string * Services.client_data =>
                Some (Services.insurance_gap_opportunity item.1 item.2
                        (or_zero
                           (InsuranceRecord.premium_gap
                              (Services.data_record item.2)))))).
  - by rewrite (omap_total _
                  (fun item : option string * Services.client_data =>
                     Services.insurance_gap_opportunity item.1 item.2
                       (or_zero
                          (InsuranceRecord.premium_gap
                             (Services.data_record item.2))))).
  - intros [u data] acc Hin. unfold Services.insurance_gap_body. simpl.
    destruct (Hrecord u data Hin) as (_ & _ & Hq & _).
    apply insurance_gap_query_iff in Hq as (_ & (g & Hg & _) & _).
    by rewrite Hg.
Qed.

(** Every coverage-gap opportunity was built from a policy that passes the
    query and belongs to its client. *)
Lemma get_insurance_gap_opportunities_built (db : Session)
    (agent_id : option string) (min_premium_gap : Q)
    (min_opportunity_score : Z) (limit : nat)
    (opportunities : list InsuranceOpportunity.t) :
  Services.get_insurance_gap_opportunities db agent_id min_premium_gap
    min_opportunity_score limit = Ok opportunities ->
  forall o, o ∈ opportunities ->
    exists data,
      let r := Services.data_record data in
      r ∈ insurance_records db
      /\ Services.insurance_gap_query agent_id min_premium_gap
           min_opportunity_score r = true
      /\ InsuranceRecord.user_id r = InsuranceOpportunity.user_id o
      /\ Services.held_type r ∈ Services.data_insurance_types data
      /\ o = Services.insurance_gap_opportunity (InsuranceRecord.user_id r)
               data (or_zero (InsuranceRecord.premium_gap r)).
Proof.
  destruct (get_insurance_gap_opportunities_eq db agent_id min_premium_gap
              min_opportunity_score limit) as [Heq Hrecord].
  rewrite Heq. intros [= <-] o Ho.
  apply subseteq_take, elem_of_sort_desc, list_elem_of_fmap in Ho
    as ([u data] & -> & Hin).
  destruct (Hrecord u data Hin) as (Hu & Hmem & Hq & Hheld).
  exists data. simpl. by rewrite Hu.
Qed.

(** X15.  [get_insurance_gap_opportunities] always returns at most [limit]
    opportunities, for pairwise distinct clients.  Each of them meets the
    thresholds of the call: its premium gap is at least [min_premium_gap]
    and its opportunity score at least [min_opportunity_score].  With a
    non-empty advisor filter it carries that advisor.  Its description
    shows the premium gap of the opportunity, a set of held types that is
    not empty, and as missing types the four coverage types less the held
    ones. *)
Theorem get_insurance_gap_opportunities_meet_thresholds (db : Session)
    (agent_id : option string) (min_premium_gap : Q)
    (min_opportunity_score : Z) (limit : nat) :
  exists opportunities,
    Services.get_insurance_gap_opportunities db agent_id min_premium_gap
      min_opportunity_score limit = Ok opportunities
    /\ (length opportunities <= limit)%nat
    /\ NoDup (InsuranceOpportunity.user_id <$> opportunities)
    /\ forall o, o ∈ opportunities ->
         (min_premium_gap <= InsuranceOpportunity.premium_gap o)%Q
         /\ (min_opportunity_score
             <= InsuranceOpportunity.opportunity_score o)%Z
         /\ (forall advisor, agent_id = Some advisor -> advisor <> "" ->
               InsuranceOpportunity.agent_id o = advisor)
         /\ exists held,
              held <> ∅
              /\ InsuranceOpportunity.opportunity_description o
                 = GapText (InsuranceOpportunity.premium_gap o) held
                     (all_types ∖ held)
              /\ InsuranceOpportunity.missing_coverage_types o
                 = all_types ∖ held.
Proof.
  destruct (get_insurance_gap_opportunities_eq db agent_id min_premium_gap
              min_opportunity_score limit) as [Heq Hrecord].
  eexists. split; [exact Heq|]. split; [|split].
  - rewrite length_take. lia.
  - apply NoDup_fmap_take_sort_desc. rewrite <- list_fmap_compose.
    apply (fold_group_body_groups
             (Services.insurance_gap_records db agent_id min_premium_gap
                min_opportunity_score limit)).
  - intros o Ho.
    apply subseteq_take, elem_of_sort_desc, list_elem_of_fmap in Ho
      as ([u data] & -> & Hin).
    destruct (Hrecord u data Hin) as (Hu & Hmem & Hq & Hheld).
    apply insurance_gap_query_iff in Hq
      as (_ & (g & Hg & Hge) & (n & Hn & Hle) & Hadv).
    simpl. rewrite Hg, Hn. simpl.
    split; [exact Hge|]. split; [exact Hle|]. split.
    + intros advisor -> Hne.
      destruct Hadv as [Hf|[_ Ha]].
      * simpl in Hf. apply negb_false_iff in Hf.
        by apply String.eqb_eq in Hf.
      * rewrite Ha. by apply or_str_Some.
    + exists (Services.data_insurance_types data).
      split; [|done]. intros Hempty. rewrite Hempty in Hheld.
      by apply not_elem_of_empty in Hheld.
Qed.

Lemma get_client_insurance_records_iff (db : Session) (u : string)
    (r : InsuranceRecord.t) :
  r ∈ Services.get_client_insurance_records db u
  <-> r ∈ insurance_records db
      /\ InsuranceRecord.user_id r = Some u
      /\ InsuranceRecord.deleted r = Some "false".
Proof.
  unfold Services.get_client_insurance_records.
  by rewrite elem_of_List_filter, andb_true_iff, !sql_eq_iff.
Qed.

(** The detail query of [get_no_insurance_clients] is the lookup
    [get_client_sip_records], cut at its first row. *)
Lemma first_sip_record_lookup (db : Session) (u : string) :
  Services.first_sip_record db (Some u)
  = head (Services.get_client_sip_records db u).
Proof.
  unfold Services.first_sip_record, Services.get_client_sip_records.
  f_equal. apply filter_ext. intros r. f_equal.
  destruct (SIPRecord.user_id r) as [x|]; simpl.
  - destruct (String.eqb_spec x u) as [->|Hne].
    + by rewrite bool_decide_eq_true_2.
    + rewrite bool_decide_eq_false_2; [done|]. by intros [= ->].
  - done.
Qed.

(** Every no-insurance opportunity was built for a client outside the set
    of insured clients, from the first row of the detail query. *)
Lemma get_no_insurance_clients_built (db : Session)
    (agent_id : option string) (min_mf_value : Q) (limit : nat)
    (opportunities : list InsuranceOpportunity.t) :
  Services.get_no_insurance_clients db agent_id min_mf_value limit
  = Ok opportunities ->
  forall o, o ∈ opportunities ->
    (InsuranceOpportunity.user_id o ∉ Services.insured_clients db)
    /\ exists sip_record,
         Services.first_sip_record db (InsuranceOpportunity.user_id o)
         = Some sip_record
         /\ InsuranceOpportunity.agent_id o
            = or_str (SIPRecord.agent_id sip_record) "0"
         /\ InsuranceOpportunity.agent_external_id o
            = or_str (SIPRecord.agent_external_id sip_record) "unassigned".
Proof.
  unfold Services.get_no_insurance_clients. intros Hget o Ho.
  destruct (for_each _ _ _) as [built|e] eqn:Hloop; simpl in Hget; [|done].
  injection Hget as <-.
  apply subseteq_take, elem_of_sort_desc in Ho.
  apply (for_each_emitted _
           (fun (g : option string * option Q) o =>
              (InsuranceOpportunity.user_id o ∉ Services.insured_clients db)
              /\ exists sip_record,
                   Services.first_sip_record db (InsuranceOpportunity.user_id o)
                   = Some sip_record
                   /\ InsuranceOpportunity.agent_id o
                      = or_str (SIPRecord.agent_id sip_record) "0"
                   /\ InsuranceOpportunity.agent_external_id o
                      = or_str (SIPRecord.agent_external_id sip_record)
                          "unassigned")) in Hloop
    as (ys & -> & Hys).
  - simpl in Ho. rewrite Forall_forall in Hys.
    by destruct (Hys o Ho) as (g & _ & H).
  - intros [u total] acc0 acc1 _. unfold Services.no_insurance_body.
    destruct (bool_decide (u ∉ Services.insured_clients db)) eqn:Hins;
      [|intros [= <-]; by left].
    apply bool_decide_eq_true in Hins.
    destruct (Services.first_sip_record db u) as [rec|] eqn:Hrec;
      [|intros [= <-]; by left].
    destruct total as [t|]; simpl; [|done].
    intros [= <-]. right. eexists. split; [reflexivity|]. simpl.
    split; [exact Hins|]. exists rec. by rewrite Hrec.
Qed.

(** X16.  The two insurance rules never name the same client.  A client of
    the no-insurance list has no policy that [get_client_insurance_records]
    would return, and the advisor of the opportunity is the advisor of the
    first plan [get_client_sip_records] returns for the client, whatever
    advisor filter was given.  A client of the coverage-gap list has at
    least one policy that [get_client_insurance_records] returns. *)
Theorem insurance_rules_name_different_clients (db : Session)
    (sip_agent_id gap_agent_id : option string)
    (min_mf_value min_premium_gap : Q) (min_opportunity_score : Z)
    (sip_limit gap_limit : nat)
    (uninsured gaps : list InsuranceOpportunity.t) :
  Services.get_no_insurance_clients db sip_agent_id min_mf_value sip_limit
  = Ok uninsured ->
  Services.get_insurance_gap_opportunities db gap_agent_id min_premium_gap
    min_opportunity_score gap_limit = Ok gaps ->
  (forall o1 o2, o1 ∈ uninsured -> o2 ∈ gaps ->
     InsuranceOpportunity.user_id o1 <> InsuranceOpportunity.user_id o2)
  /\ (forall o u, o ∈ uninsured -> InsuranceOpportunity.user_id o = Some u ->
        Services.get_client_insurance_records db u = []
        /\ exists plan,
             head (Services.get_client_sip_records db u) = Some plan
             /\ InsuranceOpportunity.agent_id o
                = or_str (SIPRecord.agent_id plan) "0")
  /\ (forall o u, o ∈ gaps -> InsuranceOpportunity.user_id o = Some u ->
        Services.get_client_insurance_records db u <> []).
Proof.
  intros Hno Hgap.
  pose proof (get_no_insurance_clients_built _ _ _ _ _ Hno) as Hbuilt.
  pose proof (get_insurance_gap_opportunities_built _ _ _ _ _ _ Hgap)
    as Hgaps.
  assert (forall o, o ∈ gaps ->
            exists r, r ∈ insurance_records db
                      /\ InsuranceRecord.deleted r = Some "false"
                      /\ InsuranceRecord.user_id r
                         = InsuranceOpportunity.user_id o) as Hpolicy.
  { intros o Ho. destruct (Hgaps o Ho) as (data & Hin & Hq & Hu & _).
    apply insurance_gap_query_iff in Hq as (Hdel & _).
    by exists (Services.data_record data). }
  split; [|split].
  - intros o1 o2 Ho1 Ho2 Heq.
    destruct (Hbuilt o1 Ho1) as [Hins _].
    destruct (Hpolicy o2 Ho2) as (r & Hin & Hdel & Hu).
    apply Hins, insured_clients_iff. exists r. by rewrite Heq.
  - intros o u Ho Hu.
    destruct (Hbuilt o Ho) as [Hins (plan & Hplan & Hagent & _)].
    rewrite Hu in Hins, Hplan. split.
    + destruct (Services.get_client_insurance_records db u) as [|r l] eqn:Hl;
        [done|].
      assert (r ∈ Services.get_client_insurance_records db u) as Hr
        by (rewrite Hl; left).
      apply get_client_insurance_records_iff in Hr as (Hin & Hru & Hdel).
      exfalso. apply Hins, insured_clients_iff. by exists r.
    + exists plan. by rewrite <- first_sip_record_lookup.
  - intros o u Ho Hu Hnil.
    destruct (Hpolicy o Ho) as (r & Hin & Hdel & Hru).
    assert (r ∈ Services.get_client_insurance_records db u) as Hr.
    { apply get_client_insurance_records_iff. by rewrite Hru, Hu. }
    rewrite Hnil in Hr. by apply elem_of_nil in Hr.
Qed.

Lemma insurance_rules_name_different_clients_witness :
  exists uninsured gaps,
    Services.get_no_insurance_clients Demo.uninsured_and_insured None 1000000
      100 = Ok uninsured
    /\ Services.get_insurance_gap_opportunities Demo.uninsured_and_insured
         None 10000 0 100 = Ok gaps
    /\ length uninsured = 1%nat
    /\ length gaps = 1%nat
    /\ forall o1 o2, o1 ∈ uninsured -> o2 ∈ gaps ->
         InsuranceOpportunity.user_id o1 <> InsuranceOpportunity.user_id o2.
Proof.
  eexists _, _.
  split; [vm_compute; reflexivity|]. split; [vm_compute; reflexivity|].
  split; [reflexivity|]. split; [reflexivity|].
  refine (proj1 (insurance_rules_name_different_clients
                   Demo.uninsured_and_insured None None 1000000 10000 0 100
                   100 _ _ _ _)); vm_compute; reflexivity.
Defined.

(** ** Statistics *)

Section StatisticsFacts.

Variable now : Z.
Variable date_parser_parse : string -> option datetime.

Local Abbreviation get_no_sip_increase_clients :=
  (Services.get_no_sip_increase_clients now date_parser_parse).
Local Abbreviation get_failed_sip_clients :=
  (Services.get_failed_sip_clients now date_parser_parse).
Local Abbreviation get_high_value_inactive_clients :=
  (Services.get_high_value_inactive_clients now date_parser_parse).
Local Abbreviation get_all_opportunities :=
  (Services.get_all_opportunities now date_parser_parse).
Local Abbreviation get_opportunity_statistics :=
  (Services.get_opportunity_statistics now date_parser_parse).

(** X14.  The statistics count what the combined view lists with
    [limit = 3000]: both run the three rules with the same thresholds and
    with limit 1000, so one returns exactly when the other does, and
    [total_opportunities] is the length of that combined list.  Each count
    of the breakdown is at most 1000 and the total at most 3000, however
    many plans qualify.  The total is the sum of the three counts, and the
    total potential revenue the sum of the three revenues. *)
Theorem get_opportunity_statistics_counts_combined_view (db : Session)
    (agent_id : option string) :
  (returns (get_opportunity_statistics db agent_id)
   <-> returns (get_all_opportunities db agent_id 3000))
  /\ forall stats,
       get_opportunity_statistics db agent_id = Ok stats ->
       exists combined,
         get_all_opportunities db agent_id 3000 = Ok combined
         /\ OpportunityStats.total_opportunities stats = length combined
         /\ (OpportunityStats.total_opportunities stats <= 3000)%nat
         /\ fst <$> OpportunityStats.breakdown_by_type stats
            = ["no_sip_increase"; "failed_sips"; "high_value_inactive"]
         /\ Forall (fun entry => (OpportunityStats.count entry.2 <= 1000)%nat)
              (OpportunityStats.breakdown_by_type stats)
         /\ OpportunityStats.total_opportunities stats
            = sum_list ((fun entry => OpportunityStats.count entry.2)
                          <$> OpportunityStats.breakdown_by_type stats)
         /\ OpportunityStats.total_potential_revenue stats
            = Services.py_sum
                ((fun entry => OpportunityStats.potential_revenue entry.2)
                   <$> OpportunityStats.breakdown_by_type stats).
Proof.
  unfold Services.get_opportunity_statistics, Services.get_all_opportunities.
  change (3000 / 3)%nat with 1000%nat.
  destruct (get_no_sip_increase_clients db agent_id 12 1000)
    as [no_increase|e1] eqn:Ha; simpl;
    [|split; [split; by intros [? [=]] | done]].
  destruct (get_failed_sip_clients db agent_id 5000 1000)
    as [failed|e2] eqn:Hb; simpl;
    [|split; [split; by intros [? [=]] | done]].
  destruct (get_high_value_inactive_clients db agent_id 100000 60 1000)
    as [inactive|e3] eqn:Hc; simpl;
    [|split; [split; by intros [? [=]] | done]].
  split; [split; intros _; by eexists|].
  assert (length no_increase <= 1000)%nat as Hla.
  { revert Ha. unfold Services.get_no_sip_increase_clients.
    apply take_bind_length. }
  assert (length failed <= 1000)%nat as Hlb.
  { revert Hb. unfold Services.get_failed_sip_clients.
    apply (take_bind_length _ (fun l => l)). }
  assert (length inactive <= 1000)%nat as Hlc.
  { revert Hc. unfold Services.get_high_value_inactive_clients.
    apply take_bind_length. }
  intros stats [= <-]. eexists. split; [reflexivity|]. simpl.
  split; [|split; [|split; [|split; [|split]]]].
  - rewrite length_take, (Permutation_length (sort_desc_perm _ _)),
      !length_app.
    lia.
  - lia.
  - reflexivity.
  - repeat (constructor; [simpl; lia|]). constructor.
  - lia.
  - reflexivity.
Qed.

End StatisticsFacts.
